(** * go-clean-architecture: user workflow, request boundary and pagination

    A shallow embedding of the user use case ([internal/usecase]), the HTTP
    handlers ([internal/handler]), the response helpers ([pkg/response]),
    the pagination DTO ([internal/dto]) and the gorm-backed repository
    ([internal/repository]), followed by the properties of the
    specification that concern them.

    Conventions.
    - Go's [int] and [int64] are 64-bit two's-complement integers: values
      are of type [Z], and every arithmetic operation wraps explicitly.
    - Go's [uint] identifiers are of type [N].
    - [time.Time] is a number of seconds ([Z]).
    - a Go result made of a pointer and an [error] is a pair of options,
      [None] standing for [nil] on either side. *)

From Stdlib Require Import ZArith NArith List String Ascii Bool Lia.
Import ListNotations.

Local Open Scope string_scope.
Local Open Scope Z_scope.

(* ================================================================== *)
(** ** Go machine integers *)

Module GoInt.

Definition MaxInt : Z := 9223372036854775807.
Definition MinInt : Z := -9223372036854775808.
Definition MaxUint64 : Z := 18446744073709551615.

Definition in_range (z : Z) : Prop := MinInt <= z <= MaxInt.

(** Two's-complement reduction of a mathematical integer to 64 bits. *)
Definition wrap (z : Z) : Z :=
  (z + 9223372036854775808) mod 18446744073709551616 - 9223372036854775808.

Definition add (a b : Z) : Z := wrap (a + b).
Definition sub (a b : Z) : Z := wrap (a - b).
Definition mul (a b : Z) : Z := wrap (a * b).

(** [a / b] and [a % b]: truncated division; a zero divisor is a run-time
    panic, rendered as [None]. *)
Definition quot (a b : Z) : option Z :=
  if b =? 0 then None else Some (wrap (Z.quot a b)).
Definition rem (a b : Z) : option Z :=
  if b =? 0 then None else Some (Z.rem a b).

End GoInt.

(* ================================================================== *)
(** ** The parts of [strconv] the handlers call *)

Module strconv.

Inductive NumError := ErrSyntax | ErrRange.

(** Value of a decimal digit; letters and every other byte are rejected
    in base 10. *)
Definition digit (c : ascii) : option Z :=
  let n := Z.of_N (N_of_ascii c) in
  if (48 <=? n) && (n <=? 57) then Some (n - 48) else None.

(** Smallest number whose product by ten exceeds [MaxUint64]. *)
Definition cutoff : Z := GoInt.MaxUint64 / 10 + 1.

(** The digit loop of [ParseUint(s, 10, bitSize)] with accumulator [n]:
    on overflow it returns [maxVal] with a range error at once, without
    looking at the remaining bytes. *)
Fixpoint ParseUint_loop (maxVal : Z) (s : string) (n : Z)
  : Z * option NumError :=
  match s with
  | EmptyString => (n, None)
  | String c rest =>
      match digit c with
      | None => (0, Some ErrSyntax)
      | Some d =>
          if cutoff <=? n then (maxVal, Some ErrRange)
          else
            let n1 := n * 10 + d in
            if (GoInt.MaxUint64 <? n1) || (maxVal <? n1)
            then (maxVal, Some ErrRange)
            else ParseUint_loop maxVal rest n1
      end
  end.

(** [strconv.ParseUint(s, 10, bitSize)] for [bitSize] in 1..64. *)
Definition ParseUint (s : string) (bitSize : Z) : Z * option NumError :=
  match s with
  | EmptyString => (0, Some ErrSyntax)
  | _ => ParseUint_loop (2 ^ bitSize - 1) s 0
  end.

(** [strconv.ParseInt(s, 10, 0)]: optional sign, then [ParseUint];
    out-of-range values saturate. *)
Definition ParseInt (s : string) : Z * option NumError :=
  match s with
  | EmptyString => (0, Some ErrSyntax)
  | String c rest =>
      let neg := Ascii.eqb c "-"%char in
      let s' := if Ascii.eqb c "+"%char || neg then rest else s in
      match ParseUint s' 64 with
      | (_, Some ErrSyntax) => (0, Some ErrSyntax)
      | (un, _) =>
          let cut := 9223372036854775808 in
          if negb neg && (cut <=? un) then (GoInt.MaxInt, Some ErrRange)
          else if neg && (cut <? un) then (GoInt.MinInt, Some ErrRange)
          else (if neg then - un else un, None)
      end
  end.

(** [strconv.Atoi]: its short-input fast path computes the same value as
    [ParseInt], which is the path rendered here. *)
Definition Atoi (s : string) : Z * option NumError := ParseInt s.

End strconv.

(* ================================================================== *)
(** ** Go errors *)

(** The error values that flow through the use case: gorm's sentinel, the
    errors the use case builds with [errors.New], and any other error
    raised by a collaborator (database driver, bcrypt, token signing). *)
Inductive error : Type :=
| gorm_ErrRecordNotFound
| errors_New (msg : string)
| external_error (msg : string).

(** [err.Error()]. *)
Definition Error_string (e : error) : string :=
  match e with
  | gorm_ErrRecordNotFound => "record not found"
  | errors_New msg => msg
  | external_error msg => msg
  end.

(** [errors.Is(err, gorm.ErrRecordNotFound)]. *)
Definition is_ErrRecordNotFound (e : error) : bool :=
  match e with
  | gorm_ErrRecordNotFound => true
  | _ => false
  end.

(* ================================================================== *)
(** ** [internal/entity] and [internal/dto] *)

Module entity.

Record User := {
  ID : N;
  Name : string;
  Email : string;
  Password : string;
  Role : string;
  IsActive : bool;
  CreatedAt : Z;
  UpdatedAt : Z;
  DeletedAt : option Z
}.

Definition set_Name (v : string) (u : User) : User :=
  {| ID := ID u; Name := v; Email := Email u; Password := Password u;
     Role := Role u; IsActive := IsActive u; CreatedAt := CreatedAt u;
     UpdatedAt := UpdatedAt u; DeletedAt := DeletedAt u |}.

Definition set_Email (v : string) (u : User) : User :=
  {| ID := ID u; Name := Name u; Email := v; Password := Password u;
     Role := Role u; IsActive := IsActive u; CreatedAt := CreatedAt u;
     UpdatedAt := UpdatedAt u; DeletedAt := DeletedAt u |}.

Definition set_Password (v : string) (u : User) : User :=
  {| ID := ID u; Name := Name u; Email := Email u; Password := v;
     Role := Role u; IsActive := IsActive u; CreatedAt := CreatedAt u;
     UpdatedAt := UpdatedAt u; DeletedAt := DeletedAt u |}.

End entity.

Module dto.

Record RegisterRequest := {
  reg_Name : string;
  reg_Email : string;
  reg_Password : string
}.

Record LoginRequest := {
  login_Email : string;
  login_Password : string
}.

Record UpdateUserRequest := {
  upd_Name : string;
  upd_Email : string;
  upd_Password : string
}.

Record UserResponse := {
  ID : N;
  Name : string;
  Email : string;
  Role : string;
  IsActive : bool;
  CreatedAt : Z;
  UpdatedAt : Z
}.

Record LoginResponse := {
  Token : string;
  User : UserResponse
}.

(** Values of an encoded JSON document, as far as the DTOs need them. *)
Inductive JSON :=
| JNumber (n : Z)
| JString (s : string)
| JBool (b : bool)
| JTime (t : Z).

(** [encoding/json] on a [UserResponse]: one member per struct field,
    named by its [json] tag, in declaration order. *)
Definition UserResponse_json (r : UserResponse) : list (string * JSON) :=
  [ ("id", JNumber (Z.of_N (ID r)));
    ("name", JString (Name r));
    ("email", JString (Email r));
    ("role", JString (Role r));
    ("is_active", JBool (IsActive r));
    ("created_at", JTime (CreatedAt r));
    ("updated_at", JTime (UpdatedAt r)) ].

Record PaginationRequest := {
  Page : Z;
  Limit : Z
}.

(** [GetOffset] mutates its receiver and returns the offset. *)
Definition GetOffset (p : PaginationRequest) : Z * PaginationRequest :=
  let page := if Page p <? 1 then 1 else Page p in
  let limit := if Limit p <? 1 then 10 else Limit p in
  (GoInt.mul (GoInt.sub page 1) limit, {| Page := page; Limit := limit |}).

Definition Normalize (p : PaginationRequest) : PaginationRequest :=
  let page := if Page p <? 1 then 1 else Page p in
  let limit := if Limit p <? 1 then 10 else Limit p in
  let limit := if 100 <? limit then 100 else limit in
  {| Page := page; Limit := limit |}.

End dto.

(* ================================================================== *)
(** ** [pkg/constants] *)

Module constants.
Definition RoleAdmin : string := "admin".
Definition RoleUser : string := "user".
Definition DefaultPage : Z := 1.
Definition DefaultLimit : Z := 10.
Definition MaxLimit : Z := 100.
End constants.

(* ================================================================== *)
(** ** [net/http] status codes and [pkg/response] *)

Module http.
Definition StatusOK : Z := 200.
Definition StatusCreated : Z := 201.
Definition StatusBadRequest : Z := 400.
Definition StatusUnauthorized : Z := 401.
Definition StatusForbidden : Z := 403.
Definition StatusNotFound : Z := 404.
Definition StatusConflict : Z := 409.
Definition StatusUnprocessableEntity : Z := 422.
Definition StatusInternalServerError : Z := 500.
End http.

Module response.

Record Meta := {
  CurrentPage : Z;
  PerPage : Z;
  Total : Z;
  TotalPages : Z
}.

(** The values the handlers store in the [interface{}] fields. *)
Inductive Payload :=
| UserData (u : dto.UserResponse)
| LoginData (l : dto.LoginResponse)
| UsersData (us : list dto.UserResponse).

Record Response := {
  Success : bool;
  Message : string;
  Data : option Payload;
  Error : option (list (string * string));
  Meta_ : option Meta
}.

(** What [c.JSON(status, body)] writes to the client. *)
Record Written := {
  Status : Z;
  Body : Response
}.

Definition JSON (statusCode : Z) (body : Response) : Written :=
  {| Status := statusCode; Body := body |}.

Definition Success_ (message : string) (data : option Payload) : Written :=
  JSON http.StatusOK
    {| Success := true; Message := message; Data := data;
       Error := None; Meta_ := None |}.

Definition SuccessWithMeta (message : string) (data : option Payload)
    (meta : Meta) : Written :=
  JSON http.StatusOK
    {| Success := true; Message := message; Data := data;
       Error := None; Meta_ := Some meta |}.

Definition Created (message : string) (data : option Payload) : Written :=
  JSON http.StatusCreated
    {| Success := true; Message := message; Data := data;
       Error := None; Meta_ := None |}.

Definition Error_ (statusCode : Z) (message : string)
    (err : option (list (string * string))) : Written :=
  JSON statusCode
    {| Success := false; Message := message; Data := None;
       Error := err; Meta_ := None |}.

Definition BadRequest (message : string)
    (err : option (list (string * string))) : Written :=
  Error_ http.StatusBadRequest message err.

Definition Unauthorized (message : string) : Written :=
  Error_ http.StatusUnauthorized message None.

Definition Forbidden (message : string) : Written :=
  Error_ http.StatusForbidden message None.

Definition NotFound (message : string) : Written :=
  Error_ http.StatusNotFound message None.

Definition Conflict (message : string) : Written :=
  Error_ http.StatusConflict message None.

Definition InternalServerError (message : string) : Written :=
  Error_ http.StatusInternalServerError message None.

Definition ValidationError (errors : list (string * string)) : Written :=
  JSON http.StatusUnprocessableEntity
    {| Success := false; Message := "Validation failed"; Data := None;
       Error := Some errors; Meta_ := None |}.

(** [BuildMeta]: [int(total)] is the identity on a 64-bit platform; the
    division panics on [perPage = 0]. *)
Definition BuildMeta (page perPage total : Z) : option Meta :=
  match GoInt.quot total perPage, GoInt.rem total perPage with
  | Some totalPages, Some r =>
      let totalPages :=
        if 0 <? r then GoInt.add totalPages 1 else totalPages in
      Some {| CurrentPage := page; PerPage := perPage;
              Total := total; TotalPages := totalPages |}
  | _, _ => None
  end.

End response.

(* ================================================================== *)
(** ** The database behind gorm *)

(** A relational model of the [users] table and of the gorm statements the
    repository issues.  Queries see only the rows that are not
    soft-deleted; the unique index on [email] covers every row.
    Instants are nanoseconds since the epoch, as [time.Time] has them. *)
Module gorm.

Record DB := {
  rows : list entity.User;
  next_id : N;              (* the sequence behind the primary key *)
  now : Z;                  (* the clock *)
  failure : option string   (* the driver's error while the link is down *)
}.

(** What a timestamp column of PostgreSQL keeps of an instant: the
    microseconds.  The struct a statement was given keeps the
    nanoseconds of the clock; a row read back has them cut off. *)
Definition column_time (t : Z) : Z := t / 1000 * 1000.

(** The row written for [u]. *)
Definition stored (u : entity.User) : entity.User :=
  {| entity.ID := entity.ID u;
     entity.Name := entity.Name u;
     entity.Email := entity.Email u;
     entity.Password := entity.Password u;
     entity.Role := entity.Role u;
     entity.IsActive := entity.IsActive u;
     entity.CreatedAt := column_time (entity.CreatedAt u);
     entity.UpdatedAt := column_time (entity.UpdatedAt u);
     entity.DeletedAt := option_map column_time (entity.DeletedAt u) |}.

Definition visible (u : entity.User) : bool :=
  match entity.DeletedAt u with
  | None => true
  | Some _ => false
  end.

Definition duplicate_key : error :=
  external_error "duplicate key value violates unique constraint".

(** [First(&user)] under condition [cond]. *)
Definition First (db : DB) (cond : entity.User -> bool)
  : option entity.User * option error :=
  match failure db with
  | Some msg => (None, Some (external_error msg))
  | None =>
      match find (fun u => visible u && cond u) (rows db) with
      | Some u => (Some u, None)
      | None => (None, Some gorm_ErrRecordNotFound)
      end
  end.

(** [Model(&entity.User{}).Count(&total)]. *)
Definition Count (db : DB) : Z * option error :=
  match failure db with
  | Some msg => (0, Some (external_error msg))
  | None => (Z.of_nat (List.length (filter visible (rows db))), None)
  end.

(** [Offset(offset).Limit(limit).Find(&users)]: the offset clause is
    emitted for a positive offset, the limit clause for a non-negative
    limit. *)
Definition Find (db : DB) (offset limit : Z)
  : list entity.User * option error :=
  match failure db with
  | Some msg => ([], Some (external_error msg))
  | None =>
      let found := filter visible (rows db) in
      let found := if 0 <? offset then skipn (Z.to_nat offset) found
                   else found in
      let found := if 0 <=? limit then firstn (Z.to_nat limit) found
                   else found in
      (found, None)
  end.

(** [Create(user)]: a zero identifier is drawn from the sequence, zero
    timestamps are set to the clock, and a zero value in a column that
    has a default ([role], [is_active]) is replaced by the default.  The
    struct handed back is the one gorm filled in, not the row read
    back: its timestamps are those of the clock. *)
Definition Create (db : DB) (user : entity.User)
  : DB * entity.User * option error :=
  match failure db with
  | Some msg => (db, user, Some (external_error msg))
  | None =>
      let id := if (entity.ID user =? 0)%N then next_id db
                else entity.ID user in
      if existsb (fun r => (entity.Email r =? entity.Email user)%string
                           || (entity.ID r =? id)%N) (rows db)
      then (db, user, Some duplicate_key)
      else
        let user' :=
          {| entity.ID := id;
             entity.Name := entity.Name user;
             entity.Email := entity.Email user;
             entity.Password := entity.Password user;
             entity.Role := if (entity.Role user =? "")%string then "user"
                            else entity.Role user;
             entity.IsActive := true;
             entity.CreatedAt := if entity.CreatedAt user =? 0 then now db
                                 else entity.CreatedAt user;
             entity.UpdatedAt := if entity.UpdatedAt user =? 0 then now db
                                 else entity.UpdatedAt user;
             entity.DeletedAt := entity.DeletedAt user |} in
        ({| rows := rows db ++ [stored user'];
            next_id := if (entity.ID user =? 0)%N then N.succ (next_id db)
                       else next_id db;
            now := now db;
            failure := None |},
         user', None)
  end.

(** [Save(user)]: with a zero primary key it is [Create]; otherwise every
    column of the row that has the key is written, the update time
    being set to the clock, and a missing row is inserted. *)
Definition Save (db : DB) (user : entity.User)
  : DB * entity.User * option error :=
  if (entity.ID user =? 0)%N then Create db user
  else
    match failure db with
    | Some msg => (db, user, Some (external_error msg))
    | None =>
        if existsb (fun r => (entity.Email r =? entity.Email user)%string
                             && negb (entity.ID r =? entity.ID user)%N)
             (rows db)
        then (db, user, Some duplicate_key)
        else
          let user' :=
            {| entity.ID := entity.ID user;
               entity.Name := entity.Name user;
               entity.Email := entity.Email user;
               entity.Password := entity.Password user;
               entity.Role := entity.Role user;
               entity.IsActive := entity.IsActive user;
               entity.CreatedAt := entity.CreatedAt user;
               entity.UpdatedAt := now db;
               entity.DeletedAt := entity.DeletedAt user |} in
          let rows' :=
            if existsb (fun r => (entity.ID r =? entity.ID user)%N) (rows db)
            then map (fun r => if (entity.ID r =? entity.ID user)%N
                               then stored user' else r) (rows db)
            else (rows db ++ [stored user'])%list in
          ({| rows := rows'; next_id := next_id db; now := now db;
              failure := None |},
           user', None)
    end.

(** [Delete(&entity.User{}, id)]: the model has a deletion mark, so the
    statement sets it on the visible row with that key. *)
Definition Delete (db : DB) (id : N) : DB * option error :=
  match failure db with
  | Some msg => (db, Some (external_error msg))
  | None =>
      ({| rows := map (fun r =>
                         if (entity.ID r =? id)%N && visible r
                         then {| entity.ID := entity.ID r;
                                 entity.Name := entity.Name r;
                                 entity.Email := entity.Email r;
                                 entity.Password := entity.Password r;
                                 entity.Role := entity.Role r;
                                 entity.IsActive := entity.IsActive r;
                                 entity.CreatedAt := entity.CreatedAt r;
                                 entity.UpdatedAt := entity.UpdatedAt r;
                                 entity.DeletedAt :=
                                   Some (column_time (now db)) |}
                         else r) (rows db);
          next_id := next_id db; now := now db; failure := None |},
       None)
  end.

End gorm.

(* ================================================================== *)
(** ** [internal/repository] *)

Module repository.

(** [UserRepository] over a store of type [DB].  Look-ups only read the
    store; [Create] and [Update] receive a pointer to the user and may
    write to it (identifier, timestamps), so they return the user too. *)
Class UserRepository (DB : Type) := {
  Create : DB -> entity.User -> DB * entity.User * option error;
  FindByID : DB -> N -> option entity.User * option error;
  FindByEmail : DB -> string -> option entity.User * option error;
  FindAll : DB -> Z -> Z -> list entity.User * Z * option error;
  Update : DB -> entity.User -> DB * entity.User * option error;
  Delete : DB -> N -> DB * option error
}.

(** One entry per call made through the interface, in order. *)
Inductive Call :=
| CallCreate (user : entity.User)
| CallFindByID (id : N)
| CallFindByEmail (email : string)
| CallFindAll (page limit : Z)
| CallUpdate (user : entity.User)
| CallDelete (id : N).

Definition is_CallCreate (c : Call) : bool :=
  match c with CallCreate _ => true | _ => false end.

Definition is_CallUpdate (c : Call) : bool :=
  match c with CallUpdate _ => true | _ => false end.

(** The gorm-backed implementation, [userRepository]. *)

Definition userRepository_Create (db : gorm.DB) (user : entity.User)
  : gorm.DB * entity.User * option error :=
  gorm.Create db user.

Definition userRepository_FindByID (db : gorm.DB) (id : N)
  : option entity.User * option error :=
  match gorm.First db (fun u => (entity.ID u =? id)%N) with
  | (_, Some err) => (None, Some err)
  | (user, None) => (user, None)
  end.

Definition userRepository_FindByEmail (db : gorm.DB) (email : string)
  : option entity.User * option error :=
  match gorm.First db (fun u => (entity.Email u =? email)%string) with
  | (_, Some err) => (None, Some err)
  | (user, None) => (user, None)
  end.

(** Line 47 of [FindAll]: [offset := (page - 1) * limit], in [int]
    arithmetic. *)
Definition FindAll_offset (page limit : Z) : Z :=
  GoInt.mul (GoInt.sub page 1) limit.

Definition userRepository_FindAll (db : gorm.DB) (page limit : Z)
  : list entity.User * Z * option error :=
  let offset := FindAll_offset page limit in
  match gorm.Count db with
  | (_, Some err) => ([], 0, Some err)
  | (total, None) =>
      match gorm.Find db offset limit with
      | (_, Some err) => ([], 0, Some err)
      | (users, None) => (users, total, None)
      end
  end.

Definition userRepository_Update (db : gorm.DB) (user : entity.User)
  : gorm.DB * entity.User * option error :=
  gorm.Save db user.

Definition userRepository_Delete (db : gorm.DB) (id : N)
  : gorm.DB * option error :=
  gorm.Delete db id.

#[global] Instance userRepository : UserRepository gorm.DB := {
  Create := userRepository_Create;
  FindByID := userRepository_FindByID;
  FindByEmail := userRepository_FindByEmail;
  FindAll := userRepository_FindAll;
  Update := userRepository_Update;
  Delete := userRepository_Delete
}.

End repository.

(* ================================================================== *)
(** ** The request monad: store, call log, panics *)

(** The state a request runs in: the store behind the repository and the
    log of repository calls made so far. *)
Record World (DB : Type) := mkWorld {
  store : DB;
  calls : list repository.Call
}.
Arguments mkWorld {DB} _ _.
Arguments store {DB} _.
Arguments calls {DB} _.

(** A computation either panics ([None]: nil pointer dereference, integer
    division by zero) or yields a value and the next state. *)
Definition M (DB A : Type) : Type := World DB -> option (A * World DB).

Definition ret {DB A} (a : A) : M DB A := fun w => Some (a, w).

Definition bind {DB A B} (m : M DB A) (k : A -> M DB B) : M DB B :=
  fun w => match m w with
           | Some (a, w') => k a w'
           | None => None
           end.

Definition panic {DB A} : M DB A := fun _ => None.

Notation "x <- m ;; k" := (bind m (fun x => k))
  (at level 61, m at next level, right associativity).
Notation "' pat <- m ;; k" := (bind m (fun x => match x with pat => k end))
  (at level 61, pat pattern, m at next level, right associativity).

(** [*p] for a pointer [p]. *)
Definition deref {DB A} (p : option A) : M DB A :=
  match p with
  | Some a => ret a
  | None => panic
  end.

(** [p != nil] for pointers and errors. *)
Definition not_nil {A} (p : option A) : bool :=
  match p with
  | Some _ => true
  | None => false
  end.

(** [errors.Is(err, gorm.ErrRecordNotFound)] on a possibly nil error. *)
Definition errors_Is_ErrRecordNotFound (err : option error) : bool :=
  match err with
  | Some e => is_ErrRecordNotFound e
  | None => false
  end.

(* ================================================================== *)
(** ** [internal/usecase] *)

Module usecase.

Section userUseCase.

Context {DB : Type} {userRepo : repository.UserRepository DB}.

(** [utils.HashPassword], [utils.CheckPassword] and the token issuer of
    the JWT manager held by the use case. *)
Variable HashPassword : string -> string * option error.
Variable CheckPassword : string -> string -> bool.
Variable GenerateToken : N -> string -> string -> string * option error.

(** Calls through [u.userRepo], each one logged. *)
Definition repo_Create (user : entity.User)
  : M DB (entity.User * option error) :=
  fun w =>
    let '(db, user', err) := repository.Create (store w) user in
    Some ((user', err),
          mkWorld db (calls w ++ [repository.CallCreate user])).

Definition repo_FindByID (id : N)
  : M DB (option entity.User * option error) :=
  fun w =>
    Some (repository.FindByID (store w) id,
          mkWorld (store w) (calls w ++ [repository.CallFindByID id])).

Definition repo_FindByEmail (email : string)
  : M DB (option entity.User * option error) :=
  fun w =>
    Some (repository.FindByEmail (store w) email,
          mkWorld (store w)
            (calls w ++ [repository.CallFindByEmail email])).

Definition repo_FindAll (page limit : Z)
  : M DB (list entity.User * Z * option error) :=
  fun w =>
    Some (repository.FindAll (store w) page limit,
          mkWorld (store w)
            (calls w ++ [repository.CallFindAll page limit])).

Definition repo_Update (user : entity.User)
  : M DB (entity.User * option error) :=
  fun w =>
    let '(db, user', err) := repository.Update (store w) user in
    Some ((user', err),
          mkWorld db (calls w ++ [repository.CallUpdate user])).

Definition repo_Delete (id : N) : M DB (option error) :=
  fun w =>
    let '(db, err) := repository.Delete (store w) id in
    Some (err, mkWorld db (calls w ++ [repository.CallDelete id])).

Definition Register (req : dto.RegisterRequest)
  : M DB (option dto.UserResponse * option error) :=
  '(existingUser, err) <- repo_FindByEmail (dto.reg_Email req) ;;
  if not_nil err && negb (errors_Is_ErrRecordNotFound err)
  then ret (None, err)
  else if not_nil existingUser
  then ret (None, Some (errors_New "email already registered"))
  else
    let '(hashedPassword, err) := HashPassword (dto.reg_Password req) in
    if not_nil err then ret (None, err)
    else
      let user :=
        {| entity.ID := 0%N;
           entity.Name := dto.reg_Name req;
           entity.Email := dto.reg_Email req;
           entity.Password := hashedPassword;
           entity.Role := "user";
           entity.IsActive := true;
           entity.CreatedAt := 0;
           entity.UpdatedAt := 0;
           entity.DeletedAt := None |} in
      '(user, err) <- repo_Create user ;;
      if not_nil err then ret (None, err)
      else
        ret (Some {| dto.ID := entity.ID user;
                     dto.Name := entity.Name user;
                     dto.Email := entity.Email user;
                     dto.Role := entity.Role user;
                     dto.IsActive := entity.IsActive user;
                     dto.CreatedAt := entity.CreatedAt user;
                     dto.UpdatedAt := entity.UpdatedAt user |},
             None).

Definition Login (req : dto.LoginRequest)
  : M DB (option dto.LoginResponse * option error) :=
  '(user, err) <- repo_FindByEmail (dto.login_Email req) ;;
  if not_nil err
  then
    if errors_Is_ErrRecordNotFound err
    then ret (None, Some (errors_New "invalid email or password"))
    else ret (None, err)
  else
    user <- deref user ;;
    if negb (CheckPassword (dto.login_Password req) (entity.Password user))
    then ret (None, Some (errors_New "invalid email or password"))
    else if negb (entity.IsActive user)
    then ret (None, Some (errors_New "account is not active"))
    else
      let '(token, err) :=
        GenerateToken (entity.ID user) (entity.Email user)
          (entity.Role user) in
      if not_nil err then ret (None, err)
      else
        ret (Some {| dto.Token := token;
                     dto.User :=
                       {| dto.ID := entity.ID user;
                          dto.Name := entity.Name user;
                          dto.Email := entity.Email user;
                          dto.Role := entity.Role user;
                          dto.IsActive := entity.IsActive user;
                          dto.CreatedAt := entity.CreatedAt user;
                          dto.UpdatedAt := entity.UpdatedAt user |} |},
             None).

Definition GetByID (id : N)
  : M DB (option dto.UserResponse * option error) :=
  '(user, err) <- repo_FindByID id ;;
  if not_nil err
  then
    if errors_Is_ErrRecordNotFound err
    then ret (None, Some (errors_New "user not found"))
    else ret (None, err)
  else
    user <- deref user ;;
    ret (Some {| dto.ID := entity.ID user;
                 dto.Name := entity.Name user;
                 dto.Email := entity.Email user;
                 dto.Role := entity.Role user;
                 dto.IsActive := entity.IsActive user;
                 dto.CreatedAt := entity.CreatedAt user;
                 dto.UpdatedAt := entity.UpdatedAt user |},
         None).

Definition GetAll (page limit : Z)
  : M DB (list dto.UserResponse * Z * option error) :=
  '(users, total, err) <- repo_FindAll page limit ;;
  if not_nil err then ret ([], 0, err)
  else
    let response :=
      map (fun user =>
             {| dto.ID := entity.ID user;
                dto.Name := entity.Name user;
                dto.Email := entity.Email user;
                dto.Role := entity.Role user;
                dto.IsActive := entity.IsActive user;
                dto.CreatedAt := entity.CreatedAt user;
                dto.UpdatedAt := entity.UpdatedAt user |}) users in
    ret (response, total, None).

(** [Update], read from its last block to its first: each block either
    returns early or falls through to the next one. *)

(** Lines 196-208: persist, then build the response from the user the
    repository wrote to. *)
Definition Update_save (user : entity.User)
  : M DB (option dto.UserResponse * option error) :=
  '(user, err) <- repo_Update user ;;
  if not_nil err then ret (None, err)
  else
    ret (Some {| dto.ID := entity.ID user;
                 dto.Name := entity.Name user;
                 dto.Email := entity.Email user;
                 dto.Role := entity.Role user;
                 dto.IsActive := entity.IsActive user;
                 dto.CreatedAt := entity.CreatedAt user;
                 dto.UpdatedAt := entity.UpdatedAt user |},
         None).

(** Lines 188-194: the password block. *)
Definition Update_password (req : dto.UpdateUserRequest)
    (user : entity.User)
  : M DB (option dto.UserResponse * option error) :=
  if negb (dto.upd_Password req =? "")%string
  then
    let '(hashedPassword, err) := HashPassword (dto.upd_Password req) in
    if not_nil err then ret (None, err)
    else Update_save (entity.set_Password hashedPassword user)
  else Update_save user.

(** Lines 177-187: the e-mail block. *)
Definition Update_email (id : N) (req : dto.UpdateUserRequest)
    (user : entity.User)
  : M DB (option dto.UserResponse * option error) :=
  if negb (dto.upd_Email req =? "")%string
  then
    '(existingUser, err) <- repo_FindByEmail (dto.upd_Email req) ;;
    if not_nil err && negb (errors_Is_ErrRecordNotFound err)
    then ret (None, err)
    else if match existingUser with
            | Some existing => negb (entity.ID existing =? id)%N
            | None => false
            end
    then ret (None, Some (errors_New "email already taken"))
    else Update_password req (entity.set_Email (dto.upd_Email req) user)
  else Update_password req user.

Definition Update (id : N) (req : dto.UpdateUserRequest)
  : M DB (option dto.UserResponse * option error) :=
  '(user, err) <- repo_FindByID id ;;
  if not_nil err
  then
    if errors_Is_ErrRecordNotFound err
    then ret (None, Some (errors_New "user not found"))
    else ret (None, err)
  else
    user <- deref user ;;
    if negb (dto.upd_Name req =? "")%string
    then Update_email id req (entity.set_Name (dto.upd_Name req) user)
    else Update_email id req user.

Definition Delete (id : N) : M DB (option error) :=
  '(_, err) <- repo_FindByID id ;;
  if not_nil err
  then
    if errors_Is_ErrRecordNotFound err
    then ret (Some (errors_New "user not found"))
    else ret err
  else repo_Delete id.

End userUseCase.

End usecase.

(* ================================================================== *)
(** * [gin]: the values of a request context *)

Module gin.

(** What [c.Get] returns for a key that exists, an [any]: for the key
    "userID" it is the [uint] the handler expects, or a value of another
    dynamic type ([text] is its printed form).  The middleware that
    stores it is not part of these sources. *)
Inductive Value :=
| Uint (n : N)
| Other (text : string).

End gin.

(* ================================================================== *)
(** ** [internal/handler] *)

Module handler.

(** Outcome of [c.ShouldBindJSON(&req)]: the decoded and validated body,
    or the validation errors as [FormatValidationErrors] maps them. *)
Inductive Bind (A : Type) :=
| Bound (req : A)
| BindFailed (errors : list (string * string)).
Arguments Bound {A} _.
Arguments BindFailed {A} _.

(** [c.DefaultQuery(key, defaultValue)] on the value of [key], if the
    query string has one. *)
Definition DefaultQuery (value : option string) (defaultValue : string)
  : string :=
  match value with
  | Some v => v
  | None => defaultValue
  end.

(** Lines 119-127 of [GetUsers]: the page and limit handed to the use
    case, from the raw [page] and [limit] query values. *)
Definition GetUsers_params (pageQuery limitQuery : option string) : Z * Z :=
  let page := fst (strconv.Atoi (DefaultQuery pageQuery "1")) in
  let limit := fst (strconv.Atoi (DefaultQuery limitQuery "10")) in
  let page := if page <? 1 then 1 else page in
  let limit := if (limit <? 1) || (100 <? limit) then 10 else limit in
  (page, limit).

Section UserHandler.

Context {DB : Type} {userRepo : repository.UserRepository DB}.
Variable HashPassword : string -> string * option error.
Variable CheckPassword : string -> string -> bool.
Variable GenerateToken : N -> string -> string -> string * option error.

Definition Register (body : Bind dto.RegisterRequest)
  : M DB response.Written :=
  match body with
  | BindFailed errors => ret (response.ValidationError errors)
  | Bound req =>
      '(user, err) <- usecase.Register HashPassword req ;;
      match err with
      | Some e => ret (response.BadRequest (Error_string e) None)
      | None =>
          ret (response.Created "User registered successfully"
                 (option_map response.UserData user))
      end
  end.

Definition Login (body : Bind dto.LoginRequest)
  : M DB response.Written :=
  match body with
  | BindFailed errors => ret (response.ValidationError errors)
  | Bound req =>
      '(result, err) <-
        usecase.Login CheckPassword GenerateToken req ;;
      match err with
      | Some e => ret (response.Unauthorized (Error_string e))
      | None =>
          ret (response.Success_ "Login successful"
                 (option_map response.LoginData result))
      end
  end.

Definition GetUser (idParam : string) : M DB response.Written :=
  match strconv.ParseUint idParam 32 with
  | (_, Some _) => ret (response.BadRequest "Invalid user ID" None)
  | (id, None) =>
      '(user, err) <- usecase.GetByID (Z.to_N id) ;;
      match err with
      | Some e => ret (response.NotFound (Error_string e))
      | None =>
          ret (response.Success_ "User retrieved successfully"
                 (option_map response.UserData user))
      end
  end.

Definition GetUsers (pageQuery limitQuery : option string)
  : M DB response.Written :=
  let '(page, limit) := GetUsers_params pageQuery limitQuery in
  '(users, total, err) <- usecase.GetAll page limit ;;
  match err with
  | Some e => ret (response.InternalServerError (Error_string e))
  | None =>
      (* the division inside [BuildMeta] panics on a zero limit *)
      meta <- deref (response.BuildMeta page limit total) ;;
      ret (response.SuccessWithMeta "Users retrieved successfully"
             (Some (response.UsersData users)) meta)
  end.

Definition UpdateUser (idParam : string)
    (body : Bind dto.UpdateUserRequest) : M DB response.Written :=
  match strconv.ParseUint idParam 32 with
  | (_, Some _) => ret (response.BadRequest "Invalid user ID" None)
  | (id, None) =>
      match body with
      | BindFailed errors => ret (response.ValidationError errors)
      | Bound req =>
          '(user, err) <-
            usecase.Update HashPassword (Z.to_N id) req ;;
          match err with
          | Some e => ret (response.BadRequest (Error_string e) None)
          | None =>
              ret (response.Success_ "User updated successfully"
                     (option_map response.UserData user))
          end
      end
  end.

Definition DeleteUser (idParam : string) : M DB response.Written :=
  match strconv.ParseUint idParam 32 with
  | (_, Some _) => ret (response.BadRequest "Invalid user ID" None)
  | (id, None) =>
      err <- usecase.Delete (Z.to_N id) ;;
      match err with
      | Some e => ret (response.NotFound (Error_string e))
      | None => ret (response.Success_ "User deleted successfully" None)
      end
  end.

(** [userID] is what [c.Get("userID")] returns, if the key exists.  The
    assertion [userID.(uint)] at line 218 is the one-result form, so a
    value of another type panics, before any repository call. *)
Definition GetCurrentUser (userID : option gin.Value)
  : M DB response.Written :=
  match userID with
  | None => ret (response.Unauthorized "User not authenticated")
  | Some value =>
      id <- match value with
            | gin.Uint n => ret n
            | gin.Other _ => panic
            end ;;
      '(user, err) <- usecase.GetByID id ;;
      match err with
      | Some e => ret (response.NotFound (Error_string e))
      | None =>
          ret (response.Success_ "User retrieved successfully"
                 (option_map response.UserData user))
      end
  end.

End UserHandler.

End handler.

(* ================================================================== *)
(** ** The token service *)

Module jwt.

(** Modelled from the spec: the claim set a token binds, section 3
    (user id, email, role, issued-at, expiry); [pkg/utils/jwt.go] is not
    part of the sources at hand. *)
Record Claims := {
  UserID : N;
  Email : string;
  Role : string;
  IssuedAt : Z;
  ExpiresAt : Z
}.

(** Modelled from the spec: a token string as its decoder sees it, either
    a claim set with a signature or structurally malformed text. *)
Inductive Token :=
| Signed (claims : Claims) (signature : string)
| Malformed (raw : string).

(** Modelled from the spec: the identity [verify] hands back. *)
Record Identity := {
  id_UserID : N;
  id_Email : string;
  id_Role : string
}.

(** Modelled from the spec: the causes for which [verify] fails,
    section 4.2. *)
Inductive AuthError :=
| ErrInvalidSignature
| ErrMalformedToken
| ErrExpiredToken.

(** Modelled from the spec: the token service holds the shared secret
    and the configured expiry duration, and nothing else. *)
Record JWTManager := {
  secretKey : string;
  expireDuration : Z
}.

Section TokenService.

(** The keyed signing primitive. *)
Variable sign : string -> Claims -> string.

(** Modelled from the spec: [issue(userID, email, role)] at time [now]
    returns a signed token expiring after the configured duration from
    issuance. *)
Definition issue (m : JWTManager) (now : Z)
    (userID : N) (email role : string) : Token :=
  let claims :=
    {| UserID := userID; Email := email; Role := role;
       IssuedAt := now; ExpiresAt := now + expireDuration m |} in
  Signed claims (sign (secretKey m) claims).

(** Modelled from the spec: [verify(token)] at time [now] returns the
    embedded identity, or fails when the token is structurally
    malformed, the signature is invalid, or the current time is past
    the embedded expiry. *)
Definition verify (m : JWTManager) (now : Z) (token : Token)
  : Identity + AuthError :=
  match token with
  | Malformed _ => inr ErrMalformedToken
  | Signed claims signature =>
      if negb (signature =? sign (secretKey m) claims)%string
      then inr ErrInvalidSignature
      else if ExpiresAt claims <? now
      then inr ErrExpiredToken
      else inl {| id_UserID := UserID claims;
                  id_Email := Email claims;
                  id_Role := Role claims |}
  end.

End TokenService.

End jwt.

(* ================================================================== *)
(** ** Stand-ins for running the use case on concrete inputs *)

(** The bcrypt wrappers and the token issuer are collaborators of the use
    case; the definitions above take them as parameters.  These stand-ins
    instantiate them where a concrete run is evaluated. *)
Module standin.

Definition HashPassword (password : string) : string * option error :=
  ("$2a$10$" ++ password, None).

Definition CheckPassword (password hash : string) : bool :=
  (hash =? "$2a$10$" ++ password)%string.

Definition GenerateToken (id : N) (email role : string)
  : string * option error :=
  (email ++ "." ++ role, None).

Definition sign (secret : string) (claims : jwt.Claims) : string :=
  secret ++ "." ++ jwt.Email claims ++ "." ++ jwt.Role claims.

Definition alice : entity.User :=
  {| entity.ID := 1%N; entity.Name := "Alice";
     entity.Email := "alice@example.com";
     entity.Password := "$2a$10$password123";
     entity.Role := "user"; entity.IsActive := true;
     entity.CreatedAt := 1700000000000000000;
     entity.UpdatedAt := 1700000000000000000;
     entity.DeletedAt := None |}.

(** An account whose active flag is off. *)
Definition bob : entity.User :=
  {| entity.ID := 2%N; entity.Name := "Bob";
     entity.Email := "bob@example.com";
     entity.Password := "$2a$10$hunter22";
     entity.Role := "user"; entity.IsActive := false;
     entity.CreatedAt := 1700000100000000000;
     entity.UpdatedAt := 1700000100000000000;
     entity.DeletedAt := None |}.

Definition db : gorm.DB :=
  {| gorm.rows := [alice; bob]; gorm.next_id := 3%N;
     gorm.now := 1700000500123456789; gorm.failure := None |}.

Definition world : World gorm.DB := mkWorld db [].

End standin.

(* ================================================================== *)
(** ** Vocabulary of the statements *)

(** The state after a single [FindByEmail] call. *)
Definition after_FindByEmail {DB : Type} (w : World DB) (email : string)
  : World DB :=
  mkWorld (store w) (calls w ++ [repository.CallFindByEmail email]).

(** The state after a single [FindByID] call. *)
Definition after_FindByID {DB : Type} (w : World DB) (id : N) : World DB :=
  mkWorld (store w) (calls w ++ [repository.CallFindByID id]).

(** The struct literal every use case returns: the fields of a user that
    a [UserResponse] copies. *)
Definition public_view (user : entity.User) : dto.UserResponse :=
  {| dto.ID := entity.ID user;
     dto.Name := entity.Name user;
     dto.Email := entity.Email user;
     dto.Role := entity.Role user;
     dto.IsActive := entity.IsActive user;
     dto.CreatedAt := entity.CreatedAt user;
     dto.UpdatedAt := entity.UpdatedAt user |}.

(** The user [Register] builds at lines 55-61, before [Create] fills in
    the identifier and the timestamps. *)
Definition new_user (HashPassword : string -> string * option error)
    (req : dto.RegisterRequest) : entity.User :=
  {| entity.ID := 0%N;
     entity.Name := dto.reg_Name req;
     entity.Email := dto.reg_Email req;
     entity.Password := fst (HashPassword (dto.reg_Password req));
     entity.Role := "user";
     entity.IsActive := true;
     entity.CreatedAt := 0;
     entity.UpdatedAt := 0;
     entity.DeletedAt := None |}.

(** The member names of the public user view. *)
Definition public_fields : list string :=
  ["id"; "name"; "email"; "role"; "is_active"; "created_at"; "updated_at"].

(* ================================================================== *)
(** ** [pkg/apperrors] *)

Module apperrors.

(** An error value together with its chain: a leaf (an [errors.New]
    value, a library sentinel), a wrapper built by [fmt.Errorf] with the
    verb [%w] (its text is the formatted string), or an [*AppError]. *)
#[warnings="-register-all"]
Inductive goerror :=
| Leaf (e : error)
| Wrapf (text : string) (inner : goerror)
| AppErr (Code : Z) (Message : string) (Err : option goerror).

(** The fields of an [AppError]. *)
Record AppError := {
  Code : Z;
  Message : string;
  Err : option goerror
}.

Definition as_error (a : AppError) : goerror :=
  AppErr (Code a) (Message a) (Err a).

(** [err.Error()]; for an [*AppError] it is the method at lines 17-22. *)
Fixpoint Error_text (err : goerror) : string :=
  match err with
  | Leaf e => Error_string e
  | Wrapf text _ => text
  | AppErr _ message None => message
  | AppErr _ message (Some inner) => message ++ ": " ++ Error_text inner
  end.

(** [errors.Unwrap]; for an [*AppError] it is the method at lines 25-27. *)
Definition Unwrap (err : goerror) : option goerror :=
  match err with
  | Leaf _ => None
  | Wrapf _ inner => Some inner
  | AppErr _ _ inner => inner
  end.

Definition ErrNotFound : AppError :=
  {| Code := http.StatusNotFound; Message := "Resource not found";
     Err := None |}.
Definition ErrBadRequest : AppError :=
  {| Code := http.StatusBadRequest; Message := "Bad request"; Err := None |}.
Definition ErrUnauthorized : AppError :=
  {| Code := http.StatusUnauthorized; Message := "Unauthorized";
     Err := None |}.
Definition ErrForbidden : AppError :=
  {| Code := http.StatusForbidden; Message := "Forbidden"; Err := None |}.
Definition ErrConflict : AppError :=
  {| Code := http.StatusConflict; Message := "Resource conflict";
     Err := None |}.
Definition ErrInternalServer : AppError :=
  {| Code := http.StatusInternalServerError;
     Message := "Internal server error"; Err := None |}.
Definition ErrValidation : AppError :=
  {| Code := http.StatusUnprocessableEntity; Message := "Validation error";
     Err := None |}.
Definition ErrInvalidCredential : AppError :=
  {| Code := http.StatusUnauthorized; Message := "Invalid email or password";
     Err := None |}.
Definition ErrUserNotActive : AppError :=
  {| Code := http.StatusForbidden; Message := "User account is not active";
     Err := None |}.
Definition ErrEmailTaken : AppError :=
  {| Code := http.StatusConflict; Message := "Email is already registered";
     Err := None |}.

Definition NewAppError (code : Z) (message : string) (err : option goerror)
  : AppError :=
  {| Code := code; Message := message; Err := err |}.

(** [appErr] is a pointer that is not nil. *)
Definition WrapError (appErr : AppError) (err : option goerror) : AppError :=
  {| Code := Code appErr; Message := Message appErr; Err := err |}.

(** [errors.As(err, &appErr)] for a target of type [*AppError]: the first
    [*AppError] on the chain of [err], if there is one. *)
Fixpoint errors_As (err : goerror) : option AppError :=
  match err with
  | Leaf _ => None
  | Wrapf _ inner => errors_As inner
  | AppErr code message inner =>
      Some {| Code := code; Message := message; Err := inner |}
  end.

Definition IsAppError (err : option goerror) : bool :=
  match err with
  | Some e => not_nil (errors_As e)
  | None => false
  end.

Definition GetAppError (err : option goerror) : AppError :=
  match err with
  | Some e =>
      match errors_As e with
      | Some appErr => appErr
      | None => ErrInternalServer
      end
  | None => ErrInternalServer
  end.

End apperrors.

(* ================================================================== *)
(** ** [pkg/validator] *)

Module validator.

(** What the handlers' code reads from a [validator.FieldError]. *)
Record FieldError := {
  Field : string;
  Tag : string;
  Param : string
}.

(** The error of [c.ShouldBindJSON]: the validator's list of field
    errors, or any other error (a body that is not JSON, a type
    mismatch). *)
Inductive BindError :=
| ValidationErrors (errs : list FieldError)
| OtherError (text : string).

(** A [map[string]string] as a list of bindings with distinct keys. *)
Definition map_set (k v : string) (m : list (string * string))
  : list (string * string) :=
  (k, v) :: filter (fun kv => negb (fst kv =? k)%string) m.

Fixpoint map_get (k : string) (m : list (string * string)) : option string :=
  match m with
  | [] => None
  | (k', v) :: rest => if (k' =? k)%string then Some v else map_get k rest
  end.

(** The closure given to [RegisterTagNameFunc]:
    [strings.SplitN(tag, ",", 2)[0]], that is, the text before the first
    comma. *)
Fixpoint before_comma (s : string) : string :=
  match s with
  | EmptyString => EmptyString
  | String c rest =>
      if Ascii.eqb c ","%char then EmptyString
      else String c (before_comma rest)
  end.

Definition tagName (jsonTag : string) : string :=
  let name := before_comma jsonTag in
  if (name =? "-")%string then "" else name.

Definition getErrorMessage (fe : FieldError) : string :=
  let tag := Tag fe in
  if (tag =? "required")%string then "This field is required"
  else if (tag =? "email")%string then "Invalid email format"
  else if (tag =? "min")%string then "Value is too short"
  else if (tag =? "max")%string then "Value is too long"
  else if (tag =? "gte")%string
  then "Value must be greater than or equal to " ++ Param fe
  else if (tag =? "lte")%string
  then "Value must be less than or equal to " ++ Param fe
  else if (tag =? "oneof")%string
  then "Value must be one of: " ++ Param fe
  else if (tag =? "url")%string then "Invalid URL format"
  else if (tag =? "uuid")%string then "Invalid UUID format"
  else if (tag =? "numeric")%string then "Value must be numeric"
  else if (tag =? "alpha")%string then "Value must contain only letters"
  else if (tag =? "alphanum")%string
  then "Value must contain only letters and numbers"
  else "Invalid value for " ++ Field fe.

Definition FormatValidationErrors (err : BindError)
  : list (string * string) :=
  match err with
  | ValidationErrors validationErrors =>
      fold_left (fun errors e => map_set (Field e) (getErrorMessage e) errors)
        validationErrors []
  | OtherError _ => []
  end.

End validator.

(* ================================================================== *)
(** ** [pkg/utils] (helpers) *)

Module utils.

Section Random.

(** [crypto/rand]: the state of the reader and [rand.Int(rand.Reader, max)]
    on it. *)
Variable Reader : Type.
Variable rand_Int : Reader -> Z -> (Z * option error) * Reader.

(** The loop shared by [GenerateRandomString] and [GenerateOTP], with [n]
    bytes left to fill; indexing [charset] out of range panics ([None]). *)
Fixpoint fill (charset : string) (n : nat) (r : Reader) (result : string)
  : option ((string * option error) * Reader) :=
  match n with
  | O => Some ((result, None), r)
  | S n' =>
      let '((num, err), r') :=
        rand_Int r (Z.of_nat (String.length charset)) in
      if not_nil err then Some (("", err), r')
      else
        if num <? 0 then None
        else
          match String.get (Z.to_nat num) charset with
          | None => None
          | Some c => fill charset n' r' (result ++ String c "")
          end
  end.

(** The Go runtime on a request for [length] bytes: [can_allocate length]
    when it hands out a byte slice of that length.  It does not for a
    length above its allocation limit, where [make] panics (makeslice:
    len out of range), nor when memory runs out, where the program dies. *)
Variable can_allocate : Z -> bool.

(** [make([]byte, length)], lines 21 and 37: it panics on a negative
    length and on one the runtime cannot allocate; both are [None]. *)
Definition make_bytes (length : Z) : option nat :=
  if (length <? 0) || negb (can_allocate length) then None
  else Some (Z.to_nat length).

Definition GenerateRandomString (length : Z) (r : Reader)
  : option ((string * option error) * Reader) :=
  match make_bytes length with
  | None => None
  | Some n =>
      fill "abcdefghijklmnopqrstuvwxyzABCDEFGHIJKLMNOPQRSTUVWXYZ0123456789"
        n r ""
  end.

Definition GenerateOTP (length : Z) (r : Reader)
  : option ((string * option error) * Reader) :=
  match make_bytes length with
  | None => None
  | Some n => fill "0123456789" n r ""
  end.

End Random.

(** [strings.ReplaceAll(s, old, new)] for one-byte [old] and [new]. *)
Fixpoint ReplaceAll_byte (s : string) (old new : ascii) : string :=
  match s with
  | EmptyString => EmptyString
  | String c rest =>
      String (if Ascii.eqb c old then new else c)
             (ReplaceAll_byte rest old new)
  end.

Section Slug.

(** [strings.ToLower] and [strings.TrimSpace], which work on Unicode. *)
Variable ToLower : string -> string.
Variable TrimSpace : string -> string.

Definition SlugFromString (s : string) : string :=
  let s := ToLower s in
  let s := TrimSpace s in
  let s := ReplaceAll_byte s " "%char "-"%char in
  s.

End Slug.

Section Dates.

(** [time.Parse(layout, value)]. *)
Variable time_Parse : string -> string -> Z * option error.

Definition layouts : list string :=
  [ "2006-01-02T15:04:05Z07:00";   (* time.RFC3339 *)
    "2006-01-02T15:04:05Z07:00";
    "2006-01-02 15:04:05";
    "2006-01-02";
    "02-01-2006";
    "02/01/2006" ].

Fixpoint ParseDateString_loop (layouts : list string) (dateStr : string)
  : Z * option error :=
  match layouts with
  | [] => (0, None)
  | layout :: rest =>
      match time_Parse layout dateStr with
      | (t, None) => (t, None)
      | (_, Some _) => ParseDateString_loop rest dateStr
      end
  end.

Definition ParseDateString (dateStr : string) : Z * option error :=
  ParseDateString_loop layouts dateStr.

(** [t.Format(layout)]. *)
Variable time_Format : Z -> string -> string.

Definition FormatDate (t : Z) (format : string) : string :=
  let format := if (format =? "")%string then "2006-01-02 15:04:05"
                else format in
  time_Format t format.

End Dates.

End utils.

(* ================================================================== *)
(** ** [database/seeder] *)

Module seeder.

Definition users : list entity.User :=
  [ {| entity.ID := 0%N; entity.Name := "Admin User";
       entity.Email := "admin@example.com";
       entity.Password :=
         "$2a$10$N9qo8uLOickgx2ZMRZoMye.fVKCBd/h.GqwYY.0mvVxQhVGDtJa7C";
       entity.Role := "admin"; entity.IsActive := true;
       entity.CreatedAt := 0; entity.UpdatedAt := 0;
       entity.DeletedAt := None |};
    {| entity.ID := 0%N; entity.Name := "Regular User";
       entity.Email := "user@example.com";
       entity.Password :=
         "$2a$10$N9qo8uLOickgx2ZMRZoMye.fVKCBd/h.GqwYY.0mvVxQhVGDtJa7C";
       entity.Role := "user"; entity.IsActive := true;
       entity.CreatedAt := 0; entity.UpdatedAt := 0;
       entity.DeletedAt := None |} ].

(** The loop of [seedUsers] over the users left, on the database and the
    lines logged so far. *)
Fixpoint seedUsers_loop (users : list entity.User) (db : gorm.DB)
    (logs : list string) : gorm.DB * list string * option error :=
  match users with
  | [] => (db, logs, None)
  | user :: rest =>
      match gorm.First db
              (fun u => (entity.Email u =? entity.Email user)%string) with
      | (_, None) =>
          seedUsers_loop rest db
            (logs ++ ["User " ++ entity.Email user
                      ++ " already exists, skipping..."])
      | (_, Some _) =>
          match gorm.Create db user with
          | (db', _, Some err) => (db', logs, Some err)
          | (db', _, None) =>
              seedUsers_loop rest db'
                (logs ++ ["Created user: " ++ entity.Email user])
          end
      end
  end.

Definition seedUsers (db : gorm.DB) (logs : list string)
  : gorm.DB * list string * option error :=
  seedUsers_loop users db logs.

Definition Seed (db : gorm.DB) (logs : list string)
  : gorm.DB * list string * option error :=
  let logs := (logs ++ ["Running database seeders..."])%list in
  match seedUsers db logs with
  | (db', logs, Some err) => (db', logs, Some err)
  | (db', logs, None) =>
      (db', (logs ++ ["Database seeding completed!"])%list, None)
  end.

End seeder.

(* ================================================================== *)
(** ** Vocabulary of the further statements *)

(** The user [Update] hands to the store for request [req] when every
    block falls through: each non-empty field of the request applied to
    the loaded user, the password as its hash. *)
Definition updated_user (HashPassword : string -> string * option error)
    (req : dto.UpdateUserRequest) (user : entity.User) : entity.User :=
  let user := if (dto.upd_Name req =? "")%string then user
              else entity.set_Name (dto.upd_Name req) user in
  let user := if (dto.upd_Email req =? "")%string then user
              else entity.set_Email (dto.upd_Email req) user in
  if (dto.upd_Password req =? "")%string then user
  else entity.set_Password (fst (HashPassword (dto.upd_Password req))) user.

(** The calls of [cs] that write to the store. *)
Definition is_write (c : repository.Call) : bool :=
  match c with
  | repository.CallCreate _ | repository.CallUpdate _
  | repository.CallDelete _ => true
  | _ => false
  end.

(** The envelope agrees with the status line: a success flag with a 2xx
    status and no error member, or no success flag with a status of 400 or
    more and neither data nor pagination. *)
Definition consistent_envelope (wr : response.Written) : Prop :=
  (response.Success (response.Body wr) = true
   /\ 200 <= response.Status wr < 300
   /\ response.Error (response.Body wr) = None)
  \/ (response.Success (response.Body wr) = false
      /\ 400 <= response.Status wr < 600
      /\ response.Data (response.Body wr) = None
      /\ response.Meta_ (response.Body wr) = None).

(** A chain of [fmt.Errorf] wrappers, outermost first, around [err]. *)
Definition wrap_all (texts : list string) (err : apperrors.goerror)
  : apperrors.goerror :=
  fold_right apperrors.Wrapf err texts.

(** Every byte of [s] satisfies [p]. *)
Fixpoint all_bytes (p : ascii -> bool) (s : string) : bool :=
  match s with
  | EmptyString => true
  | String c rest => p c && all_bytes p rest
  end.

(** [c] occurs in [s]. *)
Fixpoint has_byte (c : ascii) (s : string) : bool :=
  match s with
  | EmptyString => false
  | String c' rest => Ascii.eqb c' c || has_byte c rest
  end.

(* ================================================================== *)
(** ** Further concrete stores and collaborators *)

Module fixture.

(** The store of [standin] while the link to the database is down. *)
Definition db_down : gorm.DB :=
  {| gorm.rows := [standin.alice; standin.bob]; gorm.next_id := 3%N;
     gorm.now := 1700000500123456789;
     gorm.failure := Some "dial tcp 127.0.0.1:5432: connection refused" |}.

(** Carol's account, soft-deleted. *)
Definition carol_deleted : entity.User :=
  {| entity.ID := 3%N; entity.Name := "Carol";
     entity.Email := "carol@example.com";
     entity.Password := "$2a$10$s3cret!";
     entity.Role := "user"; entity.IsActive := true;
     entity.CreatedAt := 1700000200000000000;
     entity.UpdatedAt := 1700000300000000000;
     entity.DeletedAt := Some 1700000300000000000 |}.

Definition db_with_deleted : gorm.DB :=
  {| gorm.rows := [standin.alice; standin.bob; carol_deleted];
     gorm.next_id := 4%N; gorm.now := 1700000500123456789;
     gorm.failure := None |}.

(** A hasher that, like bcrypt, refuses passwords of more than 72
    bytes. *)
Definition HashPassword_72 (password : string) : string * option error :=
  if (72 <? String.length password)%nat
  then ("", Some (external_error "bcrypt: password length exceeds 72 bytes"))
  else standin.HashPassword password.

Definition long_password : string :=
  "correct horse battery staple correct horse battery staple correct horse battery".

(** A table whose only admin row is soft-deleted. *)
Definition admin_deleted : entity.User :=
  {| entity.ID := 1%N; entity.Name := "Admin User";
     entity.Email := "admin@example.com";
     entity.Password :=
       "$2a$10$N9qo8uLOickgx2ZMRZoMye.fVKCBd/h.GqwYY.0mvVxQhVGDtJa7C";
     entity.Role := "admin"; entity.IsActive := true;
     entity.CreatedAt := 1700000000000000000;
     entity.UpdatedAt := 1700000400000000000;
     entity.DeletedAt := Some 1700000400000000000 |}.

Definition db_admin_deleted : gorm.DB :=
  {| gorm.rows := [admin_deleted]; gorm.next_id := 2%N;
     gorm.now := 1700000500123456789; gorm.failure := None |}.

(** A reader that hands out successive integers. *)
Definition counter_Int (r : Z) (max : Z) : (Z * option error) * Z :=
  ((r mod max, None), r + 7).

(** A reader whose entropy source fails at once. *)
Definition broken_Int (r : Z) (max : Z) : (Z * option error) * Z :=
  ((0, Some (external_error "unexpected EOF")), r).

(** A runtime that allocates up to 2^48 bytes, the limit of the 64-bit
    Linux ports, and has the memory for it. *)
Definition can_allocate (length : Z) : bool :=
  length <=? 281474976710656.

End fixture.

(* ================================================================== *)
(** * Properties *)

(** ** Machine arithmetic and number parsing *)

Lemma wrap_in_range (z : Z) : GoInt.in_range z -> GoInt.wrap z = z.
Proof.
  unfold GoInt.in_range, GoInt.MinInt, GoInt.MaxInt, GoInt.wrap.
  intros Hz. rewrite Z.mod_small; lia.
Qed.

Lemma digit_bounds (c : ascii) (d : Z) :
  strconv.digit c = Some d -> 0 <= d <= 9.
Proof.
  unfold strconv.digit.
  destruct (andb _ _) eqn:E; [|discriminate].
  intros [= <-]. apply andb_prop in E. lia.
Qed.

(** The digit loop never leaves the interval from zero to [maxVal]. *)
Lemma ParseUint_loop_bounds (maxVal : Z) (s : string) :
  forall n, 0 <= n <= maxVal ->
            0 <= fst (strconv.ParseUint_loop maxVal s n) <= maxVal.
Proof.
  induction s as [|c rest IH]; intros n Hn; cbn [strconv.ParseUint_loop].
  - exact Hn.
  - destruct (strconv.digit c) as [d|] eqn:Hd; [|cbn; lia].
    apply digit_bounds in Hd.
    destruct (strconv.cutoff <=? n); [cbn; lia|].
    destruct (orb _ _) eqn:E; [cbn; lia|].
    apply orb_false_elim in E. apply IH. lia.
Qed.

Lemma ParseUint_bounds (s : string) :
  0 <= fst (strconv.ParseUint s 64) <= GoInt.MaxUint64.
Proof.
  unfold strconv.ParseUint.
  destruct s; [cbn; unfold GoInt.MaxUint64; lia|].
  change (2 ^ 64 - 1) with GoInt.MaxUint64.
  apply ParseUint_loop_bounds. unfold GoInt.MaxUint64. lia.
Qed.

(** Whatever the text, [Atoi] yields a value of type [int]; the handlers
    drop its error. *)
Lemma Atoi_in_range (s : string) : GoInt.in_range (fst (strconv.Atoi s)).
Proof.
  unfold strconv.Atoi, strconv.ParseInt, GoInt.in_range.
  destruct s as [|c rest]; [cbn; unfold GoInt.MinInt, GoInt.MaxInt; lia|].
  set (s' := if (Ascii.eqb c "+" || Ascii.eqb c "-")%bool then rest
             else String c rest).
  pose proof (ParseUint_bounds s') as Hb.
  destruct (strconv.ParseUint s' 64) as [un err]. cbn [fst] in Hb.
  unfold GoInt.MaxUint64 in Hb.
  assert (Hgen :
    GoInt.MinInt <=
    fst (if negb (Ascii.eqb c "-") && (9223372036854775808 <=? un)
         then (GoInt.MaxInt, Some strconv.ErrRange)
         else if Ascii.eqb c "-" && (9223372036854775808 <? un)
              then (GoInt.MinInt, Some strconv.ErrRange)
              else (if Ascii.eqb c "-" then - un else un, None))
    <= GoInt.MaxInt).
  { unfold GoInt.MinInt, GoInt.MaxInt.
    destruct (Ascii.eqb c "-"); cbn [negb andb];
      [destruct (9223372036854775808 <? un) eqn:E
      |destruct (9223372036854775808 <=? un) eqn:E]; cbn [fst]; lia. }
  destruct err as [[|]|]; try exact Hgen.
  cbn; unfold GoInt.MinInt, GoInt.MaxInt; lia.
Qed.

(** ** Pagination metadata *)

(** C9. For every total >= 0 and per-page >= 1 (both of type [int]),
    [BuildMeta] returns the given page, per-page and total unchanged, and
    a total-pages count equal to the ceiling of total / per-page: the
    least number of pages of that size that hold every row. *)
Theorem BuildMeta_total_pages_ceiling (page perPage total : Z) :
  0 <= total <= GoInt.MaxInt ->
  1 <= perPage <= GoInt.MaxInt ->
  exists meta,
    response.BuildMeta page perPage total = Some meta
    /\ response.CurrentPage meta = page
    /\ response.PerPage meta = perPage
    /\ response.Total meta = total
    /\ response.TotalPages meta = (total + perPage - 1) / perPage
    /\ (response.TotalPages meta - 1) * perPage < total
         <= response.TotalPages meta * perPage.
Proof.
  intros Ht Hp. unfold GoInt.MaxInt in *.
  unfold response.BuildMeta, GoInt.quot, GoInt.rem.
  destruct (perPage =? 0) eqn:E0; [lia|].
  rewrite Z.quot_div_nonneg, Z.rem_mod_nonneg by lia.
  pose proof (Z.div_mod total perPage ltac:(lia)) as Hdm.
  pose proof (Z.mod_pos_bound total perPage ltac:(lia)) as Hm.
  set (q := total / perPage) in *. set (r := total mod perPage) in *.
  assert (Hq : 0 <= q) by (apply Z.div_pos; lia).
  assert (Hqt : q <= total) by nia.
  rewrite (wrap_in_range q)
    by (unfold GoInt.in_range, GoInt.MinInt, GoInt.MaxInt; lia).
  destruct (0 <? r) eqn:Er.
  - assert (Hr : 0 < r) by lia.
    assert (Hq1 : q + 1 <= total) by nia.
    unfold GoInt.add. rewrite (wrap_in_range (q + 1))
      by (unfold GoInt.in_range, GoInt.MinInt, GoInt.MaxInt; lia).
    eexists; split; [reflexivity|]. cbn.
    repeat split; try lia; try nia.
    apply Z.div_unique with (r := r - 1); lia.
  - assert (Hr : r = 0) by lia.
    eexists; split; [reflexivity|]. cbn.
    repeat split; try lia; try nia.
    apply Z.div_unique with (r := perPage - 1); lia.
Qed.

(** The spec's example: 25 rows at limit 10 make 3 pages. *)
Lemma BuildMeta_total_pages_ceiling_witness :
  (0 <= 25 <= GoInt.MaxInt) /\ (1 <= 10 <= GoInt.MaxInt) /\
  exists meta,
    response.BuildMeta 1 10 25 = Some meta
    /\ response.CurrentPage meta = 1
    /\ response.PerPage meta = 10
    /\ response.Total meta = 25
    /\ response.TotalPages meta = (25 + 10 - 1) / 10
    /\ (response.TotalPages meta - 1) * 10 < 25
         <= response.TotalPages meta * 10.
Proof.
  split; [unfold GoInt.MaxInt; lia|].
  split; [unfold GoInt.MaxInt; lia|].
  apply (BuildMeta_total_pages_ceiling 1 10 25); unfold GoInt.MaxInt; lia.
Defined.


(** ** The list handler *)

Lemma BuildMeta_defined (page perPage total : Z) :
  perPage <> 0 ->
  exists meta,
    response.BuildMeta page perPage total = Some meta
    /\ response.CurrentPage meta = page
    /\ response.PerPage meta = perPage.
Proof.
  intros Hp. unfold response.BuildMeta, GoInt.quot, GoInt.rem.
  destruct (perPage =? 0) eqn:E; [lia|].
  eexists; split; [reflexivity|]. cbn. split; reflexivity.
Qed.

(** The page and limit computed by the handler, in terms of the two parsed
    query values. *)
Lemma GetUsers_params_eq (pageQuery limitQuery : option string) :
  handler.GetUsers_params pageQuery limitQuery =
  (Z.max 1 (fst (strconv.Atoi (handler.DefaultQuery pageQuery "1"))),
   let limit := fst (strconv.Atoi (handler.DefaultQuery limitQuery "10")) in
   if (limit <? 1) || (100 <? limit) then 10 else limit).
Proof.
  unfold handler.GetUsers_params. f_equal.
  destruct (Z.ltb_spec (fst (strconv.Atoi (handler.DefaultQuery pageQuery "1"))) 1);
    lia.
Qed.

Lemma GetUsers_params_bounds (pageQuery limitQuery : option string) :
  let '(page, limit) := handler.GetUsers_params pageQuery limitQuery in
  1 <= page <= GoInt.MaxInt /\ 1 <= limit <= 100.
Proof.
  rewrite GetUsers_params_eq.
  pose proof (Atoi_in_range (handler.DefaultQuery pageQuery "1")) as Hp.
  unfold GoInt.in_range, GoInt.MinInt, GoInt.MaxInt in *.
  split; [lia|].
  cbv zeta. destruct (orb _ _) eqn:E; [lia|].
  apply orb_false_elim in E. lia.
Qed.

(** One run of [GetUsers]: a single [FindAll] call with the normalised
    values, then either a 500 or a 200 that carries the metadata. *)
Lemma GetUsers_run {DB : Type} {userRepo : repository.UserRepository DB}
    (pageQuery limitQuery : option string) (w : World DB) :
  let '(page, limit) := handler.GetUsers_params pageQuery limitQuery in
  exists written,
    handler.GetUsers pageQuery limitQuery w =
      Some (written,
            mkWorld (store w) (calls w ++ [repository.CallFindAll page limit]))
    /\ forall meta, response.Meta_ (response.Body written) = Some meta ->
                    response.CurrentPage meta = page
                    /\ response.PerPage meta = limit.
Proof.
  pose proof (GetUsers_params_bounds pageQuery limitQuery) as Hb.
  unfold handler.GetUsers.
  destruct (handler.GetUsers_params pageQuery limitQuery) as [page limit].
  destruct Hb as [_ Hl].
  unfold usecase.GetAll, usecase.repo_FindAll, bind, ret.
  destruct (repository.FindAll (store w) page limit) as [[users total] err].
  destruct err as [e|]; cbn.
  - eexists; split; [reflexivity|]. cbn. discriminate.
  - destruct (BuildMeta_defined page limit total ltac:(lia))
      as (meta & Hmeta & Hcur & Hper).
    rewrite Hmeta. cbn.
    eexists; split; [reflexivity|]. cbn.
    intros meta' [= <-]. split; assumption.
Qed.

(** What holds of the list handler for every page and limit query values
    (missing, non-numeric, zero, negative or over-limit included): the
    values it passes on satisfy page >= 1 and 1 <= limit <= 100, with 1
    and 10 as the defaults; it makes exactly one [FindAll] call with them
    and does not touch the store; and the offset [FindAll] computes is
    (page - 1) * limit reduced to a 64-bit signed integer, the exact
    product whenever that product fits. *)
Lemma GetUsers_pagination_normalized
    {DB : Type} {userRepo : repository.UserRepository DB}
    (pageQuery limitQuery : option string) (w : World DB) :
  exists page limit written w',
    handler.GetUsers_params pageQuery limitQuery = (page, limit)
    /\ 1 <= page /\ 1 <= limit <= 100
    /\ (pageQuery = None -> page = constants.DefaultPage)
    /\ (limitQuery = None -> limit = constants.DefaultLimit)
    /\ handler.GetUsers pageQuery limitQuery w = Some (written, w')
    /\ calls w' = (calls w ++ [repository.CallFindAll page limit])%list
    /\ store w' = store w
    /\ repository.FindAll_offset page limit = GoInt.wrap ((page - 1) * limit)
    /\ ((page - 1) * limit <= GoInt.MaxInt ->
        repository.FindAll_offset page limit = (page - 1) * limit)
    /\ (forall db : gorm.DB,
          gorm.failure db = None ->
          repository.userRepository_FindAll db page limit =
            (fst (gorm.Find db (GoInt.wrap ((page - 1) * limit)) limit),
             fst (gorm.Count db), None)).
Proof.
  pose proof (GetUsers_params_bounds pageQuery limitQuery) as Hb.
  pose proof (GetUsers_run pageQuery limitQuery w) as Hrun.
  pose proof (GetUsers_params_eq pageQuery limitQuery) as Heq.
  destruct (handler.GetUsers_params pageQuery limitQuery) as [page limit].
  destruct Hb as [Hp Hl]. destruct Hrun as (written & Hrun & _).
  assert (Hoff : repository.FindAll_offset page limit
                 = GoInt.wrap ((page - 1) * limit)).
  { unfold repository.FindAll_offset, GoInt.mul, GoInt.sub.
    rewrite (wrap_in_range (page - 1)); [reflexivity|].
    unfold GoInt.in_range, GoInt.MinInt, GoInt.MaxInt in *. lia. }
  exists page, limit, written,
    (mkWorld (store w) (calls w ++ [repository.CallFindAll page limit])).
  split; [reflexivity|]. split; [lia|]. split; [lia|].
  split.
  { intros ->. injection Heq as -> _. reflexivity. }
  split.
  { intros ->. injection Heq as _ ->. reflexivity. }
  split; [exact Hrun|]. split; [reflexivity|]. split; [reflexivity|].
  split; [exact Hoff|].
  split.
  { intros Hfit. rewrite Hoff. apply wrap_in_range.
    unfold GoInt.in_range, GoInt.MinInt, GoInt.MaxInt in *. nia. }
  intros db Hok.
  unfold repository.userRepository_FindAll, gorm.Count, gorm.Find.
  rewrite Hoff, Hok. reflexivity.
Qed.

(** C8, on the code. For page=9223372036854775807 and limit=10 the
    handler passes both values on unchanged (page >= 1 and
    1 <= limit <= 100 hold), but the product (page - 1) * limit at line 47
    of [FindAll] overflows: the offset the store computes is -20, not
    (page - 1) * limit.  The request is answered with the first rows of
    the table, users 1 and 2, labelled current_page=9223372036854775807,
    although the second page of ten is already empty. *)
Theorem GetUsers_offset_overflow :
  let page := 9223372036854775807 in
  handler.GetUsers_params (Some "9223372036854775807") (Some "10")
    = (page, 10)
  /\ 1 <= page /\ 1 <= 10 <= 100
  /\ repository.FindAll_offset page 10 = -20
  /\ repository.FindAll_offset page 10 <> (page - 1) * 10
  /\ handler.GetUsers (Some "9223372036854775807") (Some "10")
       standin.world
     = Some (response.SuccessWithMeta "Users retrieved successfully"
               (Some (response.UsersData
                        [public_view standin.alice;
                         public_view standin.bob]))
               {| response.CurrentPage := page; response.PerPage := 10;
                  response.Total := 2; response.TotalPages := 1 |},
             mkWorld standin.db [repository.CallFindAll page 10])
  /\ handler.GetUsers (Some "2") (Some "10") standin.world
     = Some (response.SuccessWithMeta "Users retrieved successfully"
               (Some (response.UsersData []))
               {| response.CurrentPage := 2; response.PerPage := 10;
                  response.Total := 2; response.TotalPages := 1 |},
             mkWorld standin.db [repository.CallFindAll 2 10]).
Proof.
  cbv zeta.
  split; [vm_compute; reflexivity|].
  split; [lia|]. split; [lia|].
  split; [vm_compute; reflexivity|].
  split; [vm_compute; discriminate|].
  split; vm_compute; reflexivity.
Qed.

(** One run of [GetUsers], in full: after the single [FindAll] call, an
    error of the use case is answered with 500 and its text; otherwise
    the answer is 200 with the views of the users found and the metadata
    built from the page, the limit and the total. *)
Lemma GetUsers_run_exact {DB : Type} {userRepo : repository.UserRepository DB}
    (pageQuery limitQuery : option string) (w : World DB)
    (page limit : Z) :
  handler.GetUsers_params pageQuery limitQuery = (page, limit) ->
  let w' := mkWorld (store w)
              (calls w ++ [repository.CallFindAll page limit]) in
  (forall users total,
     repository.FindAll (store w) page limit = (users, total, None) ->
     exists meta,
       handler.GetUsers pageQuery limitQuery w
       = Some (response.SuccessWithMeta "Users retrieved successfully"
                 (Some (response.UsersData (map public_view users))) meta,
               w')
       /\ response.CurrentPage meta = page
       /\ response.PerPage meta = limit
       /\ response.Total meta = total)
  /\ (forall users total e,
        repository.FindAll (store w) page limit = (users, total, Some e) ->
        handler.GetUsers pageQuery limitQuery w
        = Some (response.InternalServerError (Error_string e), w')).
Proof.
  intros Hparams w'.
  pose proof (GetUsers_params_bounds pageQuery limitQuery) as Hb.
  unfold handler.GetUsers. rewrite Hparams in *. destruct Hb as [_ Hl].
  unfold usecase.GetAll, usecase.repo_FindAll, bind, ret, deref.
  split.
  - intros users total Hfind. rewrite Hfind. cbn.
    unfold response.BuildMeta, GoInt.quot, GoInt.rem.
    destruct (limit =? 0) eqn:E; [lia|]. cbn.
    eexists. split; [reflexivity|]. cbn. repeat split.
  - intros users total e Hfind. rewrite Hfind. reflexivity.
Qed.

(** C10. For every limit query value that parses outside the range
    [1, 100] (150 and 0, say), the list handler resets the per-page size
    to the default 10: the use case is called with limit 10 and, unless
    the store fails (which is answered with 500), the request is served
    with status 200, the users the store returned for limit 10 and
    metadata whose per_page is 10, where clamping, as [Normalize] does,
    would give 100 for an over-limit value. *)
Theorem GetUsers_limit_out_of_range_resets_to_default
    {DB : Type} {userRepo : repository.UserRepository DB}
    (pageQuery limitQuery : option string) (w : World DB) :
  let raw := fst (strconv.Atoi (handler.DefaultQuery limitQuery "10")) in
  raw < 1 \/ 100 < raw ->
  exists page,
    handler.GetUsers_params pageQuery limitQuery
      = (page, constants.DefaultLimit)
    /\ (forall users total,
          repository.FindAll (store w) page 10 = (users, total, None) ->
          exists meta,
            handler.GetUsers pageQuery limitQuery w
            = Some (response.SuccessWithMeta "Users retrieved successfully"
                      (Some (response.UsersData (map public_view users)))
                      meta,
                    mkWorld (store w)
                      (calls w ++ [repository.CallFindAll page 10]))
            /\ response.Status
                 (response.SuccessWithMeta "Users retrieved successfully"
                    (Some (response.UsersData (map public_view users)))
                    meta) = 200
            /\ response.PerPage meta = 10
            /\ response.CurrentPage meta = page
            /\ response.Total meta = total)
    /\ (forall users total e,
          repository.FindAll (store w) page 10 = (users, total, Some e) ->
          handler.GetUsers pageQuery limitQuery w
          = Some (response.InternalServerError (Error_string e),
                  mkWorld (store w)
                    (calls w ++ [repository.CallFindAll page 10])))
    /\ (100 < raw ->
        dto.Limit (dto.Normalize {| dto.Page := page; dto.Limit := raw |})
          = constants.MaxLimit).
Proof.
  intros raw Hraw.
  pose proof (GetUsers_params_eq pageQuery limitQuery) as Heq.
  destruct (handler.GetUsers_params pageQuery limitQuery) as [page limit]
    eqn:Hparams.
  fold raw in Heq. cbv zeta in Heq.
  assert (Hlim : limit = 10).
  { injection Heq as _ ->.
    destruct (Z.ltb_spec raw 1); [reflexivity|].
    destruct (Z.ltb_spec 100 raw); [reflexivity|lia]. }
  subst limit.
  destruct (GetUsers_run_exact pageQuery limitQuery w page 10 Hparams)
    as [Hok Hfail].
  exists page. split; [reflexivity|].
  split.
  { intros users total Hfind.
    destruct (Hok users total Hfind) as (meta & Hrun & Hcur & Hper & Htot).
    exists meta. split; [exact Hrun|]. split; [reflexivity|].
    split; [exact Hper|]. split; [exact Hcur|exact Htot]. }
  split; [exact Hfail|].
  intros Hover. unfold dto.Normalize, constants.MaxLimit. cbn.
  destruct (Z.ltb_spec raw 1); [lia|].
  destruct (Z.ltb_spec 100 raw); [reflexivity|lia].
Qed.

(** [?limit=150] on the two stored users: both are listed, ten per
    page. *)
Lemma GetUsers_limit_out_of_range_resets_to_default_witness :
  (fst (strconv.Atoi (handler.DefaultQuery (Some "150") "10")) < 1
   \/ 100 < fst (strconv.Atoi (handler.DefaultQuery (Some "150") "10")))
  /\ handler.GetUsers_params None (Some "150") = (1, constants.DefaultLimit)
  /\ repository.FindAll (store standin.world) 1 10
     = ([standin.alice; standin.bob], 2, None)
  /\ exists meta,
       handler.GetUsers None (Some "150") standin.world
       = Some (response.SuccessWithMeta "Users retrieved successfully"
                 (Some (response.UsersData
                          (map public_view [standin.alice; standin.bob])))
                 meta,
               mkWorld (store standin.world)
                 (calls standin.world ++ [repository.CallFindAll 1 10]))
       /\ response.Status
            (response.SuccessWithMeta "Users retrieved successfully"
               (Some (response.UsersData
                        (map public_view [standin.alice; standin.bob])))
               meta) = 200
       /\ response.PerPage meta = 10
       /\ response.CurrentPage meta = 1
       /\ response.Total meta = 2.
Proof.
  assert (Hraw : fst (strconv.Atoi (handler.DefaultQuery (Some "150") "10"))
                 < 1
                 \/ 100 < fst (strconv.Atoi
                                 (handler.DefaultQuery (Some "150") "10")))
    by (right; vm_compute; reflexivity).
  assert (Hparams : handler.GetUsers_params None (Some "150")
                    = (1, constants.DefaultLimit))
    by (vm_compute; reflexivity).
  assert (Hfind : repository.FindAll (store standin.world) 1 10
                  = ([standin.alice; standin.bob], 2, None))
    by (vm_compute; reflexivity).
  split; [exact Hraw|]. split; [exact Hparams|]. split; [exact Hfind|].
  destruct (GetUsers_limit_out_of_range_resets_to_default
              None (Some "150") standin.world Hraw)
    as (page & Hp & Hok & _).
  rewrite Hparams in Hp. injection Hp as <-.
  exact (Hok [standin.alice; standin.bob] 2 Hfind).
Defined.

(** ** Login *)

Section LoginFacts.

Context {DB : Type} {userRepo : repository.UserRepository DB}.
Variable CheckPassword : string -> string -> bool.
Variable GenerateToken : N -> string -> string -> string * option error.

Lemma Login_unknown_email (w : World DB) (req : dto.LoginRequest) :
  snd (repository.FindByEmail (store w) (dto.login_Email req))
    = Some gorm_ErrRecordNotFound ->
  usecase.Login CheckPassword GenerateToken req w =
    Some ((None, Some (errors_New "invalid email or password")),
          after_FindByEmail w (dto.login_Email req)).
Proof.
  intros Hfind.
  unfold usecase.Login, usecase.repo_FindByEmail, bind, ret.
  destruct (repository.FindByEmail (store w) (dto.login_Email req))
    as [user err].
  cbn in Hfind. subst err. reflexivity.
Qed.

Lemma Login_wrong_password (w : World DB) (req : dto.LoginRequest)
    (user : entity.User) :
  repository.FindByEmail (store w) (dto.login_Email req) = (Some user, None) ->
  CheckPassword (dto.login_Password req) (entity.Password user) = false ->
  usecase.Login CheckPassword GenerateToken req w =
    Some ((None, Some (errors_New "invalid email or password")),
          after_FindByEmail w (dto.login_Email req)).
Proof.
  intros Hfind Hcheck.
  unfold usecase.Login, usecase.repo_FindByEmail, bind, ret, deref.
  rewrite Hfind. cbn. rewrite Hcheck. reflexivity.
Qed.

Lemma Login_inactive (w : World DB) (req : dto.LoginRequest)
    (user : entity.User) :
  repository.FindByEmail (store w) (dto.login_Email req) = (Some user, None) ->
  CheckPassword (dto.login_Password req) (entity.Password user) = true ->
  entity.IsActive user = false ->
  usecase.Login CheckPassword GenerateToken req w =
    Some ((None, Some (errors_New "account is not active")),
          after_FindByEmail w (dto.login_Email req)).
Proof.
  intros Hfind Hcheck Hactive.
  unfold usecase.Login, usecase.repo_FindByEmail, bind, ret, deref.
  rewrite Hfind. cbn. rewrite Hcheck, Hactive. reflexivity.
Qed.

(** Whatever error [Login] returns, the handler answers 401 with the
    error's text as the message. *)
Lemma handler_Login_error (w w' : World DB) (req : dto.LoginRequest)
    (result : option dto.LoginResponse) (e : error) :
  usecase.Login CheckPassword GenerateToken req w
    = Some ((result, Some e), w') ->
  handler.Login CheckPassword GenerateToken (handler.Bound req) w
    = Some (response.Unauthorized (Error_string e), w').
Proof.
  intros Hrun. unfold handler.Login, bind. rewrite Hrun. reflexivity.
Qed.

End LoginFacts.

(** C1 (amended). For every login request whose email matches a stored
    user, whose password verifies against the stored hash, and whose
    account has active=false, Login fails with an error carrying the
    message "account is not active", no token is issued, and the HTTP
    response status is 401: the handler answers every failed login with
    Unauthorized. *)
Theorem Login_inactive_account_rejected
    {DB : Type} {userRepo : repository.UserRepository DB}
    (CheckPassword : string -> string -> bool)
    (GenerateToken : N -> string -> string -> string * option error)
    (w : World DB) (req : dto.LoginRequest) (user : entity.User) :
  repository.FindByEmail (store w) (dto.login_Email req) = (Some user, None) ->
  CheckPassword (dto.login_Password req) (entity.Password user) = true ->
  entity.IsActive user = false ->
  exists written w',
    usecase.Login CheckPassword GenerateToken req w
      = Some ((None, Some (errors_New "account is not active")), w')
    /\ handler.Login CheckPassword GenerateToken (handler.Bound req) w
       = Some (written, w')
    /\ written = response.Unauthorized "account is not active"
    /\ response.Status written = http.StatusUnauthorized
    /\ response.Message (response.Body written) = "account is not active"
    /\ response.Data (response.Body written) = None
    /\ store w' = store w.
Proof.
  intros Hfind Hcheck Hactive.
  pose proof (Login_inactive CheckPassword GenerateToken w req user
                Hfind Hcheck Hactive) as Hrun.
  exists (response.Unauthorized "account is not active"),
         (after_FindByEmail w (dto.login_Email req)).
  split; [exact Hrun|].
  split; [exact (handler_Login_error _ _ _ _ _ _ _ Hrun)|].
  repeat split.
Qed.

(** Bob's account is inactive and his password is right. *)
Lemma Login_inactive_account_rejected_witness :
  let req := {| dto.login_Email := "bob@example.com";
                dto.login_Password := "hunter22" |} in
  repository.FindByEmail (store standin.world) (dto.login_Email req)
    = (Some standin.bob, None)
  /\ standin.CheckPassword (dto.login_Password req)
       (entity.Password standin.bob) = true
  /\ entity.IsActive standin.bob = false
  /\ exists written w',
    usecase.Login standin.CheckPassword standin.GenerateToken req
      standin.world
      = Some ((None, Some (errors_New "account is not active")), w')
    /\ handler.Login standin.CheckPassword standin.GenerateToken
         (handler.Bound req) standin.world
       = Some (written, w')
    /\ written = response.Unauthorized "account is not active"
    /\ response.Status written = http.StatusUnauthorized
    /\ response.Message (response.Body written) = "account is not active"
    /\ response.Data (response.Body written) = None
    /\ store w' = store standin.world.
Proof.
  intros req.
  assert (Hfind : repository.FindByEmail (store standin.world)
                    (dto.login_Email req) = (Some standin.bob, None))
    by (vm_compute; reflexivity).
  assert (Hcheck : standin.CheckPassword (dto.login_Password req)
                     (entity.Password standin.bob) = true)
    by (vm_compute; reflexivity).
  split; [exact Hfind|]. split; [exact Hcheck|]. split; [reflexivity|].
  exact (Login_inactive_account_rejected
           standin.CheckPassword standin.GenerateToken
           standin.world req standin.bob Hfind Hcheck eq_refl).
Defined.

(** C1, as stated, fails: Bob's email is stored, his password verifies,
    his account is inactive, and the response to his login has status
    401, not 403. *)
Lemma Login_inactive_status_counterexample :
  let req := {| dto.login_Email := "bob@example.com";
                dto.login_Password := "hunter22" |} in
  repository.FindByEmail (store standin.world) (dto.login_Email req)
    = (Some standin.bob, None)
  /\ standin.CheckPassword (dto.login_Password req)
       (entity.Password standin.bob) = true
  /\ entity.IsActive standin.bob = false
  /\ exists written w',
       handler.Login standin.CheckPassword standin.GenerateToken
         (handler.Bound req) standin.world = Some (written, w')
       /\ response.Status written = 401
       /\ response.Status written <> http.StatusForbidden
       /\ written <> response.Forbidden "account is not active".
Proof.
  cbv zeta.
  split; [vm_compute; reflexivity|].
  split; [vm_compute; reflexivity|].
  split; [reflexivity|].
  eexists; eexists.
  split; [vm_compute; reflexivity|].
  split; [reflexivity|].
  split; [vm_compute; discriminate|].
  vm_compute; discriminate.
Qed.

(** C2. For any two login requests, one with an email that matches no
    stored user and one with an email that matches a stored user but a
    password that does not verify against the stored hash, Login fails in
    both runs with the same error message "invalid email or password",
    and the handler writes the same response, of status 401
    (Unauthorized), in both. *)
Theorem Login_failures_indistinguishable
    {DB : Type} {userRepo : repository.UserRepository DB}
    (CheckPassword : string -> string -> bool)
    (GenerateToken : N -> string -> string -> string * option error)
    (w1 w2 : World DB) (req1 req2 : dto.LoginRequest) (user : entity.User) :
  snd (repository.FindByEmail (store w1) (dto.login_Email req1))
    = Some gorm_ErrRecordNotFound ->
  repository.FindByEmail (store w2) (dto.login_Email req2)
    = (Some user, None) ->
  CheckPassword (dto.login_Password req2) (entity.Password user) = false ->
  exists written w1' w2',
    usecase.Login CheckPassword GenerateToken req1 w1
      = Some ((None, Some (errors_New "invalid email or password")), w1')
    /\ usecase.Login CheckPassword GenerateToken req2 w2
       = Some ((None, Some (errors_New "invalid email or password")), w2')
    /\ handler.Login CheckPassword GenerateToken (handler.Bound req1) w1
       = Some (written, w1')
    /\ handler.Login CheckPassword GenerateToken (handler.Bound req2) w2
       = Some (written, w2')
    /\ written = response.Unauthorized "invalid email or password"
    /\ response.Status written = http.StatusUnauthorized
    /\ response.Message (response.Body written) = "invalid email or password".
Proof.
  intros Hunknown Hfind Hcheck.
  pose proof (Login_unknown_email CheckPassword GenerateToken w1 req1
                Hunknown) as Hrun1.
  pose proof (Login_wrong_password CheckPassword GenerateToken w2 req2 user
                Hfind Hcheck) as Hrun2.
  exists (response.Unauthorized "invalid email or password"),
         (after_FindByEmail w1 (dto.login_Email req1)),
         (after_FindByEmail w2 (dto.login_Email req2)).
  split; [exact Hrun1|]. split; [exact Hrun2|].
  split; [exact (handler_Login_error _ _ _ _ _ _ _ Hrun1)|].
  split; [exact (handler_Login_error _ _ _ _ _ _ _ Hrun2)|].
  repeat split.
Qed.

(** An unknown address against Alice's address with a wrong password. *)
Lemma Login_failures_indistinguishable_witness :
  let req1 := {| dto.login_Email := "nobody@example.com";
                 dto.login_Password := "password123" |} in
  let req2 := {| dto.login_Email := "alice@example.com";
                 dto.login_Password := "letmein" |} in
  snd (repository.FindByEmail (store standin.world) (dto.login_Email req1))
    = Some gorm_ErrRecordNotFound
  /\ repository.FindByEmail (store standin.world) (dto.login_Email req2)
     = (Some standin.alice, None)
  /\ standin.CheckPassword (dto.login_Password req2)
       (entity.Password standin.alice) = false
  /\ exists written w1' w2',
    usecase.Login standin.CheckPassword standin.GenerateToken req1
      standin.world
      = Some ((None, Some (errors_New "invalid email or password")), w1')
    /\ usecase.Login standin.CheckPassword standin.GenerateToken req2
         standin.world
       = Some ((None, Some (errors_New "invalid email or password")), w2')
    /\ handler.Login standin.CheckPassword standin.GenerateToken
         (handler.Bound req1) standin.world = Some (written, w1')
    /\ handler.Login standin.CheckPassword standin.GenerateToken
         (handler.Bound req2) standin.world = Some (written, w2')
    /\ written = response.Unauthorized "invalid email or password"
    /\ response.Status written = http.StatusUnauthorized
    /\ response.Message (response.Body written) = "invalid email or password".
Proof.
  intros req1 req2.
  assert (Hunknown : snd (repository.FindByEmail (store standin.world)
                            (dto.login_Email req1))
                     = Some gorm_ErrRecordNotFound)
    by (vm_compute; reflexivity).
  assert (Hfind : repository.FindByEmail (store standin.world)
                    (dto.login_Email req2) = (Some standin.alice, None))
    by (vm_compute; reflexivity).
  assert (Hcheck : standin.CheckPassword (dto.login_Password req2)
                     (entity.Password standin.alice) = false)
    by (vm_compute; reflexivity).
  split; [exact Hunknown|]. split; [exact Hfind|]. split; [exact Hcheck|].
  exact (Login_failures_indistinguishable
           standin.CheckPassword standin.GenerateToken
           standin.world standin.world req1 req2 standin.alice
           Hunknown Hfind Hcheck).
Defined.


(** ** Registration *)

Section RegisterFacts.

Context {DB : Type} {userRepo : repository.UserRepository DB}.
Variable HashPassword : string -> string * option error.

Lemma Register_existing_email (w : World DB) (req : dto.RegisterRequest)
    (existing : entity.User) :
  repository.FindByEmail (store w) (dto.reg_Email req)
    = (Some existing, None) ->
  usecase.Register HashPassword req w =
    Some ((None, Some (errors_New "email already registered")),
          after_FindByEmail w (dto.reg_Email req)).
Proof.
  intros Hfind.
  unfold usecase.Register, usecase.repo_FindByEmail, bind, ret.
  rewrite Hfind. reflexivity.
Qed.

(** A successful [Register] went through [Create] exactly once, with the
    user built at lines 55-61. *)
Lemma Register_success_inv (w w' : World DB) (req : dto.RegisterRequest)
    (result : option dto.UserResponse) :
  usecase.Register HashPassword req w = Some ((result, None), w') ->
  exists created,
    repository.Create (store w) (new_user HashPassword req)
      = (store w', created, None)
    /\ calls w' = (calls w ++
                    [repository.CallFindByEmail (dto.reg_Email req);
                     repository.CallCreate (new_user HashPassword req)])%list
    /\ result = Some (public_view created).
Proof.
  unfold usecase.Register, usecase.repo_FindByEmail, usecase.repo_Create,
    bind, ret, new_user.
  destruct (repository.FindByEmail (store w) (dto.reg_Email req))
    as [existing ferr].
  destruct (HashPassword (dto.reg_Password req)) as [hashed herr].
  intros Hrun.
  destruct ferr as [[| |]|], existing, herr; cbn in Hrun |- *;
    try discriminate;
    destruct (repository.Create (store w) _) as [[db' created] cerr];
    destruct cerr; cbn in Hrun; try discriminate;
    injection Hrun as <- <-;
    (exists created; split; [reflexivity|]; cbn;
     split; [rewrite <- app_assoc; reflexivity|reflexivity]).
Qed.

End RegisterFacts.
(** In the gorm-backed store, a row that is not soft-deleted and carries
    the address makes [FindByEmail] return an existing row. *)
Lemma userRepository_FindByEmail_existing (db : gorm.DB) (email : string)
    (u : entity.User) :
  gorm.failure db = None ->
  In u (gorm.rows db) ->
  entity.DeletedAt u = None ->
  entity.Email u = email ->
  exists existing,
    repository.FindByEmail db email = (Some existing, None)
    /\ entity.Email existing = email
    /\ entity.DeletedAt existing = None.
Proof.
  intros Hok Hin Hdel Hmail.
  cbn. unfold repository.userRepository_FindByEmail, gorm.First.
  rewrite Hok.
  destruct (find _ (gorm.rows db)) as [found|] eqn:Hfind.
  - apply find_some in Hfind. destruct Hfind as [_ Hcond].
    apply andb_prop in Hcond. destruct Hcond as [Hvis Heq].
    apply String.eqb_eq in Heq. unfold gorm.visible in Hvis.
    exists found. repeat split; [assumption|].
    destruct (entity.DeletedAt found); [discriminate|reflexivity].
  - apply (find_none _ _ Hfind) in Hin.
    unfold gorm.visible in Hin. rewrite Hdel, Hmail, String.eqb_refl in Hin.
    discriminate.
Qed.

(** C3. For every registration request whose email is that of an
    existing user ([FindByEmail] returns a row), Register returns the
    error "email already registered"; the only repository call of the run
    is that look-up, so [Create] is never invoked and the store is
    unchanged; the handler answers 400 with that message. *)
Theorem Register_existing_email_rejected
    {DB : Type} {userRepo : repository.UserRepository DB}
    (HashPassword : string -> string * option error)
    (w : World DB) (req : dto.RegisterRequest) (existing : entity.User) :
  repository.FindByEmail (store w) (dto.reg_Email req)
    = (Some existing, None) ->
  exists trace w',
    usecase.Register HashPassword req w
      = Some ((None, Some (errors_New "email already registered")), w')
    /\ store w' = store w
    /\ calls w' = (calls w ++ trace)%list
    /\ trace = [repository.CallFindByEmail (dto.reg_Email req)]
    /\ existsb repository.is_CallCreate trace = false
    /\ handler.Register HashPassword (handler.Bound req) w
       = Some (response.BadRequest "email already registered" None, w').
Proof.
  intros Hfind.
  pose proof (Register_existing_email HashPassword w req existing Hfind)
    as Hrun.
  exists [repository.CallFindByEmail (dto.reg_Email req)],
         (after_FindByEmail w (dto.reg_Email req)).
  split; [exact Hrun|].
  repeat (split; [reflexivity|]).
  unfold handler.Register, bind. rewrite Hrun. reflexivity.
Qed.

(** A second registration under Alice's address. *)
Lemma Register_existing_email_rejected_witness :
  let req := {| dto.reg_Name := "Mallory";
                dto.reg_Email := "alice@example.com";
                dto.reg_Password := "s3cret!" |} in
  repository.FindByEmail (store standin.world) (dto.reg_Email req)
    = (Some standin.alice, None)
  /\ exists trace w',
    usecase.Register standin.HashPassword req standin.world
      = Some ((None, Some (errors_New "email already registered")), w')
    /\ store w' = store standin.world
    /\ calls w' = (calls standin.world ++ trace)%list
    /\ trace = [repository.CallFindByEmail (dto.reg_Email req)]
    /\ existsb repository.is_CallCreate trace = false
    /\ handler.Register standin.HashPassword (handler.Bound req)
         standin.world
       = Some (response.BadRequest "email already registered" None, w').
Proof.
  intros req.
  split; [vm_compute; reflexivity|].
  apply (Register_existing_email_rejected standin.HashPassword
           standin.world req standin.alice).
  vm_compute; reflexivity.
Defined.

(** C4. For every registration request that succeeds, the run made one
    [Create] call, with a user of role "user" and active=true (and the
    name and email of the request); the returned response is made of the
    fields of the user the store handed back, its encoding has exactly the
    members id, name, email, role, is_active, created_at, updated_at, none
    named password, and it is the same whatever the password hash of that
    user is. *)
Theorem Register_success_public_view
    {DB : Type} {userRepo : repository.UserRepository DB}
    (HashPassword : string -> string * option error)
    (w w' : World DB) (req : dto.RegisterRequest)
    (result : option dto.UserResponse) :
  usecase.Register HashPassword req w = Some ((result, None), w') ->
  exists user created resp,
    calls w' = (calls w ++
                  [repository.CallFindByEmail (dto.reg_Email req);
                   repository.CallCreate user])%list
    /\ entity.Role user = constants.RoleUser
    /\ entity.IsActive user = true
    /\ entity.Name user = dto.reg_Name req
    /\ entity.Email user = dto.reg_Email req
    /\ repository.Create (store w) user = (store w', created, None)
    /\ result = Some resp
    /\ resp = public_view created
    /\ map fst (dto.UserResponse_json resp) = public_fields
    /\ ~ In "password" (map fst (dto.UserResponse_json resp))
    /\ (forall hash, public_view (entity.set_Password hash created) = resp)
    /\ handler.Register HashPassword (handler.Bound req) w
       = Some (response.Created "User registered successfully"
                 (Some (response.UserData resp)), w').
Proof.
  intros Hrun.
  destruct (Register_success_inv HashPassword w w' req result Hrun)
    as (created & Hcreate & Hcalls & Hres).
  exists (new_user HashPassword req), created, (public_view created).
  split; [exact Hcalls|].
  do 4 (split; [reflexivity|]).
  split; [exact Hcreate|]. split; [exact Hres|].
  do 2 (split; [reflexivity|]).
  split.
  { cbn. intros H. repeat (destruct H as [H|H]; [discriminate H|]).
    exact H. }
  split; [intros hash; reflexivity|].
  unfold handler.Register, bind. rewrite Hrun, Hres. reflexivity.
Qed.

(** Carol registers under a fresh address. *)
Lemma Register_success_public_view_witness :
  let req := {| dto.reg_Name := "Carol";
                dto.reg_Email := "carol@example.com";
                dto.reg_Password := "s3cret!" |} in
  exists result w',
    usecase.Register standin.HashPassword req standin.world
      = Some ((result, None), w')
    /\ exists user created resp,
    calls w' = (calls standin.world ++
                  [repository.CallFindByEmail (dto.reg_Email req);
                   repository.CallCreate user])%list
    /\ entity.Role user = constants.RoleUser
    /\ entity.IsActive user = true
    /\ entity.Name user = dto.reg_Name req
    /\ entity.Email user = dto.reg_Email req
    /\ repository.Create (store standin.world) user
       = (store w', created, None)
    /\ result = Some resp
    /\ resp = public_view created
    /\ map fst (dto.UserResponse_json resp) = public_fields
    /\ ~ In "password" (map fst (dto.UserResponse_json resp))
    /\ (forall hash, public_view (entity.set_Password hash created) = resp)
    /\ handler.Register standin.HashPassword (handler.Bound req)
         standin.world
       = Some (response.Created "User registered successfully"
                 (Some (response.UserData resp)), w').
Proof.
  intros req.
  eexists; eexists.
  split; [vm_compute; reflexivity|].
  apply (Register_success_public_view standin.HashPassword standin.world
           _ req _).
  vm_compute; reflexivity.
Defined.


(** ** Update *)

Section UpdateFacts.

Context {DB : Type} {userRepo : repository.UserRepository DB}.
Variable HashPassword : string -> string * option error.

Lemma Update_not_found (w : World DB) (id : N)
    (req : dto.UpdateUserRequest) :
  snd (repository.FindByID (store w) id) = Some gorm_ErrRecordNotFound ->
  usecase.Update HashPassword id req w =
    Some ((None, Some (errors_New "user not found")), after_FindByID w id).
Proof.
  intros Hfind.
  unfold usecase.Update, usecase.repo_FindByID, bind, ret.
  destruct (repository.FindByID (store w) id) as [user err].
  cbn in Hfind. subst err. reflexivity.
Qed.

Lemma GetByID_not_found (w : World DB) (id : N) :
  snd (repository.FindByID (store w) id) = Some gorm_ErrRecordNotFound ->
  usecase.GetByID id w =
    Some ((None, Some (errors_New "user not found")), after_FindByID w id).
Proof.
  intros Hfind.
  unfold usecase.GetByID, usecase.repo_FindByID, bind, ret.
  destruct (repository.FindByID (store w) id) as [user err].
  cbn in Hfind. subst err. reflexivity.
Qed.

Lemma Delete_not_found (w : World DB) (id : N) :
  snd (repository.FindByID (store w) id) = Some gorm_ErrRecordNotFound ->
  usecase.Delete id w =
    Some (Some (errors_New "user not found"), after_FindByID w id).
Proof.
  intros Hfind.
  unfold usecase.Delete, usecase.repo_FindByID, bind, ret.
  destruct (repository.FindByID (store w) id) as [user err].
  cbn in Hfind. subst err. reflexivity.
Qed.

(** [Update] with only an e-mail in the request, up to the e-mail block:
    the name block is skipped and the look-up by identifier is logged. *)
Lemma Update_only_email_unfold (w : World DB) (id : N)
    (req : dto.UpdateUserRequest) (user : entity.User) :
  dto.upd_Name req = "" ->
  repository.FindByID (store w) id = (Some user, None) ->
  usecase.Update HashPassword id req w =
    usecase.Update_email HashPassword id req user (after_FindByID w id).
Proof.
  intros Hname Hfind.
  unfold usecase.Update, usecase.repo_FindByID, bind, ret, deref.
  rewrite Hfind, Hname. reflexivity.
Qed.

(** The e-mail block when the address is free or owned by the same user:
    the password block is skipped and the user with the new address goes
    to the repository. *)
Lemma Update_email_free (w : World DB) (id : N)
    (req : dto.UpdateUserRequest) (user : entity.User) :
  dto.upd_Password req = "" ->
  dto.upd_Email req <> "" ->
  (repository.FindByEmail (store w) (dto.upd_Email req)
     = (None, Some gorm_ErrRecordNotFound)
   \/ exists owner,
        repository.FindByEmail (store w) (dto.upd_Email req)
          = (Some owner, None)
        /\ entity.ID owner = id) ->
  usecase.Update_email HashPassword id req user w =
    usecase.Update_save (entity.set_Email (dto.upd_Email req) user)
      (after_FindByEmail w (dto.upd_Email req)).
Proof.
  intros Hpw Hemail Hfree.
  apply String.eqb_neq in Hemail.
  unfold usecase.Update_email, usecase.Update_password,
    usecase.repo_FindByEmail, bind, ret.
  rewrite Hemail, Hpw. cbn [negb].
  destruct Hfree as [Hfind | (owner & Hfind & Hid)]; rewrite Hfind; cbn.
  - reflexivity.
  - rewrite Hid, N.eqb_refl. reflexivity.
Qed.

Lemma Update_email_taken (w : World DB) (id : N)
    (req : dto.UpdateUserRequest) (user owner : entity.User) :
  dto.upd_Email req <> "" ->
  repository.FindByEmail (store w) (dto.upd_Email req) = (Some owner, None) ->
  entity.ID owner <> id ->
  usecase.Update_email HashPassword id req user w =
    Some ((None, Some (errors_New "email already taken")),
          after_FindByEmail w (dto.upd_Email req)).
Proof.
  intros Hemail Hfind Hid.
  apply String.eqb_neq in Hemail. apply N.eqb_neq in Hid.
  unfold usecase.Update_email, usecase.repo_FindByEmail, bind, ret.
  rewrite Hemail. cbn [negb]. rewrite Hfind. cbn. rewrite Hid. reflexivity.
Qed.

Lemma Update_save_run (w : World DB) (user : entity.User) :
  exists db' saved err,
    repository.Update (store w) user = (db', saved, err)
    /\ usecase.Update_save user w =
         Some ((if not_nil err then None else Some (public_view saved), err),
               mkWorld db' (calls w ++ [repository.CallUpdate user])).
Proof.
  unfold usecase.Update_save, usecase.repo_Update, bind, ret.
  destruct (repository.Update (store w) user) as [[db' saved] err].
  exists db', saved, err. split; [reflexivity|].
  destruct err; reflexivity.
Qed.

End UpdateFacts.

(** C5, on the code. For every update request addressed to an id for
    which find-by-id reports no row, Update fails with the "user not
    found" error, and the HTTP response of [UpdateUser] has status 400,
    not 404; on the same id, [GetUser] and [DeleteUser] answer 404 with
    that message. *)
Theorem UpdateUser_not_found_status
    {DB : Type} {userRepo : repository.UserRepository DB}
    (HashPassword : string -> string * option error)
    (w : World DB) (idParam : string) (id : Z)
    (req : dto.UpdateUserRequest) :
  strconv.ParseUint idParam 32 = (id, None) ->
  snd (repository.FindByID (store w) (Z.to_N id))
    = Some gorm_ErrRecordNotFound ->
  exists written w',
    usecase.Update HashPassword (Z.to_N id) req w
      = Some ((None, Some (errors_New "user not found")), w')
    /\ handler.UpdateUser HashPassword idParam (handler.Bound req) w
       = Some (written, w')
    /\ written = response.BadRequest "user not found" None
    /\ response.Status written = 400
    /\ response.Status written <> http.StatusNotFound
    /\ handler.GetUser idParam w
       = Some (response.NotFound "user not found", w')
    /\ handler.DeleteUser idParam w
       = Some (response.NotFound "user not found", w')
    /\ response.Status (response.NotFound "user not found")
       = http.StatusNotFound.
Proof.
  intros Hparse Hfind.
  pose proof (Update_not_found HashPassword w (Z.to_N id) req Hfind) as Hrun.
  exists (response.BadRequest "user not found" None),
         (after_FindByID w (Z.to_N id)).
  split; [exact Hrun|].
  split.
  { unfold handler.UpdateUser, bind. rewrite Hparse, Hrun. reflexivity. }
  split; [reflexivity|]. split; [reflexivity|].
  split; [vm_compute; discriminate|].
  split.
  { unfold handler.GetUser, bind.
    rewrite Hparse, (GetByID_not_found w (Z.to_N id) Hfind). reflexivity. }
  split; [|reflexivity].
  unfold handler.DeleteUser, bind.
  rewrite Hparse, (Delete_not_found w (Z.to_N id) Hfind). reflexivity.
Qed.

(** [PUT /users/42] on a table that has no row 42. *)
Lemma UpdateUser_not_found_status_witness :
  let req := {| dto.upd_Name := "Nobody"; dto.upd_Email := "";
                dto.upd_Password := "" |} in
  strconv.ParseUint "42" 32 = (42, None)
  /\ snd (repository.FindByID (store standin.world) (Z.to_N 42))
     = Some gorm_ErrRecordNotFound
  /\ exists written w',
    usecase.Update standin.HashPassword (Z.to_N 42) req standin.world
      = Some ((None, Some (errors_New "user not found")), w')
    /\ handler.UpdateUser standin.HashPassword "42" (handler.Bound req)
         standin.world
       = Some (written, w')
    /\ written = response.BadRequest "user not found" None
    /\ response.Status written = 400
    /\ response.Status written <> http.StatusNotFound
    /\ handler.GetUser "42" standin.world
       = Some (response.NotFound "user not found", w')
    /\ handler.DeleteUser "42" standin.world
       = Some (response.NotFound "user not found", w')
    /\ response.Status (response.NotFound "user not found")
       = http.StatusNotFound.
Proof.
  intros req.
  split; [vm_compute; reflexivity|].
  split; [vm_compute; reflexivity|].
  apply (UpdateUser_not_found_status standin.HashPassword standin.world
           "42" 42 req); vm_compute; reflexivity.
Defined.

(** C6. For every existing user and every update request that supplies
    only a non-empty email: if no other user owns that email (the look-up
    finds no row, or a row with the same id), Update hands the store the
    loaded user with the email replaced and the name, the password hash
    and every other field unchanged; if the email is owned by a user
    with a different id, Update fails with "email already taken", the
    store's update operation is never invoked and the store is
    unchanged. *)
Theorem Update_only_email_frame
    {DB : Type} {userRepo : repository.UserRepository DB}
    (HashPassword : string -> string * option error)
    (w : World DB) (id : N) (req : dto.UpdateUserRequest)
    (user : entity.User) :
  dto.upd_Name req = "" ->
  dto.upd_Password req = "" ->
  dto.upd_Email req <> "" ->
  repository.FindByID (store w) id = (Some user, None) ->
  let email := dto.upd_Email req in
  let sent := entity.set_Email email user in
  ((repository.FindByEmail (store w) email
      = (None, Some gorm_ErrRecordNotFound)
    \/ exists owner,
         repository.FindByEmail (store w) email = (Some owner, None)
         /\ entity.ID owner = id) ->
   exists db' saved err w',
     repository.Update (store w) sent = (db', saved, err)
     /\ usecase.Update HashPassword id req w
        = Some ((if not_nil err then None else Some (public_view saved), err),
                w')
     /\ store w' = db'
     /\ calls w' = (calls w ++
                     [repository.CallFindByID id;
                      repository.CallFindByEmail email;
                      repository.CallUpdate sent])%list
     /\ entity.Email sent = email
     /\ entity.Name sent = entity.Name user
     /\ entity.Password sent = entity.Password user
     /\ entity.ID sent = entity.ID user
     /\ entity.Role sent = entity.Role user
     /\ entity.IsActive sent = entity.IsActive user
     /\ entity.CreatedAt sent = entity.CreatedAt user
     /\ entity.UpdatedAt sent = entity.UpdatedAt user
     /\ entity.DeletedAt sent = entity.DeletedAt user)
  /\ (forall owner,
        repository.FindByEmail (store w) email = (Some owner, None) ->
        entity.ID owner <> id ->
        exists trace w',
          usecase.Update HashPassword id req w
            = Some ((None, Some (errors_New "email already taken")), w')
          /\ store w' = store w
          /\ calls w' = (calls w ++ trace)%list
          /\ trace = [repository.CallFindByID id;
                      repository.CallFindByEmail email]
          /\ existsb repository.is_CallUpdate trace = false).
Proof.
  intros Hname Hpw Hemail Hfind email sent.
  pose proof (Update_only_email_unfold HashPassword w id req user
                Hname Hfind) as Hstart.
  split.
  - intros Hfree.
    pose proof (Update_email_free HashPassword (after_FindByID w id) id req
                  user Hpw Hemail Hfree) as Hmid.
    destruct (Update_save_run (after_FindByEmail (after_FindByID w id) email)
                sent) as (db' & saved & err & Hupd & Hsave).
    exists db', saved, err,
      (mkWorld db'
         (calls (after_FindByEmail (after_FindByID w id) email)
            ++ [repository.CallUpdate sent])).
    split; [exact Hupd|].
    split; [rewrite Hstart, Hmid; exact Hsave|].
    split; [reflexivity|].
    split; [cbn; rewrite <- !app_assoc; reflexivity|].
    repeat split.
  - intros owner Hown Hid.
    pose proof (Update_email_taken HashPassword (after_FindByID w id) id req
                  user owner Hemail Hown Hid) as Hmid.
    exists [repository.CallFindByID id; repository.CallFindByEmail email],
           (after_FindByEmail (after_FindByID w id) email).
    split; [rewrite Hstart; exact Hmid|].
    split; [reflexivity|].
    split; [cbn; rewrite <- app_assoc; reflexivity|].
    split; reflexivity.
Qed.

(** Alice asks for a free address, then for Bob's. *)
Lemma Update_only_email_frame_witness :
  let reqA := {| dto.upd_Name := ""; dto.upd_Email := "new@x.com";
                 dto.upd_Password := "" |} in
  let reqB := {| dto.upd_Name := ""; dto.upd_Email := "bob@example.com";
                 dto.upd_Password := "" |} in
  repository.FindByID (store standin.world) 1%N = (Some standin.alice, None)
  /\ repository.FindByEmail (store standin.world) "new@x.com"
     = (None, Some gorm_ErrRecordNotFound)
  /\ repository.FindByEmail (store standin.world) "bob@example.com"
     = (Some standin.bob, None)
  /\ (exists db' saved err w',
        repository.Update (store standin.world)
          (entity.set_Email "new@x.com" standin.alice) = (db', saved, err)
        /\ usecase.Update standin.HashPassword 1%N reqA standin.world
           = Some ((if not_nil err then None
                    else Some (public_view saved), err), w')
        /\ store w' = db'
        /\ calls w' =
           [repository.CallFindByID 1%N;
            repository.CallFindByEmail "new@x.com";
            repository.CallUpdate
              (entity.set_Email "new@x.com" standin.alice)]
        /\ entity.Name (entity.set_Email "new@x.com" standin.alice)
           = entity.Name standin.alice
        /\ entity.Password (entity.set_Email "new@x.com" standin.alice)
           = entity.Password standin.alice)
  /\ (exists trace w',
        usecase.Update standin.HashPassword 1%N reqB standin.world
          = Some ((None, Some (errors_New "email already taken")), w')
        /\ store w' = store standin.world
        /\ calls w' = trace
        /\ existsb repository.is_CallUpdate trace = false).
Proof.
  intros reqA reqB.
  assert (HfindA : repository.FindByID (store standin.world) 1%N
                   = (Some standin.alice, None))
    by (vm_compute; reflexivity).
  assert (HfreeA : repository.FindByEmail (store standin.world) "new@x.com"
                   = (None, Some gorm_ErrRecordNotFound))
    by (vm_compute; reflexivity).
  assert (HownB : repository.FindByEmail (store standin.world)
                    "bob@example.com" = (Some standin.bob, None))
    by (vm_compute; reflexivity).
  split; [exact HfindA|]. split; [exact HfreeA|]. split; [exact HownB|].
  split.
  - destruct (Update_only_email_frame standin.HashPassword standin.world
                1%N reqA standin.alice eq_refl eq_refl
                ltac:(discriminate) HfindA) as [HA _].
    destruct (HA (or_introl HfreeA))
      as (db' & saved & err & w' & H1 & H2 & H3 & H4 & _ & H6 & H7 & _).
    exists db', saved, err, w'.
    repeat split; assumption.
  - destruct (Update_only_email_frame standin.HashPassword standin.world
                1%N reqB standin.alice eq_refl eq_refl
                ltac:(discriminate) HfindA) as [_ HB].
    destruct (HB standin.bob HownB ltac:(discriminate))
      as (trace & w' & H1 & H2 & H3 & H4 & H5).
    exists trace, w'.
    repeat split; assumption.
Defined.

Lemma gorm_stored_visible (u : entity.User) :
  gorm.visible (gorm.stored u) = gorm.visible u.
Proof.
  unfold gorm.visible, gorm.stored. cbn.
  destruct (entity.DeletedAt u); reflexivity.
Qed.

(** In the gorm-backed store the frame property reaches the row: after a
    successful update of the e-mail alone, looking the id up again yields
    the row of the saved user, whose name and password hash are those
    loaded before and whose address is the new one. *)
Lemma gorm_replace_found (id : N) (saved : entity.User)
    (rows : list entity.User) :
  existsb (fun r => (entity.ID r =? id)%N) rows = true ->
  gorm.visible saved = true ->
  entity.ID saved = id ->
  find (fun u => gorm.visible u && (entity.ID u =? id)%N)
       (map (fun r => if (entity.ID r =? id)%N then saved else r) rows)
    = Some saved.
Proof.
  intros Hex Hvis Hid.
  induction rows as [|r rest IH]; [discriminate|].
  cbn [map find]. cbn [existsb] in Hex.
  destruct (entity.ID r =? id)%N eqn:Er.
  - rewrite Hvis, Hid, N.eqb_refl. reflexivity.
  - rewrite Er, andb_false_r. apply IH. exact Hex.
Qed.

Lemma userRepository_Update_email_persisted (db db' : gorm.DB) (id : N)
    (email : string) (user saved : entity.User) :
  id <> 0%N ->
  repository.FindByID db id = (Some user, None) ->
  repository.Update db (entity.set_Email email user) = (db', saved, None) ->
  repository.FindByID db' id = (Some (gorm.stored saved), None)
  /\ entity.Email (gorm.stored saved) = email
  /\ entity.Name (gorm.stored saved) = entity.Name user
  /\ entity.Password (gorm.stored saved) = entity.Password user.
Proof.
  intros Hid Hfind Hupd. cbn in Hfind, Hupd |- *.
  unfold repository.userRepository_FindByID, gorm.First in Hfind.
  destruct (gorm.failure db) eqn:Hok; [discriminate|].
  destruct (find _ (gorm.rows db)) as [found|] eqn:Hf; [|discriminate].
  injection Hfind as ->.
  apply find_some in Hf. destruct Hf as [Hin Hcond].
  apply andb_prop in Hcond. destruct Hcond as [Hvis Heq].
  apply N.eqb_eq in Heq.
  assert (Hex : existsb (fun r => (entity.ID r =? id)%N) (gorm.rows db)
                = true).
  { apply existsb_exists. exists user. split; [exact Hin|].
    apply N.eqb_eq. exact Heq. }
  unfold repository.userRepository_Update, gorm.Save in Hupd.
  cbn [entity.set_Email entity.ID entity.Email] in Hupd.
  rewrite Heq in Hupd. apply N.eqb_neq in Hid. rewrite Hid, Hok in Hupd.
  destruct (existsb _ (gorm.rows db)) eqn:Hdup in Hupd; [discriminate|].
  rewrite Hex in Hupd. injection Hupd as <- <-.
  unfold repository.userRepository_FindByID, gorm.First. cbn.
  rewrite gorm_replace_found;
    [repeat split|exact Hex|rewrite gorm_stored_visible; exact Hvis
    |reflexivity].
Qed.


(** ** The token service *)

(** C7. For every (id, email, role) triple, verifying a token at the
    moment it was issued, the configured duration not being negative,
    returns exactly that id, email and role, as does verifying it at any
    time up to its embedded expiry; verifying the same token at any time
    past its embedded expiry fails with an authentication error. *)
Theorem token_round_trip
    (sign : string -> jwt.Claims -> string) (m : jwt.JWTManager)
    (now : Z) (userID : N) (email role : string) :
  let token := jwt.issue sign m now userID email role in
  let identity := {| jwt.id_UserID := userID; jwt.id_Email := email;
                     jwt.id_Role := role |} in
  (0 <= jwt.expireDuration m ->
   jwt.verify sign m now token = inl identity)
  /\ (forall at_, at_ <= now + jwt.expireDuration m ->
                  jwt.verify sign m at_ token = inl identity)
  /\ (forall at_, now + jwt.expireDuration m < at_ ->
                  jwt.verify sign m at_ token = inr jwt.ErrExpiredToken).
Proof.
  intros token identity.
  assert (Hup : forall at_, at_ <= now + jwt.expireDuration m ->
                            jwt.verify sign m at_ token = inl identity).
  { intros at_ Hat. unfold token, jwt.verify, jwt.issue.
    rewrite String.eqb_refl. cbn.
    destruct (Z.ltb_spec (now + jwt.expireDuration m) at_); [lia|].
    reflexivity. }
  split; [intros Hd; apply Hup; lia|].
  split; [exact Hup|].
  intros at_ Hat. unfold token, jwt.verify, jwt.issue.
  rewrite String.eqb_refl. cbn.
  destruct (Z.ltb_spec (now + jwt.expireDuration m) at_); [|lia].
  reflexivity.
Qed.

(** A token for Alice with a lifetime of 24 hours, checked at once and a
    second after it expired. *)
Lemma token_round_trip_witness :
  let m := {| jwt.secretKey := "your-secret-key";
              jwt.expireDuration := 86400 |} in
  let token := jwt.issue standin.sign m 1700000000 1%N
                 "alice@example.com" "user" in
  0 <= jwt.expireDuration m
  /\ jwt.verify standin.sign m 1700000000 token
     = inl {| jwt.id_UserID := 1%N; jwt.id_Email := "alice@example.com";
              jwt.id_Role := "user" |}
  /\ jwt.verify standin.sign m 1700086401 token = inr jwt.ErrExpiredToken.
Proof.
  intros m token.
  destruct (token_round_trip standin.sign m 1700000000 1%N
              "alice@example.com" "user") as (Hnow & _ & Hlate).
  split; [cbn; lia|].
  split; [apply Hnow; cbn; lia|].
  apply Hlate; cbn; lia.
Defined.


(* ================================================================== *)
(** * Further properties of the use case and the handlers *)

(** ** Login *)

Lemma Login_success_run
    {DB : Type} {userRepo : repository.UserRepository DB}
    (CheckPassword : string -> string -> bool)
    (GenerateToken : N -> string -> string -> string * option error)
    (w : World DB) (req : dto.LoginRequest) (user : entity.User)
    (token : string) :
  repository.FindByEmail (store w) (dto.login_Email req) = (Some user, None) ->
  CheckPassword (dto.login_Password req) (entity.Password user) = true ->
  entity.IsActive user = true ->
  GenerateToken (entity.ID user) (entity.Email user) (entity.Role user)
    = (token, None) ->
  usecase.Login CheckPassword GenerateToken req w
    = Some ((Some {| dto.Token := token; dto.User := public_view user |},
             None),
            after_FindByEmail w (dto.login_Email req)).
Proof.
  intros Hfind Hcheck Hactive Htoken.
  unfold usecase.Login, usecase.repo_FindByEmail, bind, ret, deref.
  rewrite Hfind. cbn. rewrite Hcheck. cbn.
  replace (negb (entity.IsActive user)) with false
    by (rewrite Hactive; reflexivity).
  rewrite Htoken. reflexivity.
Qed.

(** X1. When the address is stored, the password verifies, the account
    is active and the issuer returns a token, Login returns that token,
    issued for the id, email and role of the stored user, with the
    public view of the user; the handler answers 200, and the store is
    only read. *)
Theorem Login_success
    {DB : Type} {userRepo : repository.UserRepository DB}
    (CheckPassword : string -> string -> bool)
    (GenerateToken : N -> string -> string -> string * option error)
    (w : World DB) (req : dto.LoginRequest) (user : entity.User)
    (token : string) :
  repository.FindByEmail (store w) (dto.login_Email req) = (Some user, None) ->
  CheckPassword (dto.login_Password req) (entity.Password user) = true ->
  entity.IsActive user = true ->
  GenerateToken (entity.ID user) (entity.Email user) (entity.Role user)
    = (token, None) ->
  let result := {| dto.Token := token; dto.User := public_view user |} in
  usecase.Login CheckPassword GenerateToken req w
    = Some ((Some result, None), after_FindByEmail w (dto.login_Email req))
  /\ handler.Login CheckPassword GenerateToken (handler.Bound req) w
     = Some (response.Success_ "Login successful"
               (Some (response.LoginData result)),
             after_FindByEmail w (dto.login_Email req))
  /\ response.Status
       (response.Success_ "Login successful"
          (Some (response.LoginData result))) = 200.
Proof.
  intros Hfind Hcheck Hactive Htoken result.
  pose proof (Login_success_run CheckPassword GenerateToken w req user token
                Hfind Hcheck Hactive Htoken) as Hrun.
  split; [exact Hrun|].
  split; [|reflexivity].
  unfold handler.Login, bind. rewrite Hrun. reflexivity.
Qed.

(** Alice logs in. *)
Lemma Login_success_witness :
  let req := {| dto.login_Email := "alice@example.com";
                dto.login_Password := "password123" |} in
  let result := {| dto.Token := "alice@example.com.user";
                   dto.User := public_view standin.alice |} in
  repository.FindByEmail (store standin.world) (dto.login_Email req)
    = (Some standin.alice, None)
  /\ usecase.Login standin.CheckPassword standin.GenerateToken req
       standin.world
     = Some ((Some result, None),
             after_FindByEmail standin.world (dto.login_Email req))
  /\ handler.Login standin.CheckPassword standin.GenerateToken
       (handler.Bound req) standin.world
     = Some (response.Success_ "Login successful"
               (Some (response.LoginData result)),
             after_FindByEmail standin.world (dto.login_Email req))
  /\ response.Status
       (response.Success_ "Login successful"
          (Some (response.LoginData result))) = 200.
Proof.
  intros req result.
  assert (Hfind : repository.FindByEmail (store standin.world)
                    (dto.login_Email req) = (Some standin.alice, None))
    by (vm_compute; reflexivity).
  split; [exact Hfind|].
  apply (Login_success standin.CheckPassword standin.GenerateToken
           standin.world req standin.alice "alice@example.com.user" Hfind);
    vm_compute; reflexivity.
Defined.

(** X2. Login never writes: whatever the request and the store, either
    the repository returned neither a user nor an error and Login
    dereferences nil, or Login returns after exactly one repository call,
    the look-up by email, with the store as it was. *)
Theorem Login_only_reads
    {DB : Type} {userRepo : repository.UserRepository DB}
    (CheckPassword : string -> string -> bool)
    (GenerateToken : N -> string -> string -> string * option error)
    (w : World DB) (req : dto.LoginRequest) :
  (repository.FindByEmail (store w) (dto.login_Email req) = (None, None)
   /\ usecase.Login CheckPassword GenerateToken req w = None)
  \/ (exists result w',
        usecase.Login CheckPassword GenerateToken req w = Some (result, w')
        /\ store w' = store w
        /\ calls w' = (calls w ++
                        [repository.CallFindByEmail (dto.login_Email req)])%list
        /\ existsb is_write
             [repository.CallFindByEmail (dto.login_Email req)] = false).
Proof.
  unfold usecase.Login, usecase.repo_FindByEmail, bind, ret, deref.
  destruct (repository.FindByEmail (store w) (dto.login_Email req))
    as [user err].
  destruct err as [e|]; cbn.
  - right. destruct (is_ErrRecordNotFound e);
      eexists; eexists; (split; [reflexivity|]); repeat split.
  - destruct user as [user|]; cbn.
    + right.
      destruct (CheckPassword _ _); cbn;
        [destruct (entity.IsActive user); cbn;
         [destruct (GenerateToken _ _ _) as [token [terr|]]; cbn|]|];
        eexists; eexists; (split; [reflexivity|]); repeat split.
    + left. split; reflexivity.
Qed.

(** X3. An error of the repository other than record-not-found, and an
    error of the token issuer, come back from Login unchanged, and the
    handler sends their text to the client in a 401 response. *)
Theorem Login_errors_passed_through
    {DB : Type} {userRepo : repository.UserRepository DB}
    (CheckPassword : string -> string -> bool)
    (GenerateToken : N -> string -> string -> string * option error)
    (w : World DB) (req : dto.LoginRequest) :
  (forall found e,
     repository.FindByEmail (store w) (dto.login_Email req)
       = (found, Some e) ->
     is_ErrRecordNotFound e = false ->
     usecase.Login CheckPassword GenerateToken req w
       = Some ((None, Some e), after_FindByEmail w (dto.login_Email req))
     /\ handler.Login CheckPassword GenerateToken (handler.Bound req) w
        = Some (response.Unauthorized (Error_string e),
                after_FindByEmail w (dto.login_Email req)))
  /\ (forall user token e,
        repository.FindByEmail (store w) (dto.login_Email req)
          = (Some user, None) ->
        CheckPassword (dto.login_Password req) (entity.Password user)
          = true ->
        entity.IsActive user = true ->
        GenerateToken (entity.ID user) (entity.Email user) (entity.Role user)
          = (token, Some e) ->
        usecase.Login CheckPassword GenerateToken req w
          = Some ((None, Some e), after_FindByEmail w (dto.login_Email req))
        /\ handler.Login CheckPassword GenerateToken (handler.Bound req) w
           = Some (response.Unauthorized (Error_string e),
                   after_FindByEmail w (dto.login_Email req))).
Proof.
  split.
  - intros found e Hfind Hnf.
    assert (Hrun : usecase.Login CheckPassword GenerateToken req w
                   = Some ((None, Some e),
                           after_FindByEmail w (dto.login_Email req))).
    { unfold usecase.Login, usecase.repo_FindByEmail, bind, ret.
      rewrite Hfind. cbn. rewrite Hnf. reflexivity. }
    split; [exact Hrun|].
    exact (handler_Login_error _ _ _ _ _ _ _ Hrun).
  - intros user token e Hfind Hcheck Hactive Htoken.
    assert (Hrun : usecase.Login CheckPassword GenerateToken req w
                   = Some ((None, Some e),
                           after_FindByEmail w (dto.login_Email req))).
    { unfold usecase.Login, usecase.repo_FindByEmail, bind, ret, deref.
      rewrite Hfind. cbn. rewrite Hcheck. cbn.
      replace (negb (entity.IsActive user)) with false
        by (rewrite Hactive; reflexivity).
      rewrite Htoken. reflexivity. }
    split; [exact Hrun|].
    exact (handler_Login_error _ _ _ _ _ _ _ Hrun).
Qed.

(** Alice logs in while the database is unreachable. *)
Lemma Login_errors_passed_through_witness :
  let req := {| dto.login_Email := "alice@example.com";
                dto.login_Password := "password123" |} in
  let w := mkWorld fixture.db_down [] in
  let e := external_error "dial tcp 127.0.0.1:5432: connection refused" in
  repository.FindByEmail (store w) (dto.login_Email req) = (None, Some e)
  /\ handler.Login standin.CheckPassword standin.GenerateToken
       (handler.Bound req) w
     = Some (response.Unauthorized
               "dial tcp 127.0.0.1:5432: connection refused",
             after_FindByEmail w (dto.login_Email req)).
Proof.
  intros req w e.
  assert (Hfind : repository.FindByEmail (store w) (dto.login_Email req)
                  = (None, Some e)) by (vm_compute; reflexivity).
  split; [exact Hfind|].
  destruct (Login_errors_passed_through standin.CheckPassword
              standin.GenerateToken w req) as [Hrepo _].
  exact (proj2 (Hrepo None e Hfind eq_refl)).
Defined.


(** ** Registration *)

(** X4. Register passes on unchanged the errors of its collaborators: a
    look-up error other than record-not-found and a hashing error end the
    run before [Create] is called, and an error of [Create] itself (the
    unique index losing a race, say) is returned as it is; the handler
    sends the text of any of them in a 400 response. *)
Theorem Register_errors_passed_through
    {DB : Type} {userRepo : repository.UserRepository DB}
    (HashPassword : string -> string * option error)
    (w : World DB) (req : dto.RegisterRequest) :
  (forall found e,
     repository.FindByEmail (store w) (dto.reg_Email req)
       = (found, Some e) ->
     is_ErrRecordNotFound e = false ->
     usecase.Register HashPassword req w
       = Some ((None, Some e), after_FindByEmail w (dto.reg_Email req))
     /\ handler.Register HashPassword (handler.Bound req) w
        = Some (response.BadRequest (Error_string e) None,
                after_FindByEmail w (dto.reg_Email req)))
  /\ (forall hashed e,
        repository.FindByEmail (store w) (dto.reg_Email req)
          = (None, Some gorm_ErrRecordNotFound) ->
        HashPassword (dto.reg_Password req) = (hashed, Some e) ->
        usecase.Register HashPassword req w
          = Some ((None, Some e), after_FindByEmail w (dto.reg_Email req))
        /\ handler.Register HashPassword (handler.Bound req) w
           = Some (response.BadRequest (Error_string e) None,
                   after_FindByEmail w (dto.reg_Email req)))
  /\ (forall db' user' e,
        repository.FindByEmail (store w) (dto.reg_Email req)
          = (None, Some gorm_ErrRecordNotFound) ->
        snd (HashPassword (dto.reg_Password req)) = None ->
        repository.Create (store w) (new_user HashPassword req)
          = (db', user', Some e) ->
        let w' := mkWorld db'
                    (calls w ++
                      [repository.CallFindByEmail (dto.reg_Email req);
                       repository.CallCreate (new_user HashPassword req)]) in
        usecase.Register HashPassword req w = Some ((None, Some e), w')
        /\ handler.Register HashPassword (handler.Bound req) w
           = Some (response.BadRequest (Error_string e) None, w')).
Proof.
  assert (Hhandler : forall e w',
            usecase.Register HashPassword req w = Some ((None, Some e), w') ->
            handler.Register HashPassword (handler.Bound req) w
              = Some (response.BadRequest (Error_string e) None, w')).
  { intros e w' Hrun. unfold handler.Register, bind. rewrite Hrun.
    reflexivity. }
  split; [|split].
  - intros found e Hfind Hnf.
    assert (Hrun : usecase.Register HashPassword req w
                   = Some ((None, Some e),
                           after_FindByEmail w (dto.reg_Email req))).
    { unfold usecase.Register, usecase.repo_FindByEmail, bind, ret.
      rewrite Hfind. cbn. rewrite Hnf. reflexivity. }
    split; [exact Hrun|apply Hhandler; exact Hrun].
  - intros hashed e Hfind Hhash.
    assert (Hrun : usecase.Register HashPassword req w
                   = Some ((None, Some e),
                           after_FindByEmail w (dto.reg_Email req))).
    { unfold usecase.Register, usecase.repo_FindByEmail, bind, ret.
      rewrite Hfind. cbn. rewrite Hhash. reflexivity. }
    split; [exact Hrun|apply Hhandler; exact Hrun].
  - intros db' user' e Hfind Hhash Hcreate w'.
    assert (Hrun : usecase.Register HashPassword req w
                   = Some ((None, Some e), w')).
    { unfold w'. clear w'.
      unfold usecase.Register, usecase.repo_FindByEmail,
        usecase.repo_Create, bind, ret.
      rewrite Hfind. cbn. unfold new_user in *.
      destruct (HashPassword (dto.reg_Password req)) as [hashed herr].
      cbn in Hhash, Hcreate |- *. subst herr. cbn.
      rewrite Hcreate. cbn.
      rewrite <- app_assoc. reflexivity. }
    split; [exact Hrun|apply Hhandler; exact Hrun].
Qed.

(** Someone registers under the address of Carol's soft-deleted account:
    the look-up does not see the row, the unique index does. *)
Lemma Register_errors_passed_through_witness :
  let req := {| dto.reg_Name := "Carol"; dto.reg_Email := "carol@example.com";
                dto.reg_Password := "s3cret!" |} in
  let w := mkWorld fixture.db_with_deleted [] in
  repository.FindByEmail (store w) (dto.reg_Email req)
    = (None, Some gorm_ErrRecordNotFound)
  /\ exists w',
       handler.Register standin.HashPassword (handler.Bound req) w
       = Some (response.BadRequest
                 "duplicate key value violates unique constraint" None, w')
       /\ store w' = fixture.db_with_deleted.
Proof.
  intros req w.
  assert (Hfind : repository.FindByEmail (store w) (dto.reg_Email req)
                  = (None, Some gorm_ErrRecordNotFound))
    by (vm_compute; reflexivity).
  split; [exact Hfind|].
  destruct (Register_errors_passed_through standin.HashPassword w req)
    as (_ & _ & Hcreate).
  eexists. split.
  - refine (proj2 (Hcreate fixture.db_with_deleted
                     (new_user standin.HashPassword req) gorm.duplicate_key
                     Hfind eq_refl _)).
    vm_compute; reflexivity.
  - reflexivity.
Defined.

(** In the gorm-backed store, the row of a user that was just created is
    the one the look-up by its address returns. *)
Lemma find_app_none {A : Type} (p : A -> bool) (l l' : list A) :
  find p l = None -> find p (l ++ l') = find p l'.
Proof.
  induction l as [|a l IH]; [reflexivity|].
  cbn. destruct (p a); [discriminate|exact IH].
Qed.

Lemma gorm_Create_then_First (db db' : gorm.DB) (user created : entity.User) :
  entity.DeletedAt user = None ->
  gorm.Create db user = (db', created, None) ->
  gorm.First db' (fun u => (entity.Email u =? entity.Email user)%string)
    = (Some (gorm.stored created), None)
  /\ entity.Email created = entity.Email user
  /\ entity.Name created = entity.Name user
  /\ entity.Password created = entity.Password user
  /\ entity.IsActive created = true
  /\ gorm.failure db' = None.
Proof.
  intros Hvis Hcreate. unfold gorm.Create in Hcreate.
  destruct (gorm.failure db); [discriminate|].
  destruct (existsb _ (gorm.rows db)) eqn:Hdup; [discriminate|].
  injection Hcreate as <- <-.
  unfold gorm.First. cbn.
  rewrite find_app_none.
  - cbn [find]. rewrite gorm_stored_visible.
    unfold gorm.visible. cbn. rewrite Hvis, String.eqb_refl.
    repeat split.
  - destruct (find _ (gorm.rows db)) as [r|] eqn:Hf; [|reflexivity].
    apply find_some in Hf. destruct Hf as [Hin Hcond].
    apply andb_prop in Hcond. destruct Hcond as [_ Hmail].
    assert (Hex : existsb
              (fun r0 => (entity.Email r0 =? entity.Email user)%string
                         || (entity.ID r0 =?
                             (if (entity.ID user =? 0)%N then gorm.next_id db
                              else entity.ID user))%N)
              (gorm.rows db) = true).
    { apply existsb_exists. exists r. split; [exact Hin|].
      rewrite Hmail. reflexivity. }
    rewrite Hex in Hdup. discriminate.
Qed.

(** X5. On the gorm-backed store, a registration that succeeded can log
    in: if the checker accepts the password against the hash that was
    stored and the issuer signs, Login with the same address and password
    returns the token with a view of the same user: the id, name, email
    and role of the view Register returned, and active.  The two
    timestamps of the view are those of the row, which are the ones
    Register returned cut to the precision of the column. *)
Theorem Register_then_Login
    (HashPassword : string -> string * option error)
    (CheckPassword : string -> string -> bool)
    (GenerateToken : N -> string -> string -> string * option error)
    (w w1 : World gorm.DB) (req : dto.RegisterRequest)
    (resp : dto.UserResponse) (token : string) :
  usecase.Register HashPassword req w = Some ((Some resp, None), w1) ->
  CheckPassword (dto.reg_Password req)
    (fst (HashPassword (dto.reg_Password req))) = true ->
  GenerateToken (dto.ID resp) (dto.Email resp) (dto.Role resp)
    = (token, None) ->
  let login := {| dto.login_Email := dto.reg_Email req;
                  dto.login_Password := dto.reg_Password req |} in
  exists view,
    usecase.Login CheckPassword GenerateToken login w1
      = Some ((Some {| dto.Token := token; dto.User := view |}, None),
              after_FindByEmail w1 (dto.reg_Email req))
    /\ dto.ID view = dto.ID resp
    /\ dto.Name view = dto.Name resp
    /\ dto.Email view = dto.Email resp
    /\ dto.Role view = dto.Role resp
    /\ dto.IsActive view = true
    /\ dto.IsActive resp = true
    /\ dto.Email resp = dto.reg_Email req
    /\ dto.Name resp = dto.reg_Name req
    /\ dto.CreatedAt view = gorm.column_time (dto.CreatedAt resp)
    /\ dto.UpdatedAt view = gorm.column_time (dto.UpdatedAt resp).
Proof.
  intros Hreg Hcheck Htoken login.
  destruct (Register_success_inv HashPassword w w1 req (Some resp) Hreg)
    as (created & Hcreate & _ & Hres).
  injection Hres as ->.
  cbn in Hcreate. unfold repository.userRepository_Create in Hcreate.
  destruct (gorm_Create_then_First (store w) (store w1)
              (new_user HashPassword req) created eq_refl Hcreate)
    as (Hfirst & Hmail & Hname & Hpw & Hact & _).
  cbn [new_user entity.Email entity.Name entity.Password fst] in *.
  assert (Hfind : repository.FindByEmail (store w1) (dto.login_Email login)
                  = (Some (gorm.stored created), None)).
  { cbn. unfold repository.userRepository_FindByEmail.
    rewrite Hfirst. reflexivity. }
  exists (public_view (gorm.stored created)).
  split.
  - apply (Login_success_run CheckPassword GenerateToken w1 login
             (gorm.stored created) token Hfind).
    + cbn. rewrite Hpw. exact Hcheck.
    + exact Hact.
    + exact Htoken.
  - cbn. repeat split; assumption.
Qed.

(** Carol registers on the two-user store and logs in; the creation
    time Login shows has lost the 789 nanoseconds of the one Register
    showed. *)
Lemma Register_then_Login_witness :
  let req := {| dto.reg_Name := "Carol"; dto.reg_Email := "carol@example.com";
                dto.reg_Password := "s3cret!" |} in
  exists resp w1 view,
    usecase.Register standin.HashPassword req standin.world
      = Some ((Some resp, None), w1)
    /\ usecase.Login standin.CheckPassword standin.GenerateToken
         {| dto.login_Email := "carol@example.com";
            dto.login_Password := "s3cret!" |} w1
       = Some ((Some {| dto.Token := "carol@example.com.user";
                        dto.User := view |}, None),
               after_FindByEmail w1 "carol@example.com")
    /\ dto.ID view = dto.ID resp
    /\ dto.ID resp = 3%N
    /\ dto.CreatedAt resp = 1700000500123456789
    /\ dto.CreatedAt view = 1700000500123456000.
Proof.
  intros req.
  assert (Hreg : exists resp w1,
            usecase.Register standin.HashPassword req standin.world
              = Some ((Some resp, None), w1) /\ dto.ID resp = 3%N
              /\ dto.CreatedAt resp = 1700000500123456789).
  { eexists; eexists.
    split; [vm_compute; reflexivity|split; reflexivity]. }
  destruct Hreg as (resp & w1 & Hreg & Hid & Hcre).
  assert (Htoken : standin.GenerateToken (dto.ID resp) (dto.Email resp)
                     (dto.Role resp) = ("carol@example.com.user", None)).
  { vm_compute in Hreg. injection Hreg as <- _. reflexivity. }
  destruct (Register_then_Login standin.HashPassword standin.CheckPassword
              standin.GenerateToken standin.world w1 req resp
              "carol@example.com.user" Hreg eq_refl Htoken)
    as (view & Hlogin & Hvid & _ & _ & _ & _ & _ & _ & _ & Hvcre & _).
  exists resp, w1, view.
  split; [exact Hreg|]. split; [exact Hlogin|]. split; [exact Hvid|].
  split; [exact Hid|]. split; [exact Hcre|].
  rewrite Hvcre, Hcre. reflexivity.
Defined.

(** ** The id parameter *)

(** X6. For every id parameter that [ParseUint] rejects (empty, signed,
    not decimal, above 4294967295), [GetUser], [UpdateUser] and
    [DeleteUser] answer 400 "Invalid user ID" without a single repository
    call; [UpdateUser] does so before it looks at the body, valid or
    not. *)
Theorem invalid_id_rejected
    {DB : Type} {userRepo : repository.UserRepository DB}
    (HashPassword : string -> string * option error)
    (idParam : string) (body : handler.Bind dto.UpdateUserRequest)
    (w : World DB) :
  snd (strconv.ParseUint idParam 32) <> None ->
  let invalid := response.BadRequest "Invalid user ID" None in
  handler.GetUser idParam w = Some (invalid, w)
  /\ handler.UpdateUser HashPassword idParam body w = Some (invalid, w)
  /\ handler.DeleteUser idParam w = Some (invalid, w)
  /\ response.Status invalid = 400.
Proof.
  intros Hbad invalid.
  unfold handler.GetUser, handler.UpdateUser, handler.DeleteUser.
  destruct (strconv.ParseUint idParam 32) as [id [err|]];
    [|exfalso; apply Hbad; reflexivity].
  repeat split.
Qed.

(** [/users/-1], and three more parameters that do not parse. *)
Lemma invalid_id_rejected_witness :
  snd (strconv.ParseUint "-1" 32) <> None
  /\ snd (strconv.ParseUint "" 32) <> None
  /\ snd (strconv.ParseUint "12ab" 32) <> None
  /\ snd (strconv.ParseUint "4294967296" 32) <> None
  /\ snd (strconv.ParseUint "4294967295" 32) = None
  /\ handler.GetUser "-1" standin.world
     = Some (response.BadRequest "Invalid user ID" None, standin.world)
  /\ handler.UpdateUser standin.HashPassword "-1"
       (handler.BindFailed [("email", "Invalid email format")]) standin.world
     = Some (response.BadRequest "Invalid user ID" None, standin.world)
  /\ handler.DeleteUser "-1" standin.world
     = Some (response.BadRequest "Invalid user ID" None, standin.world).
Proof.
  assert (H1 : snd (strconv.ParseUint "-1" 32) <> None)
    by (vm_compute; discriminate).
  split; [exact H1|].
  split; [vm_compute; discriminate|].
  split; [vm_compute; discriminate|].
  split; [vm_compute; discriminate|].
  split; [vm_compute; reflexivity|].
  destruct (invalid_id_rejected standin.HashPassword "-1"
              (handler.BindFailed [("email", "Invalid email format")])
              standin.world H1) as (Hget & Hupd & Hdel & _).
  split; [exact Hget|]. split; [exact Hupd|exact Hdel].
Defined.

(** ** Update, whatever the request *)

Lemma updated_user_frame
    (HashPassword : string -> string * option error)
    (req : dto.UpdateUserRequest) (user : entity.User) :
  let u := updated_user HashPassword req user in
  entity.ID u = entity.ID user
  /\ entity.Role u = entity.Role user
  /\ entity.IsActive u = entity.IsActive user
  /\ entity.CreatedAt u = entity.CreatedAt user
  /\ entity.UpdatedAt u = entity.UpdatedAt user
  /\ entity.DeletedAt u = entity.DeletedAt user.
Proof.
  unfold updated_user.
  destruct (dto.upd_Name req =? "")%string,
           (dto.upd_Email req =? "")%string,
           (dto.upd_Password req =? "")%string; cbn; repeat split.
Qed.

(** X7. Update cannot change an id, a role, an active flag or a
    deletion mark: for every request on an existing user, the run makes
    no [Create] and no [Delete] call, and any [Update] call it makes
    carries the loaded user with, at most, the name and the email of the
    request and the hash of its password; the id, role, active flag,
    creation time and deletion mark are those loaded. *)
Theorem Update_writes_only_requested_fields
    {DB : Type} {userRepo : repository.UserRepository DB}
    (HashPassword : string -> string * option error)
    (w w' : World DB) (id : N) (req : dto.UpdateUserRequest)
    (user : entity.User)
    (result : option dto.UserResponse * option error) :
  repository.FindByID (store w) id = (Some user, None) ->
  usecase.Update HashPassword id req w = Some (result, w') ->
  let sent := updated_user HashPassword req user in
  (exists trace,
     calls w' = (calls w ++ trace)%list
     /\ Forall (fun c =>
                  match c with
                  | repository.CallUpdate u => u = sent
                  | repository.CallCreate _ | repository.CallDelete _ => False
                  | _ => True
                  end) trace)
  /\ entity.ID sent = entity.ID user
  /\ entity.Role sent = entity.Role user
  /\ entity.IsActive sent = entity.IsActive user
  /\ entity.CreatedAt sent = entity.CreatedAt user
  /\ entity.DeletedAt sent = entity.DeletedAt user.
Proof.
  intros Hfind Hrun sent.
  pose proof (updated_user_frame HashPassword req user)
    as (Hid & Hrole & Hact & Hcre & _ & Hdel).
  split; [|repeat split; assumption].
  unfold sent, updated_user. clear sent Hid Hrole Hact Hcre Hdel.
  unfold usecase.Update, usecase.Update_email, usecase.Update_password,
    usecase.Update_save, usecase.repo_FindByID, usecase.repo_FindByEmail,
    usecase.repo_Update, bind, ret, deref in Hrun.
  rewrite Hfind in Hrun. cbn in Hrun.
  destruct (HashPassword (dto.upd_Password req)) as [hashed herr].
  destruct (dto.upd_Name req =? "")%string,
           (dto.upd_Email req =? "")%string,
           (dto.upd_Password req =? "")%string; cbn in Hrun |- *;
    repeat match type of Hrun with
      | context [repository.FindByEmail ?s ?e] =>
          destruct (repository.FindByEmail s e) as [[owner|] [ferr|]];
          cbn in Hrun
      | context [is_ErrRecordNotFound ?e] =>
          destruct (is_ErrRecordNotFound e); cbn in Hrun
      | context [(entity.ID ?o =? id)%N] =>
          destruct (entity.ID o =? id)%N; cbn in Hrun
      | context [not_nil herr] => destruct herr; cbn in Hrun
      | context [repository.Update ?s ?u] =>
          destruct (repository.Update s u) as [[db' saved] [uerr|]];
          cbn in Hrun
      end;
    injection Hrun as <- <-; cbn [calls];
    rewrite <- ?app_assoc; eexists; (split; [reflexivity|]);
    repeat constructor.
Qed.

(** Alice renames herself and changes her password at once. *)
Lemma Update_writes_only_requested_fields_witness :
  let req := {| dto.upd_Name := "Alice B."; dto.upd_Email := "";
                dto.upd_Password := "n3wpass" |} in
  exists result w',
    repository.FindByID (store standin.world) 1%N
      = (Some standin.alice, None)
    /\ usecase.Update standin.HashPassword 1%N req standin.world
       = Some (result, w')
    /\ calls w' =
       [repository.CallFindByID 1%N;
        repository.CallUpdate
          (entity.set_Password "$2a$10$n3wpass"
             (entity.set_Name "Alice B." standin.alice))]
    /\ entity.Role (updated_user standin.HashPassword req standin.alice)
       = "user".
Proof.
  intros req.
  assert (Hfind : repository.FindByID (store standin.world) 1%N
                  = (Some standin.alice, None)) by (vm_compute; reflexivity).
  eexists; eexists.
  split; [exact Hfind|].
  split; [vm_compute; reflexivity|].
  split; [reflexivity|].
  refine (proj1 (proj2 (proj2
            (Update_writes_only_requested_fields standin.HashPassword
               standin.world _ 1%N req standin.alice _ Hfind _)))).
  vm_compute; reflexivity.
Defined.

(** X8. An update request with no field set is not a no-op: Update still
    calls the store's update operation, with the loaded user unchanged,
    and returns what that call returns. *)
Theorem Update_empty_request_still_saves
    {DB : Type} {userRepo : repository.UserRepository DB}
    (HashPassword : string -> string * option error)
    (w : World DB) (id : N) (req : dto.UpdateUserRequest)
    (user : entity.User) :
  dto.upd_Name req = "" ->
  dto.upd_Email req = "" ->
  dto.upd_Password req = "" ->
  repository.FindByID (store w) id = (Some user, None) ->
  exists db' saved err,
    repository.Update (store w) user = (db', saved, err)
    /\ usecase.Update HashPassword id req w
       = Some ((if not_nil err then None else Some (public_view saved), err),
               mkWorld db'
                 (calls w ++ [repository.CallFindByID id;
                              repository.CallUpdate user])).
Proof.
  intros Hname Hemail Hpw Hfind.
  rewrite (Update_only_email_unfold HashPassword w id req user Hname Hfind).
  unfold usecase.Update_email, usecase.Update_password.
  rewrite Hemail, Hpw. cbn [String.eqb negb].
  destruct (Update_save_run (after_FindByID w id) user)
    as (db' & saved & err & Hupd & Hsave).
  exists db', saved, err. split; [exact Hupd|].
  rewrite Hsave. cbn. rewrite <- app_assoc. reflexivity.
Qed.

(** [PUT /users/1] with the body [{}]: the row's update time moves. *)
Lemma Update_empty_request_still_saves_witness :
  let req := {| dto.upd_Name := ""; dto.upd_Email := "";
                dto.upd_Password := "" |} in
  repository.FindByID (store standin.world) 1%N = (Some standin.alice, None)
  /\ exists db' saved err,
    repository.Update (store standin.world) standin.alice = (db', saved, err)
    /\ usecase.Update standin.HashPassword 1%N req standin.world
       = Some ((if not_nil err then None else Some (public_view saved), err),
               mkWorld db'
                 (calls standin.world ++
                    [repository.CallFindByID 1%N;
                     repository.CallUpdate standin.alice])).
Proof.
  intros req.
  assert (Hfind : repository.FindByID (store standin.world) 1%N
                  = (Some standin.alice, None)) by (vm_compute; reflexivity).
  split; [exact Hfind|].
  exact (Update_empty_request_still_saves standin.HashPassword
           standin.world 1%N req standin.alice eq_refl eq_refl eq_refl Hfind).
Defined.

(** X9. When the request carries a password and hashing it fails, Update
    writes nothing: the run ends with an error, without an [Update] call
    and with the store as it was, so a name or email change of the same
    request is not persisted either. *)
Theorem Update_hash_failure_writes_nothing
    {DB : Type} {userRepo : repository.UserRepository DB}
    (HashPassword : string -> string * option error)
    (w w' : World DB) (id : N) (req : dto.UpdateUserRequest)
    (user : entity.User) (hashed : string) (e : error)
    (result : option dto.UserResponse * option error) :
  dto.upd_Password req <> "" ->
  HashPassword (dto.upd_Password req) = (hashed, Some e) ->
  repository.FindByID (store w) id = (Some user, None) ->
  usecase.Update HashPassword id req w = Some (result, w') ->
  fst result = None
  /\ snd result <> None
  /\ store w' = store w
  /\ exists trace,
       calls w' = (calls w ++ trace)%list
       /\ existsb is_write trace = false.
Proof.
  intros Hpw Hhash Hfind Hrun.
  apply String.eqb_neq in Hpw.
  unfold usecase.Update, usecase.Update_email, usecase.Update_password,
    usecase.Update_save, usecase.repo_FindByID, usecase.repo_FindByEmail,
    usecase.repo_Update, bind, ret, deref in Hrun.
  rewrite Hfind, Hhash, Hpw in Hrun. cbn in Hrun.
  destruct (dto.upd_Name req =? "")%string,
           (dto.upd_Email req =? "")%string; cbn in Hrun;
    repeat match type of Hrun with
      | context [repository.FindByEmail ?s ?e] =>
          destruct (repository.FindByEmail s e) as [[owner|] [ferr|]];
          cbn in Hrun
      | context [is_ErrRecordNotFound ?e] =>
          destruct (is_ErrRecordNotFound e); cbn in Hrun
      | context [(entity.ID ?o =? id)%N] =>
          destruct (entity.ID o =? id)%N; cbn in Hrun
      end;
    injection Hrun as <- <-; cbn [fst snd store calls];
    (split; [reflexivity|]); (split; [discriminate|]);
    (split; [reflexivity|]);
    rewrite <- ?app_assoc; eexists; (split; [reflexivity|reflexivity]).
Qed.

(** Alice sends a new name together with a password bcrypt refuses. *)
Lemma Update_hash_failure_writes_nothing_witness :
  let req := {| dto.upd_Name := "Alice B."; dto.upd_Email := "";
                dto.upd_Password := fixture.long_password |} in
  dto.upd_Password req <> ""
  /\ repository.FindByID (store standin.world) 1%N
     = (Some standin.alice, None)
  /\ exists result w',
       usecase.Update fixture.HashPassword_72 1%N req standin.world
         = Some (result, w')
       /\ fst result = None
       /\ snd result <> None
       /\ store w' = store standin.world
       /\ exists trace,
            calls w' = (calls standin.world ++ trace)%list
            /\ existsb is_write trace = false.
Proof.
  intros req.
  assert (Hpw : dto.upd_Password req <> "") by discriminate.
  assert (Hfind : repository.FindByID (store standin.world) 1%N
                  = (Some standin.alice, None)) by (vm_compute; reflexivity).
  split; [exact Hpw|]. split; [exact Hfind|].
  eexists; eexists.
  split; [vm_compute; reflexivity|].
  refine (Update_hash_failure_writes_nothing fixture.HashPassword_72
            standin.world _ 1%N req standin.alice ""
            (external_error "bcrypt: password length exceeds 72 bytes")
            _ Hpw _ Hfind _);
    vm_compute; reflexivity.
Defined.

(** ** Delete *)

(** X10. Delete looks the user up and, only if the look-up reports no
    error, calls the store's delete operation once and returns its error;
    a missing row gives "user not found" and any other look-up error comes
    back unchanged, in both cases without a delete call.  [DeleteUser]
    answers 200 "User deleted successfully" when Delete returned no
    error, and otherwise 404 with the text of whatever error Delete
    returned, whether it came from the look-up or from the store's delete
    operation, a driver error included. *)
Theorem Delete_runs
    {DB : Type} {userRepo : repository.UserRepository DB}
    (w : World DB) (idParam : string) (idz : Z) :
  strconv.ParseUint idParam 32 = (idz, None) ->
  let id := Z.to_N idz in
  (forall found,
     repository.FindByID (store w) id = (found, None) ->
     exists db' err,
       let w' := mkWorld db' (calls w ++ [repository.CallFindByID id;
                                          repository.CallDelete id]) in
       repository.Delete (store w) id = (db', err)
       /\ usecase.Delete id w = Some (err, w')
       /\ handler.DeleteUser idParam w
          = Some (match err with
                  | Some e => response.NotFound (Error_string e)
                  | None =>
                      response.Success_ "User deleted successfully" None
                  end, w')
       /\ (forall e, response.Status (response.NotFound (Error_string e))
                     = 404)
       /\ response.Status
            (response.Success_ "User deleted successfully" None) = 200)
  /\ (forall found e,
        repository.FindByID (store w) id = (found, Some e) ->
        let e' := if is_ErrRecordNotFound e
                  then errors_New "user not found" else e in
        usecase.Delete id w = Some (Some e', after_FindByID w id)
        /\ handler.DeleteUser idParam w
           = Some (response.NotFound (Error_string e'), after_FindByID w id)
        /\ response.Status (response.NotFound (Error_string e')) = 404).
Proof.
  intros Hparse id. split.
  - intros found Hfind.
    destruct (repository.Delete (store w) id) as [db' err] eqn:Hdel.
    exists db', err. intros w'.
    assert (Hrun : usecase.Delete id w = Some (err, w')).
    { unfold usecase.Delete, usecase.repo_FindByID, usecase.repo_Delete,
        bind, ret.
      rewrite Hfind. cbn. rewrite Hdel. unfold w'.
      rewrite <- app_assoc. reflexivity. }
    split; [reflexivity|]. split; [exact Hrun|].
    split; [|split; reflexivity].
    unfold handler.DeleteUser, bind. rewrite Hparse.
    fold id. rewrite Hrun. destruct err; reflexivity.
  - intros found e Hfind e'.
    assert (Hrun : usecase.Delete id w = Some (Some e', after_FindByID w id)).
    { unfold usecase.Delete, usecase.repo_FindByID, bind, ret.
      rewrite Hfind. cbn. unfold e'.
      destruct (is_ErrRecordNotFound e); reflexivity. }
    split; [exact Hrun|]. split; [|reflexivity].
    unfold handler.DeleteUser, bind. rewrite Hparse.
    fold id. rewrite Hrun. reflexivity.
Qed.

(** [DELETE /users/1] while the database is unreachable, a 404; and
    [DELETE /users/2] on the two-user store, a 200. *)
Lemma Delete_runs_witness :
  let w := mkWorld fixture.db_down [] in
  strconv.ParseUint "1" 32 = (1, None)
  /\ strconv.ParseUint "2" 32 = (2, None)
  /\ handler.DeleteUser "1" w
     = Some (response.NotFound "dial tcp 127.0.0.1:5432: connection refused",
             after_FindByID w 1%N)
  /\ exists db',
       handler.DeleteUser "2" standin.world
       = Some (response.Success_ "User deleted successfully" None,
               mkWorld db' [repository.CallFindByID 2%N;
                            repository.CallDelete 2%N]).
Proof.
  intros w.
  assert (Hparse : strconv.ParseUint "1" 32 = (1, None))
    by (vm_compute; reflexivity).
  assert (Hparse2 : strconv.ParseUint "2" 32 = (2, None))
    by (vm_compute; reflexivity).
  split; [exact Hparse|]. split; [exact Hparse2|].
  split.
  - destruct (Delete_runs w "1" 1 Hparse) as [_ Herr].
    refine (proj1 (proj2 (Herr None
              (external_error "dial tcp 127.0.0.1:5432: connection refused")
              _))).
    vm_compute; reflexivity.
  - destruct (Delete_runs standin.world "2" 2 Hparse2) as [Hok _].
    destruct (Hok (Some standin.bob) ltac:(vm_compute; reflexivity))
      as (db' & err & Hdel & _ & Hhandler & _).
    assert (Herr : err = None).
    { vm_compute in Hdel. injection Hdel as _ <-. reflexivity. }
    subst err. exists db'. exact Hhandler.
Defined.

Lemma gorm_Delete_hides (id : N) (now : Z) (rows : list entity.User) :
  find (fun u => gorm.visible u && (entity.ID u =? id)%N)
    (map (fun r =>
            if (entity.ID r =? id)%N && gorm.visible r
            then {| entity.ID := entity.ID r;
                    entity.Name := entity.Name r;
                    entity.Email := entity.Email r;
                    entity.Password := entity.Password r;
                    entity.Role := entity.Role r;
                    entity.IsActive := entity.IsActive r;
                    entity.CreatedAt := entity.CreatedAt r;
                    entity.UpdatedAt := entity.UpdatedAt r;
                    entity.DeletedAt := Some now |}
            else r) rows)
  = None.
Proof.
  induction rows as [|r rest IH]; [reflexivity|].
  cbn [map find].
  destruct ((entity.ID r =? id)%N && gorm.visible r) eqn:E.
  - cbn. exact IH.
  - rewrite andb_comm, E. exact IH.
Qed.

(** X11. In the gorm-backed store, deleting is soft and one-way: after
    Delete succeeded on an existing user, the table has as many rows as
    before and still holds the user's row, now with a deletion mark and
    otherwise unchanged, while the look-up by that id finds nothing, so
    that GetByID and a second Delete both fail with "user not found". *)
Theorem Delete_is_soft
    (db : gorm.DB) (cs : list repository.Call) (id : N)
    (user : entity.User) :
  repository.FindByID db id = (Some user, None) ->
  exists w',
    usecase.Delete id (mkWorld db cs) = Some (None, w')
    /\ List.length (gorm.rows (store w')) = List.length (gorm.rows db)
    /\ In (entity.Build_User (entity.ID user) (entity.Name user)
             (entity.Email user) (entity.Password user) (entity.Role user)
             (entity.IsActive user) (entity.CreatedAt user)
             (entity.UpdatedAt user)
             (Some (gorm.column_time (gorm.now db))))
          (gorm.rows (store w'))
    /\ repository.FindByID (store w') id = (None, Some gorm_ErrRecordNotFound)
    /\ usecase.GetByID id w'
       = Some ((None, Some (errors_New "user not found")),
               after_FindByID w' id)
    /\ usecase.Delete id w'
       = Some (Some (errors_New "user not found"), after_FindByID w' id).
Proof.
  intros Hfind.
  assert (Hfind' := Hfind). cbn in Hfind'.
  unfold repository.userRepository_FindByID, gorm.First in Hfind'.
  destruct (gorm.failure db) eqn:Hok; [discriminate|].
  destruct (find _ (gorm.rows db)) as [found|] eqn:Hf; [|discriminate].
  injection Hfind' as ->.
  apply find_some in Hf. destruct Hf as [Hin Hcond].
  apply andb_prop in Hcond. destruct Hcond as [Hvis Heq].
  eexists. split.
  { unfold usecase.Delete, usecase.repo_FindByID, usecase.repo_Delete,
      bind, ret.
    cbn [store]. rewrite Hfind. cbn.
    unfold repository.userRepository_Delete, gorm.Delete. rewrite Hok.
    reflexivity. }
  cbn [store].
  split; [cbn; apply length_map|].
  split.
  { cbn. apply in_map_iff. exists user. split; [|exact Hin].
    rewrite Heq, Hvis. reflexivity. }
  match goal with |- ?G /\ _ => assert (Hgone : G) end.
  { cbn. unfold repository.userRepository_FindByID, gorm.First. cbn.
    rewrite (gorm_Delete_hides id (gorm.column_time (gorm.now db))
               (gorm.rows db)).
    reflexivity. }
  split; [exact Hgone|].
  split.
  - apply GetByID_not_found. cbn [store]. rewrite Hgone. reflexivity.
  - apply Delete_not_found. cbn [store]. rewrite Hgone. reflexivity.
Qed.

(** Bob's account is deleted. *)
Lemma Delete_is_soft_witness :
  repository.FindByID standin.db 2%N = (Some standin.bob, None)
  /\ exists w',
    usecase.Delete 2%N standin.world = Some (None, w')
    /\ List.length (gorm.rows (store w')) = 2%nat
    /\ repository.FindByID (store w') 2%N
       = (None, Some gorm_ErrRecordNotFound).
Proof.
  assert (Hfind : repository.FindByID standin.db 2%N
                  = (Some standin.bob, None)) by (vm_compute; reflexivity).
  split; [exact Hfind|].
  destruct (Delete_is_soft standin.db [] 2%N standin.bob Hfind)
    as (w' & Hrun & Hlen & _ & Hgone & _).
  exists w'. split; [exact Hrun|]. split; [exact Hlen|exact Hgone].
Defined.


(** ** The list and profile handlers *)

Lemma In_firstn_self {A : Type} (n : nat) (l : list A) (x : A) :
  In x (firstn n l) -> In x l.
Proof.
  revert l. induction n as [|n IH]; intros [|a l] Hin; cbn in *;
    try contradiction.
  destruct Hin as [->|Hin]; [left; reflexivity|right; apply IH; exact Hin].
Qed.

Lemma In_skipn_self {A : Type} (n : nat) (l : list A) (x : A) :
  In x (skipn n l) -> In x l.
Proof.
  revert l. induction n as [|n IH]; intros [|a l] Hin; cbn in *;
    try contradiction; try exact Hin.
  right. apply IH. exact Hin.
Qed.

Lemma BuildMeta_echoes_total (page perPage total : Z) (meta : response.Meta) :
  response.BuildMeta page perPage total = Some meta ->
  response.Total meta = total.
Proof.
  unfold response.BuildMeta, GoInt.quot, GoInt.rem.
  destruct (perPage =? 0); [discriminate|].
  intros [= <-]. reflexivity.
Qed.

(** X12. On the gorm-backed store, whatever the page and limit query
    values, the list handler answers 200 with at most per_page users,
    per_page being at most 100; every user listed is a row of the table
    that is not soft-deleted; the total is the number of such rows; and
    when (page - 1) * limit fits an int, the number of users listed is
    min(limit, max(0, total - (page - 1) * limit)). *)
Theorem GetUsers_lists_visible_page
    (db : gorm.DB) (cs : list repository.Call)
    (pageQuery limitQuery : option string) :
  gorm.failure db = None ->
  exists users meta w',
    handler.GetUsers pageQuery limitQuery (mkWorld db cs)
      = Some (response.SuccessWithMeta "Users retrieved successfully"
                (Some (response.UsersData (map public_view users))) meta,
              w')
    /\ store w' = db
    /\ Z.of_nat (List.length users) <= response.PerPage meta <= 100
    /\ response.Total meta
       = Z.of_nat (List.length (filter gorm.visible (gorm.rows db)))
    /\ (forall u, In u users ->
                  In u (gorm.rows db) /\ entity.DeletedAt u = None)
    /\ (let page := response.CurrentPage meta in
        let limit := response.PerPage meta in
        (page - 1) * limit <= GoInt.MaxInt ->
        Z.of_nat (List.length users)
        = Z.min limit (Z.max 0 (response.Total meta - (page - 1) * limit))).
Proof.
  intros Hok.
  pose proof (GetUsers_params_bounds pageQuery limitQuery) as Hb.
  unfold handler.GetUsers.
  destruct (handler.GetUsers_params pageQuery limitQuery) as [page limit].
  destruct Hb as [Hp Hl].
  unfold usecase.GetAll, usecase.repo_FindAll, bind, ret, deref.
  cbn [store repository.FindAll repository.userRepository].
  unfold repository.userRepository_FindAll, gorm.Count, gorm.Find.
  rewrite Hok. cbn [not_nil].
  assert (Hoff : repository.FindAll_offset page limit = (page - 1) * limit
                 \/ ~ (page - 1) * limit <= GoInt.MaxInt).
  { destruct (Z_le_gt_dec ((page - 1) * limit) GoInt.MaxInt) as [Hfit|Hbig];
      [left|right; lia].
    unfold repository.FindAll_offset, GoInt.mul, GoInt.sub.
    rewrite (wrap_in_range (page - 1)), wrap_in_range; [reflexivity| |];
      unfold GoInt.in_range, GoInt.MinInt, GoInt.MaxInt in *; nia. }
  set (offset := repository.FindAll_offset page limit) in *.
  set (vis := filter gorm.visible (gorm.rows db)).
  set (skipped := if 0 <? offset then skipn (Z.to_nat offset) vis else vis).
  replace (0 <=? limit) with true by (symmetry; apply Z.leb_le; lia).
  destruct (BuildMeta_defined page limit (Z.of_nat (List.length vis))
              ltac:(lia)) as (meta & Hmeta & Hcur & Hper).
  assert (Htot : response.Total meta = Z.of_nat (List.length vis)).
  { apply (BuildMeta_echoes_total _ _ _ _ Hmeta). }
  cbn. rewrite Hmeta. cbn.
  exists (firstn (Z.to_nat limit) skipped), meta.
  eexists. split; [reflexivity|]. cbn [store].
  split; [reflexivity|].
  assert (Hlen : (List.length (firstn (Z.to_nat limit) skipped)
                  <= Z.to_nat limit)%nat) by apply firstn_le_length.
  split; [rewrite Hper; lia|].
  split; [exact Htot|].
  split.
  - intros u Hin. apply In_firstn_self in Hin.
    assert (Hvis : In u vis).
    { unfold skipped in Hin. destruct (0 <? offset);
        [apply In_skipn_self in Hin|]; exact Hin. }
    apply filter_In in Hvis. destruct Hvis as [Hrow Hv].
    split; [exact Hrow|]. unfold gorm.visible in Hv.
    destruct (entity.DeletedAt u); [discriminate|reflexivity].
  - rewrite Hcur, Hper, Htot. intros Hfit.
    destruct Hoff as [Hoff|Hbig]; [|contradiction].
    rewrite length_firstn. unfold skipped.
    destruct (Z.ltb_spec 0 offset).
    + rewrite length_skipn. lia.
    + assert (offset = 0) by nia. lia.
Qed.

(** The two-user store, second page of one. *)
Lemma GetUsers_lists_visible_page_witness :
  gorm.failure standin.db = None
  /\ exists users meta w',
    handler.GetUsers (Some "2") (Some "1") standin.world
      = Some (response.SuccessWithMeta "Users retrieved successfully"
                (Some (response.UsersData (map public_view users))) meta,
              w')
    /\ store w' = standin.db
    /\ Z.of_nat (List.length users) <= response.PerPage meta <= 100
    /\ response.Total meta
       = Z.of_nat (List.length (filter gorm.visible (gorm.rows standin.db)))
    /\ (forall u, In u users ->
                  In u (gorm.rows standin.db) /\ entity.DeletedAt u = None)
    /\ (let page := response.CurrentPage meta in
        let limit := response.PerPage meta in
        (page - 1) * limit <= GoInt.MaxInt ->
        Z.of_nat (List.length users)
        = Z.min limit (Z.max 0 (response.Total meta - (page - 1) * limit))).
Proof.
  split; [reflexivity|].
  exact (GetUsers_lists_visible_page standin.db [] (Some "2") (Some "1")
           eq_refl).
Defined.

(** X13. [GetCurrentUser] answers 401 without a repository call when the
    context holds no user id; with an id (a uint) whose row is missing
    (the account was deleted after the token was issued) it answers 404
    "user not found"; with the id of an existing row, 200 and the public
    view of that row. *)
Theorem GetCurrentUser_outcomes
    {DB : Type} {userRepo : repository.UserRepository DB} (w : World DB) :
  handler.GetCurrentUser None w
    = Some (response.Unauthorized "User not authenticated", w)
  /\ (forall id,
        snd (repository.FindByID (store w) id) = Some gorm_ErrRecordNotFound ->
        handler.GetCurrentUser (Some (gin.Uint id)) w
          = Some (response.NotFound "user not found", after_FindByID w id))
  /\ (forall id user,
        repository.FindByID (store w) id = (Some user, None) ->
        handler.GetCurrentUser (Some (gin.Uint id)) w
          = Some (response.Success_ "User retrieved successfully"
                    (Some (response.UserData (public_view user))),
                  after_FindByID w id)).
Proof.
  split; [reflexivity|]. split.
  - intros id Hfind. unfold handler.GetCurrentUser.
    unfold bind at 1. cbn [ret]. unfold bind.
    rewrite (GetByID_not_found w id Hfind). reflexivity.
  - intros id user Hfind.
    unfold handler.GetCurrentUser, usecase.GetByID, usecase.repo_FindByID,
      bind, ret, deref.
    rewrite Hfind. reflexivity.
Qed.

(** A token of Bob's, presented after his account was deleted. *)
Lemma GetCurrentUser_outcomes_witness :
  exists w',
    usecase.Delete 2%N standin.world = Some (None, w')
    /\ handler.GetCurrentUser (Some (gin.Uint 2%N)) w'
       = Some (response.NotFound "user not found", after_FindByID w' 2%N).
Proof.
  eexists. split; [vm_compute; reflexivity|].
  refine (proj1 (proj2 (GetCurrentUser_outcomes _)) 2%N _).
  vm_compute; reflexivity.
Defined.


(** ** Every response *)

Ltac envelope_leaf H :=
  injection H as <- _;
  first [ left; cbn; repeat split; (reflexivity || lia || discriminate)
        | right; cbn; repeat split; (reflexivity || lia || discriminate) ].

(** X14. Whatever the repository, the collaborators and the input, a
    response written by a user handler is consistent: either it has
    success=true, a 2xx status and no error member, or it has
    success=false, a status between 400 and 599, and neither data nor
    pagination metadata. *)
Theorem handlers_write_consistent_envelopes
    {DB : Type} {userRepo : repository.UserRepository DB}
    (HashPassword : string -> string * option error)
    (CheckPassword : string -> string -> bool)
    (GenerateToken : N -> string -> string -> string * option error)
    (w w' : World DB) (wr : response.Written) :
  (forall body,
     handler.Register HashPassword body w = Some (wr, w') ->
     consistent_envelope wr)
  /\ (forall body,
        handler.Login CheckPassword GenerateToken body w = Some (wr, w') ->
        consistent_envelope wr)
  /\ (forall idParam,
        handler.GetUser idParam w = Some (wr, w') -> consistent_envelope wr)
  /\ (forall pageQuery limitQuery,
        handler.GetUsers pageQuery limitQuery w = Some (wr, w') ->
        consistent_envelope wr)
  /\ (forall idParam body,
        handler.UpdateUser HashPassword idParam body w = Some (wr, w') ->
        consistent_envelope wr)
  /\ (forall idParam,
        handler.DeleteUser idParam w = Some (wr, w') ->
        consistent_envelope wr)
  /\ (forall userID,
        handler.GetCurrentUser userID w = Some (wr, w') ->
        consistent_envelope wr).
Proof.
  unfold consistent_envelope.
  repeat split.
  - intros body Hrun.
    unfold handler.Register, bind, ret in Hrun.
    destruct body as [req|errors].
    + destruct (usecase.Register HashPassword req w)
        as [[[user [e|]] w1]|]; cbn in Hrun; try discriminate;
        envelope_leaf Hrun.
    + envelope_leaf Hrun.
  - intros body Hrun.
    unfold handler.Login, bind, ret in Hrun.
    destruct body as [req|errors].
    + destruct (usecase.Login CheckPassword GenerateToken req w)
        as [[[result [e|]] w1]|]; cbn in Hrun; try discriminate;
        envelope_leaf Hrun.
    + envelope_leaf Hrun.
  - intros idParam Hrun.
    unfold handler.GetUser, bind, ret in Hrun.
    destruct (strconv.ParseUint idParam 32) as [id [perr|]].
    + envelope_leaf Hrun.
    + destruct (usecase.GetByID (Z.to_N id) w)
        as [[[user [e|]] w1]|]; cbn in Hrun; try discriminate;
        envelope_leaf Hrun.
  - intros pageQuery limitQuery Hrun.
    unfold handler.GetUsers, bind, ret, deref in Hrun.
    destruct (handler.GetUsers_params pageQuery limitQuery) as [page limit].
    destruct (usecase.GetAll page limit w)
      as [[[[users total] [e|]] w1]|]; cbn in Hrun; try discriminate.
    + envelope_leaf Hrun.
    + destruct (response.BuildMeta page limit total); cbn in Hrun;
        try discriminate; envelope_leaf Hrun.
  - intros idParam body Hrun.
    unfold handler.UpdateUser, bind, ret in Hrun.
    destruct (strconv.ParseUint idParam 32) as [id [perr|]].
    + envelope_leaf Hrun.
    + destruct body as [req|errors].
      * destruct (usecase.Update HashPassword (Z.to_N id) req w)
          as [[[user [e|]] w1]|]; cbn in Hrun; try discriminate;
          envelope_leaf Hrun.
      * envelope_leaf Hrun.
  - intros idParam Hrun.
    unfold handler.DeleteUser, bind, ret in Hrun.
    destruct (strconv.ParseUint idParam 32) as [id [perr|]].
    + envelope_leaf Hrun.
    + destruct (usecase.Delete (Z.to_N id) w)
        as [[[e|] w1]|]; cbn in Hrun; try discriminate;
        envelope_leaf Hrun.
  - intros userID Hrun.
    unfold handler.GetCurrentUser, bind, ret in Hrun.
    destruct userID as [[id|text]|].
    + destruct (usecase.GetByID id w)
        as [[[user [e|]] w1]|]; cbn in Hrun; try discriminate;
        envelope_leaf Hrun.
    + discriminate Hrun.
    + envelope_leaf Hrun.
Qed.

(** A failed login, checked against the invariant. *)
Lemma handlers_write_consistent_envelopes_witness :
  let body := handler.Bound {| dto.login_Email := "alice@example.com";
                               dto.login_Password := "letmein" |} in
  exists wr w',
    handler.Login standin.CheckPassword standin.GenerateToken body
      standin.world = Some (wr, w')
    /\ consistent_envelope wr.
Proof.
  intros body. eexists; eexists.
  assert (Hrun : handler.Login standin.CheckPassword standin.GenerateToken
                   body standin.world
                 = Some (response.Unauthorized "invalid email or password",
                         after_FindByEmail standin.world "alice@example.com"))
    by (vm_compute; reflexivity).
  split; [exact Hrun|].
  exact (proj1 (proj2 (handlers_write_consistent_envelopes
                         standin.HashPassword standin.CheckPassword
                         standin.GenerateToken standin.world _ _))
           body Hrun).
Defined.

(** ** No nil dereference on the gorm-backed repository *)

(** The look-ups of [userRepository] return a user or an error, never
    neither. *)
Lemma gorm_First_shape (db : gorm.DB) (cond : entity.User -> bool) :
  (exists u, gorm.First db cond = (Some u, None))
  \/ (exists e, gorm.First db cond = (None, Some e)).
Proof.
  unfold gorm.First.
  destruct (gorm.failure db); [right; eexists; reflexivity|].
  destruct (find _ _); [left|right]; eexists; reflexivity.
Qed.

Lemma userRepository_FindByID_shape (db : gorm.DB) (id : N) :
  (exists u, repository.FindByID db id = (Some u, None))
  \/ (exists e, repository.FindByID db id = (None, Some e)).
Proof.
  cbn. unfold repository.userRepository_FindByID.
  destruct (gorm_First_shape db (fun u => (entity.ID u =? id)%N))
    as [[u ->]|[e ->]]; [left|right]; eexists; reflexivity.
Qed.

Lemma userRepository_FindByEmail_shape (db : gorm.DB) (email : string) :
  (exists u, repository.FindByEmail db email = (Some u, None))
  \/ (exists e, repository.FindByEmail db email = (None, Some e)).
Proof.
  cbn. unfold repository.userRepository_FindByEmail.
  destruct (gorm_First_shape db (fun u => (entity.Email u =? email)%string))
    as [[u ->]|[e ->]]; [left|right]; eexists; reflexivity.
Qed.

Ltac no_panic :=
  repeat (match goal with
          | |- context [match ?x with _ => _ end] =>
              lazymatch x with
              | context [match _ with _ => _ end] => fail
              | _ => destruct x
              end
          end; cbn);
  discriminate.

(** X15. With the gorm-backed repository the only panic of a user
    handler is the unchecked assertion of [GetCurrentUser]: for every
    input and every state of the database, Register, Login, GetUser,
    GetUsers, UpdateUser and DeleteUser write a response, and
    GetCurrentUser panics exactly when the context holds under "userID"
    a value that is not a uint, and writes a response otherwise.  (A
    look-up that returned neither a
    user nor an error would make Login, GetByID and Update dereference
    nil; [userRepository] never does that, and the list handler never
    divides by a zero limit.) *)
Theorem handlers_panic_only_on_foreign_userID
    (HashPassword : string -> string * option error)
    (CheckPassword : string -> string -> bool)
    (GenerateToken : N -> string -> string -> string * option error)
    (w : World gorm.DB) :
  (forall body, handler.Register HashPassword body w <> None)
  /\ (forall body,
        handler.Login CheckPassword GenerateToken body w <> None)
  /\ (forall idParam, handler.GetUser idParam w <> None)
  /\ (forall pageQuery limitQuery,
        handler.GetUsers pageQuery limitQuery w <> None)
  /\ (forall idParam body,
        handler.UpdateUser HashPassword idParam body w <> None)
  /\ (forall idParam, handler.DeleteUser idParam w <> None)
  /\ (forall userID,
        handler.GetCurrentUser userID w = None
        <-> exists text, userID = Some (gin.Other text)).
Proof.
  assert (HGet : forall id, usecase.GetByID id w <> None).
  { intros id.
    unfold usecase.GetByID, usecase.repo_FindByID, bind, ret, deref.
    destruct (userRepository_FindByID_shape (store w) id)
      as [[u ->]|[e ->]]; cbn; [discriminate|].
    destruct (is_ErrRecordNotFound e); discriminate. }
  repeat split.
  - intros [req|errors]; [|discriminate].
    unfold handler.Register, usecase.Register, usecase.repo_FindByEmail,
      usecase.repo_Create, bind, ret.
    no_panic.
  - intros [req|errors]; [|discriminate].
    unfold handler.Login, usecase.Login, usecase.repo_FindByEmail,
      bind, ret, deref.
    destruct (userRepository_FindByEmail_shape (store w)
                (dto.login_Email req)) as [[u ->]|[e ->]]; cbn; no_panic.
  - intros idParam. unfold handler.GetUser, bind.
    destruct (strconv.ParseUint idParam 32) as [id [perr|]]; [discriminate|].
    specialize (HGet (Z.to_N id)).
    destruct (usecase.GetByID (Z.to_N id) w) as [[[user [e|]] w1]|];
      [discriminate|discriminate|contradiction].
  - intros pageQuery limitQuery.
    pose proof (GetUsers_run pageQuery limitQuery w) as Hrun.
    destruct (handler.GetUsers_params pageQuery limitQuery) as [page limit].
    destruct Hrun as (written & -> & _). discriminate.
  - intros idParam body. unfold handler.UpdateUser, bind.
    destruct (strconv.ParseUint idParam 32) as [id [perr|]]; [discriminate|].
    destruct body as [req|errors]; [|discriminate].
    unfold usecase.Update, usecase.Update_email, usecase.Update_password,
      usecase.Update_save, usecase.repo_FindByID, usecase.repo_FindByEmail,
      usecase.repo_Update, bind, ret, deref.
    destruct (userRepository_FindByID_shape (store w) (Z.to_N id))
      as [[u ->]|[e ->]]; cbn; no_panic.
  - intros idParam.
    unfold handler.DeleteUser, usecase.Delete, usecase.repo_FindByID,
      usecase.repo_Delete, bind, ret.
    no_panic.
  - intros Hnone. destruct userID as [[id|text]|].
    + exfalso. revert Hnone.
      unfold handler.GetCurrentUser, bind, ret. specialize (HGet id).
      destruct (usecase.GetByID id w) as [[[user [e|]] w1]|];
        [discriminate|discriminate|contradiction].
    + exists text. reflexivity.
    + discriminate Hnone.
  - intros [text ->]. reflexivity.
Qed.


(* ================================================================== *)
(** * Further properties of the packages *)

(** ** [internal/dto]: the pagination request *)

Lemma Normalize_in_bounds (p : dto.PaginationRequest) :
  1 <= dto.Page (dto.Normalize p) /\ 1 <= dto.Limit (dto.Normalize p) <= 100.
Proof.
  unfold dto.Normalize. cbn [dto.Page dto.Limit].
  destruct (Z.ltb_spec (dto.Page p) 1), (Z.ltb_spec (dto.Limit p) 1);
    cbv iota;
    match goal with
    | |- context [100 <? ?l] => destruct (Z.ltb_spec 100 l)
    end; lia.
Qed.

(** X16. [Normalize] always yields page >= 1 and 1 <= limit <= 100, is
    idempotent, and leaves a request that is already within those bounds
    as it is; a limit above 100 is clamped to 100 (where the list handler
    resets it to 10). *)
Theorem Normalize_bounds (p : dto.PaginationRequest) :
  let q := dto.Normalize p in
  1 <= dto.Page q
  /\ 1 <= dto.Limit q <= 100
  /\ dto.Normalize q = q
  /\ dto.Page q = Z.max 1 (dto.Page p)
  /\ (100 < dto.Limit p -> dto.Limit q = 100)
  /\ (1 <= dto.Page p -> 1 <= dto.Limit p <= 100 ->
      dto.Page q = dto.Page p /\ dto.Limit q = dto.Limit p).
Proof.
  unfold dto.Normalize. destruct p as [page limit].
  cbn [dto.Page dto.Limit].
  repeat (match goal with
          | |- context [?a <? ?b] =>
              lazymatch a with
              | context [_ <? _] => fail
              | _ => lazymatch b with
                     | context [_ <? _] => fail
                     | _ => destruct (Z.ltb_spec a b)
                     end
              end
          end; cbv iota);
    repeat split; try lia; try reflexivity; exfalso; lia.
Qed.

(** X17. [GetOffset] replaces a page below 1 by 1 and a limit below 1
    by 10 and keeps every other page and limit, so that, unlike
    [Normalize], it leaves a limit above 100 alone; for a page of type
    int the offset it returns is (page - 1) * limit, on the values it
    stored, reduced to 64 bits, the very offset [FindAll] computes; on a
    normalised request it changes nothing and, when the product fits,
    the offset is the exact product and is not negative. *)
Theorem GetOffset_offset (p : dto.PaginationRequest) :
  GoInt.in_range (dto.Page p) ->
  let '(offset, p') := dto.GetOffset p in
  (dto.Page p < 1 -> dto.Page p' = 1)
  /\ (1 <= dto.Page p -> dto.Page p' = dto.Page p)
  /\ (dto.Limit p < 1 -> dto.Limit p' = 10)
  /\ (1 <= dto.Limit p -> dto.Limit p' = dto.Limit p)
  /\ 1 <= dto.Page p' /\ 1 <= dto.Limit p'
  /\ offset = GoInt.wrap ((dto.Page p' - 1) * dto.Limit p')
  /\ offset = repository.FindAll_offset (dto.Page p') (dto.Limit p')
  /\ snd (dto.GetOffset (dto.Normalize p)) = dto.Normalize p
  /\ ((dto.Page p' - 1) * dto.Limit p' <= GoInt.MaxInt ->
      offset = (dto.Page p' - 1) * dto.Limit p' /\ 0 <= offset).
Proof.
  intros Hp. unfold dto.GetOffset.
  set (page := if dto.Page p <? 1 then 1 else dto.Page p).
  set (limit := if dto.Limit p <? 1 then 10 else dto.Limit p).
  assert (Hpage1 : dto.Page p < 1 -> page = 1)
    by (unfold page; destruct (Z.ltb_spec (dto.Page p) 1); lia).
  assert (Hpage2 : 1 <= dto.Page p -> page = dto.Page p)
    by (unfold page; destruct (Z.ltb_spec (dto.Page p) 1); lia).
  assert (Hlimit1 : dto.Limit p < 1 -> limit = 10)
    by (unfold limit; destruct (Z.ltb_spec (dto.Limit p) 1); lia).
  assert (Hlimit2 : 1 <= dto.Limit p -> limit = dto.Limit p)
    by (unfold limit; destruct (Z.ltb_spec (dto.Limit p) 1); lia).
  assert (Hpage : 1 <= page <= GoInt.MaxInt).
  { unfold page, GoInt.in_range, GoInt.MinInt, GoInt.MaxInt in *.
    destruct (Z.ltb_spec (dto.Page p) 1); lia. }
  assert (Hlimit : 1 <= limit)
    by (unfold limit; destruct (Z.ltb_spec (dto.Limit p) 1); lia).
  assert (Hoff : GoInt.mul (GoInt.sub page 1) limit
                 = GoInt.wrap ((page - 1) * limit)).
  { unfold GoInt.mul, GoInt.sub. rewrite (wrap_in_range (page - 1));
      [reflexivity|].
    unfold GoInt.in_range, GoInt.MinInt, GoInt.MaxInt in *. lia. }
  cbn [dto.Page dto.Limit].
  split; [exact Hpage1|]. split; [exact Hpage2|].
  split; [exact Hlimit1|]. split; [exact Hlimit2|].
  split; [lia|]. split; [lia|].
  split; [exact Hoff|].
  split; [reflexivity|].
  split.
  { pose proof (Normalize_in_bounds p) as (Hq1 & Hq2).
    cbn [snd dto.Page dto.Limit].
    destruct (dto.Normalize p) as [qp ql]. cbn in Hq1, Hq2 |- *.
    destruct (Z.ltb_spec qp 1), (Z.ltb_spec ql 1); try lia. reflexivity. }
  intros Hfit. rewrite Hoff, wrap_in_range; [split; [reflexivity|nia]|].
  unfold GoInt.in_range, GoInt.MinInt, GoInt.MaxInt in *. nia.
Qed.

(** [?page=0&limit=-5] gets the defaults 1 and 10; [?page=3&limit=150]
    keeps its limit of 150. *)
Lemma GetOffset_offset_witness :
  let p := {| dto.Page := 0; dto.Limit := -5 |} in
  let q := {| dto.Page := 3; dto.Limit := 150 |} in
  GoInt.in_range (dto.Page p)
  /\ GoInt.in_range (dto.Page q)
  /\ dto.GetOffset p = (0, {| dto.Page := 1; dto.Limit := 10 |})
  /\ dto.GetOffset q = (300, q)
  /\ (let '(offset, p') := dto.GetOffset p in
      (dto.Page p < 1 -> dto.Page p' = 1)
      /\ (1 <= dto.Page p -> dto.Page p' = dto.Page p)
      /\ (dto.Limit p < 1 -> dto.Limit p' = 10)
      /\ (1 <= dto.Limit p -> dto.Limit p' = dto.Limit p)
      /\ 1 <= dto.Page p' /\ 1 <= dto.Limit p'
      /\ offset = GoInt.wrap ((dto.Page p' - 1) * dto.Limit p')
      /\ offset = repository.FindAll_offset (dto.Page p') (dto.Limit p')
      /\ snd (dto.GetOffset (dto.Normalize p)) = dto.Normalize p
      /\ ((dto.Page p' - 1) * dto.Limit p' <= GoInt.MaxInt ->
          offset = (dto.Page p' - 1) * dto.Limit p' /\ 0 <= offset)).
Proof.
  intros p q.
  assert (Hp : GoInt.in_range (dto.Page p))
    by (unfold GoInt.in_range, GoInt.MinInt, GoInt.MaxInt; cbn; lia).
  assert (Hq : GoInt.in_range (dto.Page q))
    by (unfold GoInt.in_range, GoInt.MinInt, GoInt.MaxInt; cbn; lia).
  split; [exact Hp|]. split; [exact Hq|].
  split; [reflexivity|]. split; [reflexivity|].
  exact (GetOffset_offset p Hp).
Defined.

(** ** [pkg/apperrors] *)

Lemma errors_As_wrap_all (texts : list string) (err : apperrors.goerror) :
  apperrors.errors_As (wrap_all texts err) = apperrors.errors_As err.
Proof.
  induction texts as [|t texts IH]; [reflexivity|exact IH].
Qed.

(** X18. [WrapError] keeps the code and the message of the error it is
    given and attaches the cause: [Unwrap] returns the cause, [Error] is
    the message followed by ": " and the text of the cause (the message
    alone without a cause), and [GetAppError] finds the wrapped error
    under any number of [fmt.Errorf] wrappers, in preference to an
    [AppError] deeper in its cause. *)
Theorem WrapError_GetAppError
    (appErr : apperrors.AppError) (cause : option apperrors.goerror)
    (texts : list string) :
  let wrapped := apperrors.WrapError appErr cause in
  let err := wrap_all texts (apperrors.as_error wrapped) in
  apperrors.GetAppError (Some err) = wrapped
  /\ apperrors.IsAppError (Some err) = true
  /\ apperrors.Code wrapped = apperrors.Code appErr
  /\ apperrors.Message wrapped = apperrors.Message appErr
  /\ apperrors.Unwrap (apperrors.as_error wrapped) = cause
  /\ apperrors.Error_text (apperrors.as_error wrapped)
     = match cause with
       | None => apperrors.Message appErr
       | Some inner =>
           apperrors.Message appErr ++ ": " ++ apperrors.Error_text inner
       end.
Proof.
  intros wrapped err.
  unfold apperrors.GetAppError, apperrors.IsAppError, err.
  rewrite errors_As_wrap_all. cbn.
  repeat split.
Qed.

(** X19. An error whose chain holds no [AppError], such as every error
    the use case builds with [errors.New] and gorm's record-not-found,
    wrapped by [fmt.Errorf] or not, is not an app error, and
    [GetAppError] reports it as the 500 "Internal server error"; so does
    it report nil. *)
Theorem GetAppError_default (e : error) (texts : list string) :
  let err := wrap_all texts (apperrors.Leaf e) in
  apperrors.IsAppError (Some err) = false
  /\ apperrors.GetAppError (Some err) = apperrors.ErrInternalServer
  /\ apperrors.Code (apperrors.GetAppError (Some err)) = 500
  /\ apperrors.GetAppError None = apperrors.ErrInternalServer
  /\ apperrors.IsAppError None = false.
Proof.
  intros err.
  unfold apperrors.GetAppError, apperrors.IsAppError, err.
  rewrite errors_As_wrap_all. cbn. repeat split.
Qed.


(** ** [pkg/validator] *)

Lemma map_get_filter_other (k f : string) (m : list (string * string)) :
  (k =? f)%string = false ->
  validator.map_get f
    (filter (fun kv => negb (fst kv =? k)%string) m)
  = validator.map_get f m.
Proof.
  intros Hkf. induction m as [|[k' v] m IH]; [reflexivity|].
  cbn. destruct (k' =? k)%string eqn:Ek; cbn.
  - apply String.eqb_eq in Ek. subst k'. rewrite Hkf. exact IH.
  - rewrite IH. reflexivity.
Qed.

Lemma map_get_set (k v f : string) (m : list (string * string)) :
  validator.map_get f (validator.map_set k v m)
  = if (k =? f)%string then Some v else validator.map_get f m.
Proof.
  unfold validator.map_set. cbn.
  destruct (k =? f)%string eqn:E; [reflexivity|].
  apply map_get_filter_other. exact E.
Qed.

Lemma map_set_keys_NoDup (k v : string) (m : list (string * string)) :
  NoDup (map fst m) -> NoDup (map fst (validator.map_set k v m)).
Proof.
  intros Hnd. unfold validator.map_set. cbn. constructor.
  - intros Hin. apply in_map_iff in Hin. destruct Hin as ([k' v'] & Hk & Hin).
    apply filter_In in Hin. destruct Hin as [_ Hneq].
    cbn in Hk, Hneq. subst k'. rewrite String.eqb_refl in Hneq. discriminate.
  - induction m as [|[k' v'] m IH]; [constructor|].
    cbn in Hnd |- *. inversion Hnd as [|? ? Hnotin Hrest]; subst.
    destruct (k' =? k)%string; cbn; [apply IH; exact Hrest|].
    constructor; [|apply IH; exact Hrest].
    intros Hin. apply Hnotin.
    apply in_map_iff in Hin. destruct Hin as ([k2 v2] & Hk & Hin).
    apply filter_In in Hin. destruct Hin as [Hin _].
    apply in_map_iff. exists (k2, v2). split; assumption.
Qed.

Lemma find_app_last {A : Type} (p : A -> bool) (l : list A) (x : A) :
  find p (l ++ [x])
  = match find p l with
    | Some y => Some y
    | None => if p x then Some x else None
    end.
Proof.
  induction l as [|a l IH]; cbn; [reflexivity|].
  destruct (p a); [reflexivity|exact IH].
Qed.

Lemma FormatValidationErrors_fold (f : string)
    (errs : list validator.FieldError) :
  forall m,
    validator.map_get f
      (fold_left
         (fun errors e =>
            validator.map_set (validator.Field e)
              (validator.getErrorMessage e) errors) errs m)
    = match find (fun e => (validator.Field e =? f)%string) (rev errs) with
      | Some e => Some (validator.getErrorMessage e)
      | None => validator.map_get f m
      end
    /\ (NoDup (map fst m) ->
        NoDup (map fst
                 (fold_left
                    (fun errors e =>
                       validator.map_set (validator.Field e)
                         (validator.getErrorMessage e) errors) errs m))).
Proof.
  induction errs as [|e errs IH]; intros m; [split; [reflexivity|auto]|].
  cbn [fold_left rev]. destruct (IH (validator.map_set (validator.Field e)
                                       (validator.getErrorMessage e) m))
    as [Hget Hnd].
  split.
  - rewrite Hget, find_app_last, map_get_set.
    destruct (find _ (rev errs)); [reflexivity|].
    destruct (validator.Field e =? f)%string; reflexivity.
  - intros Hm. apply Hnd. apply map_set_keys_NoDup. exact Hm.
Qed.

(** X20. The map [FormatValidationErrors] builds from the validator's
    errors has one entry per field that failed, holding the message of
    the last error reported for that field, and nothing for the other
    fields; an error that is not the validator's (a body that is not
    JSON) gives the empty map, with which the handlers answer 422
    "Validation failed". *)
Theorem FormatValidationErrors_last_wins
    (errs : list validator.FieldError) (f : string) :
  let errors :=
    validator.FormatValidationErrors (validator.ValidationErrors errs) in
  validator.map_get f errors
    = option_map validator.getErrorMessage
        (find (fun e => (validator.Field e =? f)%string) (rev errs))
  /\ NoDup (map fst errors)
  /\ (forall text,
        validator.FormatValidationErrors (validator.OtherError text) = [])
  /\ (forall text (w : World gorm.DB),
        handler.Login standin.CheckPassword standin.GenerateToken
          (handler.BindFailed
             (validator.FormatValidationErrors (validator.OtherError text)))
          w
        = Some (response.ValidationError [], w)).
Proof.
  intros errors. unfold errors, validator.FormatValidationErrors.
  destruct (FormatValidationErrors_fold f errs []) as [Hget Hnd].
  split.
  - rewrite Hget. destruct (find _ (rev errs)); reflexivity.
  - split; [apply Hnd; constructor|]. split; reflexivity.
Qed.

Lemma before_comma_no_comma (s : string) :
  has_byte ","%char (validator.before_comma s) = false.
Proof.
  induction s as [|c rest IH]; [reflexivity|].
  cbn. destruct (Ascii.eqb c ",") eqn:E; [reflexivity|].
  cbn. rewrite E. exact IH.
Qed.

Lemma before_comma_split (s : string) :
  s = validator.before_comma s
  \/ exists rest, s = validator.before_comma s ++ "," ++ rest.
Proof.
  induction s as [|c rest IH]; [left; reflexivity|].
  cbn. destruct (Ascii.eqb c ",") eqn:E.
  - right. exists rest. apply Ascii.eqb_eq in E. subst c. reflexivity.
  - destruct IH as [IH|[rest' IH]].
    + left. f_equal. exact IH.
    + right. exists rest'. cbn. f_equal. exact IH.
Qed.

(** X21. The name the validator uses for a field is the part of its
    [json] tag before the first comma, so it never holds a comma and the
    tag is that name alone or that name, a comma and options; a tag
    whose name part is "-" gives the empty name. *)
Theorem tagName_is_tag_prefix (jsonTag : string) :
  has_byte ","%char (validator.tagName jsonTag) = false
  /\ (validator.before_comma jsonTag = "-" ->
      validator.tagName jsonTag = "")
  /\ (validator.before_comma jsonTag <> "-" ->
      validator.tagName jsonTag = validator.before_comma jsonTag
      /\ (jsonTag = validator.tagName jsonTag
          \/ exists options,
               jsonTag = validator.tagName jsonTag ++ "," ++ options)).
Proof.
  unfold validator.tagName.
  destruct (validator.before_comma jsonTag =? "-")%string eqn:E.
  - apply String.eqb_eq in E. split; [reflexivity|].
    split; [reflexivity|]. intros Hne. contradiction.
  - apply String.eqb_neq in E.
    split; [apply before_comma_no_comma|].
    split; [intros He; contradiction|].
    intros _. split; [reflexivity|apply before_comma_split].
Qed.

(** The tags ["email,omitempty"] and ["-"]. *)
Lemma tagName_is_tag_prefix_witness :
  validator.tagName "email,omitempty" = "email"
  /\ validator.tagName "-" = ""
  /\ validator.before_comma "email,omitempty" <> "-"
  /\ ("email,omitempty" = validator.tagName "email,omitempty"
      \/ exists options,
           "email,omitempty"
           = validator.tagName "email,omitempty" ++ "," ++ options).
Proof.
  split; [reflexivity|]. split; [reflexivity|].
  assert (Hne : validator.before_comma "email,omitempty" <> "-")
    by (vm_compute; discriminate).
  split; [exact Hne|].
  exact (proj2 (proj2 (proj2 (tagName_is_tag_prefix "email,omitempty"))
                  Hne)).
Defined.


(** ** [pkg/utils] *)

Lemma get_in_range (s : string) :
  forall n, (n < String.length s)%nat ->
            exists c, String.get n s = Some c /\ has_byte c s = true.
Proof.
  induction s as [|c rest IH]; intros n Hn; cbn in Hn; [lia|].
  destruct n as [|n]; cbn.
  - exists c. split; [reflexivity|]. rewrite Ascii.eqb_refl. reflexivity.
  - destruct (IH n ltac:(lia)) as (c' & Hget & Hin).
    exists c'. split; [exact Hget|]. rewrite Hin. apply orb_true_r.
Qed.

Lemma length_append_one (s : string) (c : ascii) :
  String.length (s ++ String c "") = S (String.length s).
Proof.
  induction s as [|a s IH]; cbn; [reflexivity|]. rewrite IH. reflexivity.
Qed.

Lemma all_bytes_append_one (p : ascii -> bool) (s : string) (c : ascii) :
  all_bytes p (s ++ String c "") = all_bytes p s && p c.
Proof.
  induction s as [|a s IH]; cbn; [apply andb_true_r|].
  rewrite IH. apply andb_assoc.
Qed.

Section RandomFacts.

Variable Reader : Type.
Variable rand_Int : Reader -> Z -> (Z * option error) * Reader.
Variable can_allocate : Z -> bool.

(** The contract of [rand.Int]: without an error, the number drawn is in
    the interval from 0 up to, not including, [max]. *)
Hypothesis rand_Int_range :
  forall r max, 0 < max ->
    snd (fst (rand_Int r max)) = None ->
    0 <= fst (fst (rand_Int r max)) < max.

Lemma fill_spec (charset : string) :
  charset <> "" ->
  forall n r acc,
    all_bytes (fun c => has_byte c charset) acc = true ->
    exists s err r',
      utils.fill Reader rand_Int charset n r acc = Some ((s, err), r')
      /\ (err = None ->
          String.length s = (String.length acc + n)%nat
          /\ all_bytes (fun c => has_byte c charset) s = true)
      /\ (err <> None -> s = "").
Proof.
  intros Hne.
  assert (Hlen : 0 < Z.of_nat (String.length charset)).
  { destruct charset; [contradiction|cbn; lia]. }
  induction n as [|n IH]; intros r acc Hacc; cbn [utils.fill].
  - exists acc, None, r. split; [reflexivity|].
    split; [intros _; split; [lia|exact Hacc]|intros H; contradiction].
  - pose proof (rand_Int_range r _ Hlen) as Hrange.
    destruct (rand_Int r (Z.of_nat (String.length charset)))
      as [[num err] r'].
    destruct err as [e|]; cbn [not_nil].
    + exists "", (Some e), r'. split; [reflexivity|].
      split; [discriminate|reflexivity].
    + specialize (Hrange eq_refl). cbn in Hrange.
      destruct (Z.ltb_spec num 0); [lia|].
      destruct (get_in_range charset (Z.to_nat num) ltac:(lia))
        as (c & -> & Hc).
      destruct (IH r' (acc ++ String c ""))
        as (s & err & r'' & Hrun & Hok & Hfail).
      { rewrite all_bytes_append_one, Hacc, Hc. reflexivity. }
      exists s, err, r''. split; [exact Hrun|].
      split; [|exact Hfail].
      intros Herr. destruct (Hok Herr) as [Hl Hall].
      split; [rewrite Hl, length_append_one; lia|exact Hall].
Qed.

(** X22. Provided [rand.Int] keeps to its range, [GenerateRandomString]
    and [GenerateOTP] never index out of their alphabets: for a length
    that is not negative and that the runtime can allocate they return
    either exactly [length] bytes, all of them letters or digits
    (decimal digits for the OTP), or an error with the empty string; a
    negative length panics, and so does a length the runtime cannot
    allocate, before a single number is drawn. *)
Theorem random_strings_stay_in_alphabet (length : Z) (r : Reader) :
  (0 <= length -> can_allocate length = true ->
   (exists s err r',
      utils.GenerateRandomString Reader rand_Int can_allocate length r
        = Some ((s, err), r')
      /\ (err = None ->
          Z.of_nat (String.length s) = length
          /\ all_bytes
               (fun c =>
                  has_byte c
                    "abcdefghijklmnopqrstuvwxyzABCDEFGHIJKLMNOPQRSTUVWXYZ0123456789")
               s = true)
      /\ (err <> None -> s = ""))
   /\ (exists s err r',
         utils.GenerateOTP Reader rand_Int can_allocate length r
           = Some ((s, err), r')
         /\ (err = None ->
             Z.of_nat (String.length s) = length
             /\ all_bytes (fun c => not_nil (strconv.digit c)) s = true)
         /\ (err <> None -> s = "")))
  /\ (length < 0 \/ can_allocate length = false ->
      utils.GenerateRandomString Reader rand_Int can_allocate length r = None
      /\ utils.GenerateOTP Reader rand_Int can_allocate length r = None).
Proof.
  split.
  - intros Hlen Halloc.
    unfold utils.GenerateRandomString, utils.GenerateOTP, utils.make_bytes.
    rewrite Halloc.
    destruct (Z.ltb_spec length 0); [lia|]. cbn [orb negb].
    split.
    + destruct (fill_spec
                  "abcdefghijklmnopqrstuvwxyzABCDEFGHIJKLMNOPQRSTUVWXYZ0123456789"
                  ltac:(discriminate) (Z.to_nat length) r "" eq_refl)
        as (s & err & r' & Hrun & Hok & Hfail).
      exists s, err, r'. split; [exact Hrun|]. split; [|exact Hfail].
      intros Herr. destruct (Hok Herr) as [Hl Hall].
      split; [rewrite Hl; cbn; lia|exact Hall].
    + destruct (fill_spec "0123456789" ltac:(discriminate)
                  (Z.to_nat length) r "" eq_refl)
        as (s & err & r' & Hrun & Hok & Hfail).
      exists s, err, r'. split; [exact Hrun|]. split; [|exact Hfail].
      intros Herr. destruct (Hok Herr) as [Hl Hall].
      split; [rewrite Hl; cbn; lia|].
      clear - Hall. induction s as [|c s IH]; [reflexivity|].
      cbn [all_bytes] in Hall |- *.
      apply andb_prop in Hall. destruct Hall as [Hc Hs].
      rewrite (IH Hs), andb_true_r.
      cbn [has_byte] in Hc.
      repeat (apply orb_prop in Hc;
              destruct Hc as [Hc|Hc];
              [apply Ascii.eqb_eq in Hc; subst c; reflexivity|]).
      discriminate Hc.
  - intros Hbad.
    unfold utils.GenerateRandomString, utils.GenerateOTP, utils.make_bytes.
    destruct Hbad as [Hneg|Halloc].
    + destruct (Z.ltb_spec length 0); [split; reflexivity|lia].
    + rewrite Halloc, orb_true_r. split; reflexivity.
Qed.

End RandomFacts.

(** A six-digit OTP from a reader that counts; a request for 2^62 bytes,
    which no runtime grants. *)
Lemma random_strings_stay_in_alphabet_witness :
  (forall r max, 0 < max ->
     snd (fst (fixture.counter_Int r max)) = None ->
     0 <= fst (fst (fixture.counter_Int r max)) < max)
  /\ fixture.can_allocate 6 = true
  /\ fixture.can_allocate 4611686018427387904 = false
  /\ utils.GenerateOTP Z fixture.counter_Int fixture.can_allocate 6 0
     = Some (("074185", None), 42)
  /\ utils.GenerateOTP Z fixture.broken_Int fixture.can_allocate 6 0
     = Some (("", Some (external_error "unexpected EOF")), 0)
  /\ (exists s err r',
        utils.GenerateOTP Z fixture.counter_Int fixture.can_allocate 6 0
          = Some ((s, err), r')
        /\ (err = None ->
            Z.of_nat (String.length s) = 6
            /\ all_bytes (fun c => not_nil (strconv.digit c)) s = true)
        /\ (err <> None -> s = ""))
  /\ utils.GenerateRandomString Z fixture.counter_Int fixture.can_allocate
       4611686018427387904 0 = None
  /\ utils.GenerateOTP Z fixture.counter_Int fixture.can_allocate
       4611686018427387904 0 = None.
Proof.
  assert (Hrange : forall r max, 0 < max ->
            snd (fst (fixture.counter_Int r max)) = None ->
            0 <= fst (fst (fixture.counter_Int r max)) < max).
  { intros r max Hmax _. cbn. apply Z.mod_pos_bound. exact Hmax. }
  split; [exact Hrange|].
  split; [reflexivity|].
  split; [reflexivity|].
  split; [vm_compute; reflexivity|].
  split; [vm_compute; reflexivity|].
  split.
  - exact (proj2 (proj1 (random_strings_stay_in_alphabet Z fixture.counter_Int
                           fixture.can_allocate Hrange 6 0)
                    ltac:(lia) eq_refl)).
  - exact (proj2 (random_strings_stay_in_alphabet Z fixture.counter_Int
                    fixture.can_allocate Hrange 4611686018427387904 0)
             (or_intror eq_refl)).
Defined.

Lemma ReplaceAll_byte_removes (s : string) (old new : ascii) :
  Ascii.eqb new old = false ->
  has_byte old (utils.ReplaceAll_byte s old new) = false
  /\ String.length (utils.ReplaceAll_byte s old new) = String.length s.
Proof.
  intros Hne. induction s as [|c rest [IH1 IH2]]; [split; reflexivity|].
  cbn. rewrite IH1, IH2. split; [|reflexivity].
  destruct (Ascii.eqb c old) eqn:E; [rewrite Hne|rewrite E]; reflexivity.
Qed.

(** X23. Whatever the input, and whatever [ToLower] and [TrimSpace] do
    with it, the slug holds no space: every space left after trimming
    has become a hyphen, and the slug is as long as the lower-cased,
    trimmed input. *)
Theorem SlugFromString_has_no_space
    (ToLower TrimSpace : string -> string) (s : string) :
  has_byte " "%char (utils.SlugFromString ToLower TrimSpace s) = false
  /\ String.length (utils.SlugFromString ToLower TrimSpace s)
     = String.length (TrimSpace (ToLower s)).
Proof.
  unfold utils.SlugFromString.
  apply ReplaceAll_byte_removes. reflexivity.
Qed.

Lemma ParseDateString_loop_spec
    (time_Parse : string -> string -> Z * option error)
    (dateStr : string) (ls : list string) :
  snd (utils.ParseDateString_loop time_Parse ls dateStr) = None
  /\ ((forall layout, In layout ls ->
         snd (time_Parse layout dateStr) <> None) ->
      utils.ParseDateString_loop time_Parse ls dateStr = (0, None))
  /\ ((exists layout, In layout ls
                      /\ snd (time_Parse layout dateStr) = None) ->
      exists before layout after,
        ls = (before ++ layout :: after)%list
        /\ (forall l, In l before -> snd (time_Parse l dateStr) <> None)
        /\ utils.ParseDateString_loop time_Parse ls dateStr
           = (fst (time_Parse layout dateStr), None)
        /\ snd (time_Parse layout dateStr) = None).
Proof.
  induction ls as [|l ls (IH1 & IH2 & IH3)]; cbn [utils.ParseDateString_loop].
  - split; [reflexivity|]. split; [reflexivity|].
    intros (layout & [] & _).
  - destruct (time_Parse l dateStr) as [t [e|]] eqn:Hl.
    + split; [exact IH1|]. split.
      * intros Hall. apply IH2. intros layout Hin. apply Hall. right.
        exact Hin.
      * intros (layout & [->|Hin] & Hok);
          [rewrite Hl in Hok; discriminate|].
        destruct (IH3 (ex_intro _ layout (conj Hin Hok)))
          as (before & layout' & after & -> & Hbefore & Hrun & Hok').
        exists (l :: before), layout', after.
        split; [reflexivity|]. split; [|split; assumption].
        intros l' [<-|Hin']; [rewrite Hl; discriminate|].
        apply Hbefore. exact Hin'.
    + split; [reflexivity|]. split.
      * intros Hall. exfalso. apply (Hall l); [left; reflexivity|].
        rewrite Hl. reflexivity.
      * intros _. exists [], l, ls.
        split; [reflexivity|]. split; [intros l' []|].
        rewrite Hl. split; reflexivity.
Qed.

(** X24. [ParseDateString] never reports an error: for a string that no
    layout of its list parses it returns the zero time with a nil error,
    and otherwise the time given by the first layout, in list order, that
    parses the string. *)
Theorem ParseDateString_never_fails
    (time_Parse : string -> string -> Z * option error) (dateStr : string) :
  snd (utils.ParseDateString time_Parse dateStr) = None
  /\ ((forall layout, In layout utils.layouts ->
         snd (time_Parse layout dateStr) <> None) ->
      utils.ParseDateString time_Parse dateStr = (0, None))
  /\ ((exists layout, In layout utils.layouts
                      /\ snd (time_Parse layout dateStr) = None) ->
      exists before layout after,
        utils.layouts = (before ++ layout :: after)%list
        /\ (forall l, In l before -> snd (time_Parse l dateStr) <> None)
        /\ utils.ParseDateString time_Parse dateStr
           = (fst (time_Parse layout dateStr), None)
        /\ snd (time_Parse layout dateStr) = None).
Proof.
  exact (ParseDateString_loop_spec time_Parse dateStr utils.layouts).
Qed.


(** ** [database/seeder] *)

Lemma find_app_some {A : Type} (p : A -> bool) (l l' : list A) (x : A) :
  find p l = Some x -> find p (l ++ l') = Some x.
Proof.
  induction l as [|a l IH]; cbn; [discriminate|].
  destruct (p a); [trivial|exact IH].
Qed.

(** A successful [Create] appends: what [First] found before, it still
    finds. *)
Lemma gorm_Create_preserves_First (db db' : gorm.DB)
    (user created x : entity.User) (cond : entity.User -> bool) :
  gorm.Create db user = (db', created, None) ->
  gorm.First db cond = (Some x, None) ->
  gorm.First db' cond = (Some x, None).
Proof.
  unfold gorm.Create, gorm.First.
  destruct (gorm.failure db); [discriminate|].
  destruct (existsb _ (gorm.rows db)); [discriminate|].
  intros [= <- _] Hfirst. cbn.
  destruct (find _ (gorm.rows db)) as [y|] eqn:Hf; [|discriminate].
  rewrite (find_app_some _ _ _ _ Hf). exact Hfirst.
Qed.

Lemma seedUsers_loop_skips (users : list entity.User) (db : gorm.DB) :
  (forall u, In u users ->
     exists x, gorm.First db
                 (fun r => (entity.Email r =? entity.Email u)%string)
               = (x, None)) ->
  forall logs,
    seeder.seedUsers_loop users db logs
    = (db,
       (logs ++ map (fun u => ("User " ++ entity.Email u
                               ++ " already exists, skipping...")%string)
                  users)%list,
       None).
Proof.
  induction users as [|u users IH]; intros Hall logs; cbn.
  - rewrite app_nil_r. reflexivity.
  - destruct (Hall u (or_introl eq_refl)) as [x ->].
    rewrite IH by (intros u' Hin; apply Hall; right; exact Hin).
    rewrite <- app_assoc. reflexivity.
Qed.

Lemma seedUsers_loop_makes_findable (users : list entity.User) :
  (forall u, In u users -> entity.DeletedAt u = None) ->
  forall db logs db1 logs1,
    seeder.seedUsers_loop users db logs = (db1, logs1, None) ->
    (forall cond x, gorm.First db cond = (Some x, None) ->
                    gorm.First db1 cond = (Some x, None))
    /\ (forall u, In u users ->
          exists x, gorm.First db1
                      (fun r => (entity.Email r =? entity.Email u)%string)
                    = (Some x, None)).
Proof.
  intros Hvis.
  induction users as [|u users IH]; intros db logs db1 logs1 Hrun;
    cbn in Hrun.
  - injection Hrun as <- _. split; [trivial|intros u []].
  - assert (Hvis' : forall u', In u' users -> entity.DeletedAt u' = None)
      by (intros u' Hin; apply Hvis; right; exact Hin).
    destruct (gorm_First_shape db
                (fun r => (entity.Email r =? entity.Email u)%string))
      as [[x Hx]|[e He]].
    + rewrite Hx in Hrun.
      destruct (IH Hvis' _ _ _ _ Hrun) as [Hkeep Hall].
      split; [exact Hkeep|].
      intros u' [<-|Hin]; [exists x; apply Hkeep; exact Hx|].
      apply Hall. exact Hin.
    + rewrite He in Hrun.
      destruct (gorm.Create db u) as [[db' created] [cerr|]] eqn:Hc;
        [discriminate|].
      destruct (IH Hvis' _ _ _ _ Hrun) as [Hkeep Hall].
      destruct (gorm_Create_then_First db db' u created
                  (Hvis u (or_introl eq_refl)) Hc) as (Hnew & _).
      split.
      * intros cond y Hy. apply Hkeep.
        apply (gorm_Create_preserves_First db db' u created y cond Hc Hy).
      * intros u' [<-|Hin];
          [exists (gorm.stored created); apply Hkeep; exact Hnew|].
        apply Hall. exact Hin.
Qed.

(** X25. Seeding is idempotent: on a database where a first [Seed]
    succeeded, a second [Seed] finds both accounts, creates nothing,
    leaves the database exactly as it is and succeeds, logging that each
    user already exists. *)
Theorem Seed_idempotent (db db1 : gorm.DB) (logs logs1 : list string) :
  seeder.Seed db logs = (db1, logs1, None) ->
  seeder.Seed db1 logs1
  = (db1,
     (logs1 ++
        ["Running database seeders...";
         "User admin@example.com already exists, skipping...";
         "User user@example.com already exists, skipping...";
         "Database seeding completed!"])%list,
     None).
Proof.
  unfold seeder.Seed, seeder.seedUsers. intros Hrun.
  destruct (seeder.seedUsers_loop seeder.users db
              (logs ++ ["Running database seeders..."]))
    as [[db' logs'] [err|]] eqn:Hloop; [discriminate|].
  injection Hrun as <- _.
  destruct (seedUsers_loop_makes_findable seeder.users
              ltac:(intros u [<-|[<-|[]]]; reflexivity) _ _ _ _ Hloop)
    as [_ Hall].
  rewrite seedUsers_loop_skips.
  - cbn. rewrite <- !app_assoc. reflexivity.
  - intros u Hin. destruct (Hall u Hin) as [x Hx]. exists (Some x). exact Hx.
Qed.

(** Seeding the two-user store, twice. *)
Lemma Seed_idempotent_witness :
  exists db1 logs1,
    seeder.Seed standin.db [] = (db1, logs1, None)
    /\ List.length (gorm.rows db1) = 4%nat
    /\ seeder.Seed db1 logs1
       = (db1,
          (logs1 ++
             ["Running database seeders...";
              "User admin@example.com already exists, skipping...";
              "User user@example.com already exists, skipping...";
              "Database seeding completed!"])%list,
          None).
Proof.
  eexists; eexists.
  split; [vm_compute; reflexivity|].
  split; [reflexivity|].
  apply (Seed_idempotent standin.db _ [] _).
  vm_compute; reflexivity.
Defined.

(** X26. A soft-deleted account blocks the seeder: when the only row
    holding the admin's address is soft-deleted, the look-up does not see
    it, the insert hits the unique index on the email column, and [Seed]
    stops with that error without creating any user. *)
Theorem Seed_blocked_by_soft_deleted_account
    (db : gorm.DB) (logs : list string) (row : entity.User) :
  gorm.failure db = None ->
  In row (gorm.rows db) ->
  entity.Email row = "admin@example.com" ->
  (forall r, In r (gorm.rows db) ->
             entity.Email r = "admin@example.com" ->
             entity.DeletedAt r <> None) ->
  seeder.Seed db logs
  = (db, (logs ++ ["Running database seeders..."])%list,
     Some gorm.duplicate_key).
Proof.
  intros Hok Hin Hmail Hdel.
  unfold seeder.Seed, seeder.seedUsers, seeder.users.
  cbn [seeder.seedUsers_loop entity.Email].
  assert (Hfirst : gorm.First db
                     (fun u => (entity.Email u =? "admin@example.com")%string)
                   = (None, Some gorm_ErrRecordNotFound)).
  { unfold gorm.First. rewrite Hok.
    destruct (find _ (gorm.rows db)) as [x|] eqn:Hf; [|reflexivity].
    apply find_some in Hf. destruct Hf as [Hx Hcond].
    apply andb_prop in Hcond. destruct Hcond as [Hvis Heq].
    apply String.eqb_eq in Heq. exfalso. apply (Hdel x Hx Heq).
    unfold gorm.visible in Hvis.
    destruct (entity.DeletedAt x); [discriminate|reflexivity]. }
  rewrite Hfirst.
  unfold gorm.Create. rewrite Hok. cbn [entity.ID entity.Email N.eqb].
  assert (Hdup : existsb
            (fun r => (entity.Email r =? "admin@example.com")%string
                      || (entity.ID r =? gorm.next_id db)%N)
            (gorm.rows db) = true).
  { apply existsb_exists. exists row. split; [exact Hin|].
    rewrite Hmail. reflexivity. }
  rewrite Hdup. reflexivity.
Qed.

(** The admin account was soft-deleted; seeding again fails. *)
Lemma Seed_blocked_by_soft_deleted_account_witness :
  gorm.failure fixture.db_admin_deleted = None
  /\ In fixture.admin_deleted (gorm.rows fixture.db_admin_deleted)
  /\ seeder.Seed fixture.db_admin_deleted []
     = (fixture.db_admin_deleted, ["Running database seeders..."],
        Some gorm.duplicate_key).
Proof.
  split; [reflexivity|].
  assert (Hin : In fixture.admin_deleted (gorm.rows fixture.db_admin_deleted))
    by (left; reflexivity).
  split; [exact Hin|].
  apply (Seed_blocked_by_soft_deleted_account fixture.db_admin_deleted []
           fixture.admin_deleted eq_refl Hin eq_refl).
  intros r [<-|[]] _. discriminate.
Defined.
